(** * pokerlib: a shallow embedding of Cactus Kev's poker hand evaluator

    The development follows the three C files of the library:
    [poker.h] (constants), [pokerlib.c] (deck construction, display,
    the five- and seven-card evaluators) and [allfive.c] (the exhaustive
    enumeration of all five-card hands).

    C [int] values are integers of [Z] with the 32-bit wrap-around written
    out where the code computes in [unsigned]; arrays are lists read and
    written by index, an access out of range being an error ([None]). *)

From Stdlib Require Import ZArith List Lia Bool String Ascii Permutation.
Import ListNotations.
Local Open Scope Z_scope.

(* ================================================================= *)
(** ** Machine integers and arrays *)

Module CInt.

(** Conversion to [unsigned] (32 bits). *)
Definition to_uint (x : Z) : Z := x mod 2 ^ 32.

(** Conversion to [int] (32 bits, two's complement). *)
Definition to_int (x : Z) : Z := (x + 2 ^ 31) mod 2 ^ 32 - 2 ^ 31.

(** Conversion to [unsigned short] (16 bits). *)
Definition to_ushort (x : Z) : Z := x mod 2 ^ 16.

(** Conversion to [short] (16 bits, two's complement). *)
Definition to_short (x : Z) : Z := (x + 2 ^ 15) mod 2 ^ 16 - 2 ^ 15.

(** [a[i]] as an rvalue. *)
Definition rd {A : Type} (a : list A) (i : Z) : option A :=
  if i <? 0 then None else nth_error a (Z.to_nat i).

(** [a[i] = v]. *)
Fixpoint wr_nat {A : Type} (a : list A) (n : nat) (v : A) : option (list A) :=
  match a, n with
  | [], _ => None
  | _ :: t, O => Some (v :: t)
  | x :: t, S n' =>
      match wr_nat t n' v with
      | Some t' => Some (x :: t')
      | None => None
      end
  end.

Definition wr {A : Type} (a : list A) (i : Z) (v : A) : option (list A) :=
  if i <? 0 then None else wr_nat a (Z.to_nat i) v.

(** Sequencing of fallible steps. *)
Definition bind {A B : Type} (m : option A) (f : A -> option B) : option B :=
  match m with
  | Some x => f x
  | None => None
  end.

(** [for (i = lo; i < lo + n; i++) body], threading the state [s]. *)
Fixpoint for_loop {S : Type} (n : nat) (lo : Z)
         (body : Z -> S -> option S) (s : S) : option S :=
  match n with
  | O => Some s
  | Datatypes.S n' => bind (body lo s) (for_loop n' (lo + 1) body)
  end.

(** [for (i = lo; i < hi; i++) body]. *)
Definition for_range {S : Type} (lo hi : Z)
           (body : Z -> S -> option S) (s : S) : option S :=
  for_loop (Z.to_nat (hi - lo)) lo body s.

End CInt.
Import CInt.

Notation "x <- m ;; f" := (bind m (fun x => f))
  (at level 61, m at next level, right associativity).

(* ================================================================= *)
(** ** poker.h *)

Definition STRAIGHT_FLUSH : Z := 1.
Definition FOUR_OF_A_KIND : Z := 2.
Definition FULL_HOUSE : Z := 3.
Definition FLUSH : Z := 4.
Definition STRAIGHT : Z := 5.
Definition THREE_OF_A_KIND : Z := 6.
Definition TWO_PAIR : Z := 7.
Definition ONE_PAIR : Z := 8.
Definition HIGH_CARD : Z := 9.

Definition RANK (x : Z) : Z := Z.land (Z.shiftr x 8) 0xF.

Definition CLUB : Z := 0x8000.
Definition DIAMOND : Z := 0x4000.
Definition HEART : Z := 0x2000.
Definition SPADE : Z := 0x1000.

(* ================================================================= *)
(** ** arrays.h

    The header with the lookup tables is not among the sources.  The
    evaluator is therefore parameterised by a record holding the tables
    it reads; only [primes], whose contents [pokerlib.c] documents, is
    given in full. *)

(** Modelled from the spec: the table [primes] of arrays.h, "a unique
    prime associated with the rank (2->2, 3->3, 4->5, 5->7, ...,
    Ace->41)"; the comment above [init_deck] gives the same values. *)
Definition primes : list Z := [2; 3; 5; 7; 11; 13; 17; 19; 23; 29; 31; 37; 41].

(** Modelled from the spec: the lookup tables of arrays.h, read by the
    evaluator: the flush table, the distinct-rank table, the perfect-hash
    pair (adjustment and value tables) and the table of the 21 index
    combinations of five out of seven.  Entries of the first four are
    [unsigned short] values. *)
Record arrays : Type := Arrays {
  flushes : list Z;
  unique5 : list Z;
  hash_adjust : list Z;
  hash_values : list Z;
  perm7 : list (list Z)
}.

(* ================================================================= *)
(** ** pokerlib.c *)

(** *** hand_rank *)

Definition hand_rank (val : Z) : Z :=
  if val >? 6185 then HIGH_CARD
  else if val >? 3325 then ONE_PAIR
  else if val >? 2467 then TWO_PAIR
  else if val >? 1609 then THREE_OF_A_KIND
  else if val >? 1599 then STRAIGHT
  else if val >? 322 then FLUSH
  else if val >? 166 then FULL_HOUSE
  else if val >? 10 then FOUR_OF_A_KIND
  else STRAIGHT_FLUSH.

(** *** find_fast *)

Definition find_fast (T : arrays) (u : Z) : option Z :=
  let u := to_uint (u + 0xe91aaa35) in
  let u := Z.lxor u (Z.shiftr u 16) in
  let u := to_uint (u + to_uint (Z.shiftl u 8)) in
  let u := Z.lxor u (Z.shiftr u 4) in
  let b := Z.land (Z.shiftr u 8) 0x1ff in
  let a := Z.shiftr (to_uint (u + to_uint (Z.shiftl u 2))) 19 in
  adj <- rd (hash_adjust T) b ;;
  Some (Z.lxor a adj).

(** *** eval_5cards *)

(** The return statement that produces the result. *)
Inductive branch : Type := ByFlushes | ByUnique5 | ByHash.

(** The value of [c1 & c2 & c3 & c4 & c5 & 0xf000]. *)
Definition suit_and (c1 c2 c3 c4 c5 : Z) : Z :=
  Z.land (Z.land (Z.land (Z.land (Z.land c1 c2) c3) c4) c5) 0xf000.

(** The value of [(c1 | c2 | c3 | c4 | c5) >> 16]. *)
Definition rank_or (c1 c2 c3 c4 c5 : Z) : Z :=
  Z.shiftr (Z.lor (Z.lor (Z.lor (Z.lor c1 c2) c3) c4) c5) 16.

(** The product of two [int] values, which wraps around on the machines
    the library runs on. *)
Definition mul_int (a b : Z) : Z := to_int (a * b).

(** The value of
    [(c1 & 0xff) * (c2 & 0xff) * (c3 & 0xff) * (c4 & 0xff) * (c5 & 0xff)]. *)
Definition prime_product (c1 c2 c3 c4 c5 : Z) : Z :=
  mul_int
    (mul_int
       (mul_int (mul_int (Z.land c1 0xff) (Z.land c2 0xff)) (Z.land c3 0xff))
       (Z.land c4 0xff))
    (Z.land c5 0xff).

(** [eval_5cards], with the return statement taken recorded next to the
    value returned. *)
Definition eval_5cards_traced (T : arrays) (c1 c2 c3 c4 c5 : Z)
  : option (branch * Z) :=
  let q := rank_or c1 c2 c3 c4 c5 in
  if negb (suit_and c1 c2 c3 c4 c5 =? 0) then
    v <- rd (flushes T) q ;;
    Some (ByFlushes, to_ushort v)
  else
    u <- rd (unique5 T) q ;;
    let s := to_short u in
    if negb (s =? 0) then Some (ByUnique5, to_ushort s)
    else
      let q := prime_product c1 c2 c3 c4 c5 in
      i <- find_fast T (to_uint q) ;;
      v <- rd (hash_values T) i ;;
      Some (ByHash, to_ushort v).

Definition eval_5cards (T : arrays) (c1 c2 c3 c4 c5 : Z) : option Z :=
  option_map snd (eval_5cards_traced T c1 c2 c3 c4 c5).

(** *** eval_5hand *)

Definition eval_5hand (T : arrays) (hand : list Z) : option Z :=
  c1 <- rd hand 0 ;;
  c2 <- rd hand 1 ;;
  c3 <- rd hand 2 ;;
  c4 <- rd hand 3 ;;
  c5 <- rd hand 4 ;;
  eval_5cards T c1 c2 c3 c4 c5.

(** *** eval_7hand *)

(** The inner loop: [subhand[j] = hand[perm7[i][j]]] for [j] from 0 to 4,
    on the row [perm7[i]]. *)
Definition fill_subhand (hand : list Z) (row : list Z) (subhand : list Z)
  : option (list Z) :=
  for_range 0 5
    (fun j sub => k <- rd row j ;; c <- rd hand k ;; wr sub j c)
    subhand.

(** The local array [subhand] is written in full before it is read; it
    starts here filled with zeros. *)
Definition eval_7hand (T : arrays) (hand : list Z) : option Z :=
  r <- for_range 0 21
         (fun i st =>
            let '(subhand, best) := st in
            row <- rd (perm7 T) i ;;
            subhand <- fill_subhand hand row subhand ;;
            q <- eval_5hand T subhand ;;
            Some (subhand, if q <? best then q else best))
         ([0; 0; 0; 0; 0], 9999) ;;
  Some (snd r).

(** *** init_deck *)

(** The value stored by the body of the inner loop,
    [primes[j] | ((2+j) << 8) | suit | (1 << (16+j))]. *)
Definition card_bits (p j suit : Z) : Z :=
  Z.lor (Z.lor (Z.lor p (Z.shiftl (2 + j) 8)) suit) (Z.shiftl 1 (16 + j)).

(** [deck] is the caller's array; the result is its contents on return. *)
Definition init_deck (deck : list Z) : option (list Z) :=
  r <- for_range 0 4
         (fun i st =>
            let '(deck, n, suit) := st in
            r <- for_range 0 13
                   (fun j st =>
                      let '(deck, n) := st in
                      p <- rd primes j ;;
                      deck <- wr deck n (card_bits p j suit) ;;
                      Some (deck, n + 1))
                   (deck, n) ;;
            let '(deck, n) := r in
            Some (deck, n, Z.shiftr suit 1))
         (deck, 0, CLUB) ;;
  Some (fst (fst r)).

(** *** find_card *)

(** The test [(c & suit) && (RANK(c) == rank)] of [find_card]. *)
Definition card_matches (rank suit c : Z) : bool :=
  negb (Z.land c suit =? 0) && (RANK c =? rank).

(** The loop of [find_card] from index [i], with [n] iterations left. *)
Fixpoint find_card_from (n : nat) (i : Z) (rank suit : Z) (deck : list Z)
  : option Z :=
  match n with
  | O => Some (-1)
  | S n' =>
      c <- rd deck i ;;
      if card_matches rank suit c then Some i
      else find_card_from n' (i + 1) rank suit deck
  end.

Definition find_card (rank suit : Z) (deck : list Z) : option Z :=
  find_card_from 52 0 rank suit deck.

(** *** shuffle_deck *)

(** The loop [do n = (int)(51.9999999 * drand48()); while (temp[n] == 0)].
    The values the expression takes, call after call, are the input
    [draws]; the result is the index kept and the draws left.  When the
    draws run out the loop has not ended, and there is no result. *)
Fixpoint draw_card (temp : list Z) (draws : list Z) : option (Z * list Z) :=
  match draws with
  | [] => None
  | n :: rest =>
      t <- rd temp n ;;
      if t =? 0 then draw_card temp rest else Some (n, rest)
  end.

(** [deck] is the caller's array; the result is its contents on return
    and the draws not consumed.  The local array [temp] is written in
    full before it is read; it starts here filled with zeros. *)
Definition shuffle_deck (deck : list Z) (draws : list Z)
  : option (list Z * list Z) :=
  temp <- for_range 0 52 (fun i temp => x <- rd deck i ;; wr temp i x)
                    (repeat 0 52) ;;
  r <- for_range 0 52
         (fun i st =>
            let '(deck, temp, draws) := st in
            p <- draw_card temp draws ;;
            let '(n, draws) := p in
            t <- rd temp n ;;
            deck <- wr deck i t ;;
            temp <- wr temp n 0 ;;
            Some (deck, temp, draws))
         (deck, temp, draws) ;;
  Some (fst (fst r), snd r).

(** *** print_hand *)

Definition rank_str : string := "??23456789TJQKA?".

(** The text one iteration sends to [printf("%c%c ", rank[r], suit)]. *)
Definition print_card (c : Z) : option string :=
  let r := Z.land (Z.shiftr c 8) 0xF in
  let suit :=
    if negb (Z.land c CLUB =? 0) then "c"%char
    else if negb (Z.land c DIAMOND =? 0) then "d"%char
    else if negb (Z.land c HEART =? 0) then "h"%char
    else "s"%char in
  rc <- String.get (Z.to_nat r) rank_str ;;
  Some (String rc (String suit (String " "%char EmptyString))).

(** [out] is what standard output holds before the call; the result is
    what it holds after. *)
Definition print_hand (hand : list Z) (n : Z) (out : string) : option string :=
  for_range 0 n
    (fun i out =>
       c <- rd hand i ;;
       tok <- print_card c ;;
       Some (out ++ tok)%string)
    out.

(* ================================================================= *)
(** ** allfive.c *)

Definition expected_freq : list Z :=
  [0; 40; 624; 3744; 5108; 10200; 54912; 123552; 1098240; 1302540].

(** [freq[n]++]. *)
Definition incr_freq (freq : list Z) (n : Z) : option (list Z) :=
  f <- rd freq n ;; wr freq n (f + 1).

(** The body of the innermost loop, once [hand] is filled. *)
Definition tally (T : arrays) (hand : list Z) (freq : list Z) : option (list Z) :=
  value <- eval_5hand T hand ;;
  let n := hand_rank value in
  incr_freq freq n.

(** The five nested loops of [main] over [deck], from the frequency
    array [freq]; the state is the pair of the arrays [hand] and [freq]. *)
Definition all_hands_loop (T : arrays) (deck : list Z) (hand freq : list Z)
  : option (list Z * list Z) :=
  for_range 0 48 (fun a st =>
    let '(hand, freq) := st in
    x <- rd deck a ;; hand <- wr hand 0 x ;;
    for_range (a + 1) 49 (fun b st =>
      let '(hand, freq) := st in
      x <- rd deck b ;; hand <- wr hand 1 x ;;
      for_range (b + 1) 50 (fun c st =>
        let '(hand, freq) := st in
        x <- rd deck c ;; hand <- wr hand 2 x ;;
        for_range (c + 1) 51 (fun d st =>
          let '(hand, freq) := st in
          x <- rd deck d ;; hand <- wr hand 3 x ;;
          for_range (d + 1) 52 (fun e st =>
            let '(hand, freq) := st in
            x <- rd deck e ;; hand <- wr hand 4 x ;;
            freq <- tally T hand freq ;;
            Some (hand, freq))
          (hand, freq))
        (hand, freq))
      (hand, freq))
    (hand, freq))
  (hand, freq).

(** [main], up to the end of the enumeration: the array [freq] it then
    prints.  The local arrays are written before they are read; they
    start here filled with zeros.  Timing and output are left out. *)
Definition main_freq (T : arrays) : option (list Z) :=
  deck <- init_deck (repeat 0 52) ;;
  freq <- for_range 0 10 (fun i freq => wr freq i 0) (repeat 0 10) ;;
  r <- all_hands_loop T deck (repeat 0 5) freq ;;
  Some (snd r).

(* ================================================================= *)
(** ** Cards, hands and rank patterns

    The vocabulary in which the properties are stated: the 52 cards as
    suit and rank index, all choices of [k] elements of a list, and the
    poker pattern of five ranks. *)

Inductive suit : Type := Club | Diamond | Heart | Spade.

Definition suit_bit (s : suit) : Z :=
  match s with
  | Club => CLUB
  | Diamond => DIAMOND
  | Heart => HEART
  | Spade => SPADE
  end.

Definition suit_eqb (s t : suit) : bool :=
  match s, t with
  | Club, Club | Diamond, Diamond | Heart, Heart | Spade, Spade => true
  | _, _ => false
  end.

(** The prime of the rank with index [j] (0 for the deuce, 12 for the ace). *)
Definition prime_of (j : nat) : Z := nth j primes 0.

(** The encoding of the card of suit [s] and rank index [j]. *)
Definition encode (s : suit) (j : nat) : Z :=
  card_bits (prime_of j) (Z.of_nat j) (suit_bit s).

Definition encode_card (c : suit * nat) : Z := encode (fst c) (snd c).

Definition valid_card (c : Z) : Prop :=
  exists s j, (j < 13)%nat /\ c = encode s j.

(** The deck in the order [init_deck] writes it: suit by suit from clubs,
    each suit from the deuce to the ace. *)
Definition deck_cards : list (suit * nat) :=
  flat_map (fun s => map (fun j => (s, j)) (seq 0 13)) [Club; Diamond; Heart; Spade].

Definition the_deck : list Z := map encode_card deck_cards.

(** All sublists of [k] elements of [l], in the order in which nested
    loops over increasing indices visit them. *)
Fixpoint combs {A : Type} (l : list A) (k : nat) : list (list A) :=
  match k, l with
  | O, _ => [[]]
  | S _, [] => []
  | S k', x :: t => map (cons x) (combs t k') ++ combs t k
  end.

(** Ranks in increasing order. *)
Fixpoint insert (r : nat) (l : list nat) : list nat :=
  match l with
  | [] => [r]
  | x :: t => if (r <=? x)%nat then r :: l else x :: insert r t
  end.

Definition sort_ranks (rs : list nat) : list nat :=
  fold_left (fun acc r => insert r acc) rs [].

Inductive pattern : Type :=
  | Distinct | OnePair | TwoPairs | Trips | FullHouse | Quads | NoPattern.

(** The pattern of five ranks in increasing order, from which of the four
    adjacent pairs are equal. *)
Definition rank_pattern (rs : list nat) : pattern :=
  match rs with
  | [a; b; c; d; e] =>
      match (a =? b)%nat, (b =? c)%nat, (c =? d)%nat, (d =? e)%nat with
      | false, false, false, false => Distinct
      | true, false, false, false | false, true, false, false
      | false, false, true, false | false, false, false, true => OnePair
      | true, false, true, false | true, false, false, true
      | false, true, false, true => TwoPairs
      | true, true, false, false | false, true, true, false
      | false, false, true, true => Trips
      | true, true, false, true | true, false, true, true => FullHouse
      | true, true, true, false | false, true, true, true => Quads
      | true, true, true, true => NoPattern
      end
  | _ => NoPattern
  end.

(** Five distinct ranks in increasing order form a straight when they are
    consecutive, or are 2, 3, 4, 5 and the ace. *)
Definition is_straight (rs : list nat) : bool :=
  match rs with
  | [a; b; c; d; e] =>
      (e =? a + 4)%nat || ((a =? 0)%nat && (d =? 3)%nat && (e =? 12)%nat)
  | _ => false
  end.

(** The category (in the numbering of poker.h) of a hand with the ranks
    [rs], in increasing order, that is suited or not; 0 when five cards
    of a deck cannot show these ranks. *)
Definition category (suited : bool) (rs : list nat) : Z :=
  match rank_pattern rs with
  | Distinct =>
      if suited then (if is_straight rs then STRAIGHT_FLUSH else FLUSH)
      else (if is_straight rs then STRAIGHT else HIGH_CARD)
  | OnePair => ONE_PAIR
  | TwoPairs => TWO_PAIR
  | Trips => THREE_OF_A_KIND
  | FullHouse => FULL_HOUSE
  | Quads => FOUR_OF_A_KIND
  | NoPattern => 0
  end.

(** Whether the cards of a hand all have the suit of the first. *)
Definition same_suit (h : list (suit * nat)) : bool :=
  match h with
  | [] => false
  | (s, _) :: t => forallb (fun c => suit_eqb (fst c) s) t
  end.

(** The category of a hand of five cards. *)
Definition hand_category (h : list (suit * nat)) : Z :=
  category (same_suit h) (sort_ranks (map snd h)).

(* ================================================================= *)
(** ** The contract of the lookup tables *)

(** The rank-presence mask of a list of ranks: bit [j] for rank index [j]. *)
Definition rank_mask (rs : list nat) : Z :=
  fold_right (fun r m => Z.lor (Z.shiftl 1 (Z.of_nat r)) m) 0 rs.

(** The product of the primes of a list of ranks. *)
Definition rank_primes (rs : list nat) : Z :=
  fold_right (fun r p => prime_of r * p) 1 rs.

Definition increasing5 (a b c d e : nat) : Prop :=
  (a <= b /\ b <= c /\ c <= d /\ d <= e /\ e < 13)%nat.

(** [v] is an equivalence class of the category [cat]. *)
Definition class_of (cat v : Z) : Prop :=
  1 <= v <= 7462 /\ hand_rank v = cat.

(** Modelled from the spec: what the spec's section on the
    classification tables says of the contents of [flushes], [unique5],
    [hash_adjust] and [hash_values] of arrays.h.  The flush table gives,
    at the mask of five distinct ranks, a class that is a straight flush
    or a flush; the distinct-rank table gives there a class that is a
    straight or a high card, and is zero at the mask of a hand with a
    repeated rank; the perfect-hash lookup gives, at the product of the
    primes of five ranks with a repetition, a class of the category of
    that pattern. *)
Record tables_contract (T : arrays) : Prop := {
  flushes_classes :
    forall a b c d e, increasing5 a b c d e ->
      rank_pattern [a; b; c; d; e] = Distinct ->
      exists v, rd (flushes T) (rank_mask [a; b; c; d; e]) = Some v
                /\ class_of (category true [a; b; c; d; e]) v;
  unique5_classes :
    forall a b c d e, increasing5 a b c d e ->
      rank_pattern [a; b; c; d; e] = Distinct ->
      exists v, rd (unique5 T) (rank_mask [a; b; c; d; e]) = Some v
                /\ class_of (category false [a; b; c; d; e]) v;
  unique5_zero :
    forall a b c d e, increasing5 a b c d e ->
      rank_pattern [a; b; c; d; e] <> Distinct ->
      rank_pattern [a; b; c; d; e] <> NoPattern ->
      rd (unique5 T) (rank_mask [a; b; c; d; e]) = Some 0;
  hash_classes :
    forall a b c d e, increasing5 a b c d e ->
      rank_pattern [a; b; c; d; e] <> Distinct ->
      rank_pattern [a; b; c; d; e] <> NoPattern ->
      exists i v, find_fast T (rank_primes [a; b; c; d; e]) = Some i
                  /\ rd (hash_values T) i = Some v
                  /\ class_of (category false [a; b; c; d; e]) v
}.

(** Modelled from the spec: the sizes the spec gives for the tables of
    arrays.h (8192 entries for the flush and distinct-rank tables, 512
    for the adjustment table), the hash value table being large enough
    for every index the mixing function can produce, and their entries
    being [unsigned short] values. *)
Record tables_shape (T : arrays) : Prop := {
  flushes_size : Z.of_nat (List.length (flushes T)) = 8192;
  unique5_size : Z.of_nat (List.length (unique5 T)) = 8192;
  hash_adjust_size : Z.of_nat (List.length (hash_adjust T)) = 512;
  flushes_ushort : Forall (fun v => 0 <= v < 2 ^ 16) (flushes T);
  unique5_ushort : Forall (fun v => 0 <= v < 2 ^ 16) (unique5 T);
  hash_values_ushort : Forall (fun v => 0 <= v < 2 ^ 16) (hash_values T)
}.

(** Modelled from the spec: the table [perm7] of arrays.h lists "the
    fixed 21 index-combinations of 5 chosen from 7": 21 rows, each of
    five distinct indices into a seven-card hand. *)
Record perm7_contract (T : arrays) : Prop := {
  perm7_rows : List.length (perm7 T) = 21%nat;
  perm7_row :
    forall row, In row (perm7 T) ->
      List.length row = 5%nat /\ NoDup row /\ Forall (fun k => 0 <= k < 7) row
}.

(** Modelled from the spec: the rows of [perm7] are "the fixed 21
    index-combinations of 5 chosen from 7", so that the evaluator goes
    "over all 21 five-card subsets of a seven-card hand": every choice
    of five of the indices 0 to 6 is, in some order, a row. *)
Definition perm7_complete (T : arrays) : Prop :=
  forall a b c d e, 0 <= a < b -> b < c -> c < d -> d < e < 7 ->
    exists row, In row (perm7 T) /\ Permutation row [a; b; c; d; e].

(** *** Deciding the contract of given tables *)

Definition class_ofb (cat v : Z) : bool :=
  (1 <=? v) && (v <=? 7462) && (hand_rank v =? cat).

Definition pattern_eqb (p q : pattern) : bool :=
  match p, q with
  | Distinct, Distinct | OnePair, OnePair | TwoPairs, TwoPairs
  | Trips, Trips | FullHouse, FullHouse | Quads, Quads
  | NoPattern, NoPattern => true
  | _, _ => false
  end.

Definition check_ranks (T : arrays) (a b c d e : nat) : bool :=
  let rs := [a; b; c; d; e] in
  match rank_pattern rs with
  | NoPattern => true
  | Distinct =>
      match rd (flushes T) (rank_mask rs), rd (unique5 T) (rank_mask rs) with
      | Some v, Some w =>
          class_ofb (category true rs) v && class_ofb (category false rs) w
      | _, _ => false
      end
  | _ =>
      match rd (unique5 T) (rank_mask rs) with
      | Some 0 =>
          match find_fast T (rank_primes rs) with
          | Some i =>
              match rd (hash_values T) i with
              | Some v => class_ofb (category false rs) v
              | None => false
              end
          | None => false
          end
      | _ => false
      end
  end.

(** The ranks from [a] to the ace. *)
Definition ranks_from (a : nat) : list nat := seq a (13 - a).

Definition check_tables (T : arrays) : bool :=
  forallb (fun a =>
    forallb (fun b =>
      forallb (fun c =>
        forallb (fun d =>
          forallb (fun e => check_ranks T a b c d e) (ranks_from d))
          (ranks_from c))
        (ranks_from b))
      (ranks_from a))
    (ranks_from 0).

(* ================================================================= *)
(** ** Counting the categories of all hands

    A fused enumeration of the hands of [combs l k], carrying the suit
    agreement and the sorted ranks of the cards chosen so far, that
    tallies the categories without building the hands. *)

Inductive suits_seen : Type := NoCard | AllOf (s : suit) | Mixed.

Definition see_suit (f : suits_seen) (s : suit) : suits_seen :=
  match f with
  | NoCard => AllOf s
  | AllOf t => if suit_eqb s t then AllOf t else Mixed
  | Mixed => Mixed
  end.

Definition suited (f : suits_seen) : bool :=
  match f with
  | AllOf _ => true
  | _ => false
  end.

Record tallies : Type := Tallies {
  t1 : N; t2 : N; t3 : N; t4 : N; t5 : N; t6 : N; t7 : N; t8 : N; t9 : N;
  t_other : N
}.

(** The successor of a counter, computed before it is stored. *)
Definition next (x : N) (k : N -> tallies) : tallies :=
  match N.succ x with
  | N0 => k N0
  | Npos p => k (Npos p)
  end.

Definition bump (cat : Z) (t : tallies) : tallies :=
  let '(Tallies a1 a2 a3 a4 a5 a6 a7 a8 a9 a0) := t in
  match cat with
  | 1 => next a1 (fun y => Tallies y a2 a3 a4 a5 a6 a7 a8 a9 a0)
  | 2 => next a2 (fun y => Tallies a1 y a3 a4 a5 a6 a7 a8 a9 a0)
  | 3 => next a3 (fun y => Tallies a1 a2 y a4 a5 a6 a7 a8 a9 a0)
  | 4 => next a4 (fun y => Tallies a1 a2 a3 y a5 a6 a7 a8 a9 a0)
  | 5 => next a5 (fun y => Tallies a1 a2 a3 a4 y a6 a7 a8 a9 a0)
  | 6 => next a6 (fun y => Tallies a1 a2 a3 a4 a5 y a7 a8 a9 a0)
  | 7 => next a7 (fun y => Tallies a1 a2 a3 a4 a5 a6 y a8 a9 a0)
  | 8 => next a8 (fun y => Tallies a1 a2 a3 a4 a5 a6 a7 y a9 a0)
  | 9 => next a9 (fun y => Tallies a1 a2 a3 a4 a5 a6 a7 a8 y a0)
  | _ => next a0 (fun y => Tallies a1 a2 a3 a4 a5 a6 a7 a8 a9 y)
  end.

(** [k t], once the tally [t] is computed. *)
Definition after (t : tallies) (k : tallies -> tallies) : tallies :=
  let '(Tallies a1 a2 a3 a4 a5 a6 a7 a8 a9 a0) := t in
  k (Tallies a1 a2 a3 a4 a5 a6 a7 a8 a9 a0).

Fixpoint count_hands (l : list (suit * nat)) (k : nat)
         (f : suits_seen) (rs : list nat) (acc : tallies) {struct l} : tallies :=
  match k with
  | O => bump (category (suited f) rs) acc
  | S k' =>
      match l with
      | [] => acc
      | (s, r) :: t =>
          after (count_hands t k' (see_suit f s) (insert r rs) acc)
                (count_hands t k f rs)
      end
  end.

Definition no_tallies : tallies := Tallies 0 0 0 0 0 0 0 0 0 0.

(** The frequency array that a tally stands for. *)
Definition freq_of (t : tallies) : list Z :=
  [Z.of_N (t_other t); Z.of_N (t1 t); Z.of_N (t2 t); Z.of_N (t3 t);
   Z.of_N (t4 t); Z.of_N (t5 t); Z.of_N (t6 t); Z.of_N (t7 t);
   Z.of_N (t8 t); Z.of_N (t9 t)].

(* ================================================================= *)
(** ** Tables that meet the contract

    One instance of [arrays], built as the spec describes the tables:
    the classes are numbered from the strongest hand to the weakest
    within the ranges of [hand_rank]. *)

(** [l] numbered from [start]. *)
Fixpoint number {A : Type} (start : Z) (l : list A) : list (A * Z) :=
  match l with
  | [] => []
  | x :: t => (x, start) :: number (start + 1) t
  end.

(** An array of [size] zeros in which each [(i, v)] of [entries] is
    stored at index [i]. *)
Definition table_of (size : nat) (entries : list (Z * Z)) : list Z :=
  fold_left
    (fun t iv => match wr t (fst iv) (snd iv) with Some t' => t' | None => t end)
    entries (repeat 0 size).

Definition ranks_desc : list nat := rev (seq 0 13).

(** The ten straights from the ace-high one down to the five-high one. *)
Definition straights : list (list nat) :=
  map (fun lo => seq lo 5) (rev (seq 0 9)) ++ [[0; 1; 2; 3; 12]%nat].

(** The 1277 other sets of five distinct ranks, highest cards first. *)
Definition high_cards : list (list nat) :=
  filter (fun rs => negb (is_straight rs))
         (map (@rev nat) (combs ranks_desc 5)).

Definition without (a : nat) (l : list nat) : list nat :=
  filter (fun b => negb (b =? a)%nat) l.

Definition quads : list (list nat) :=
  flat_map (fun a => map (fun b => [a; a; a; a; b]) (without a ranks_desc))
           ranks_desc.

Definition full_houses : list (list nat) :=
  flat_map (fun a => map (fun b => [a; a; a; b; b]) (without a ranks_desc))
           ranks_desc.

Definition trips : list (list nat) :=
  flat_map (fun a => map (fun k => [a; a; a] ++ k)
                         (combs (without a ranks_desc) 2))
           ranks_desc.

Definition two_pairs : list (list nat) :=
  flat_map (fun p =>
              match p with
              | [a; b] => map (fun c => [a; a; b; b; c])
                              (without a (without b ranks_desc))
              | _ => []
              end)
           (combs ranks_desc 2).

Definition one_pairs : list (list nat) :=
  flat_map (fun a => map (fun k => [a; a] ++ k)
                         (combs (without a ranks_desc) 3))
           ranks_desc.

(** Modelled from the spec: a flush table, "precomputed from the 10
    distinct straights-high values down through all flush combinations
    in descending strength order". *)
Definition flushes_model : list Z :=
  Eval vm_compute in
    table_of (Z.to_nat 8192)
      (map (fun e => (rank_mask (fst e), snd e))
           (number 1 straights ++ number 323 high_cards)).

(** Modelled from the spec: a distinct-rank table, whose "nonzero
    entries cover the 10 straights and all 1277 high-card rank
    patterns". *)
Definition unique5_model : list Z :=
  Eval vm_compute in
    table_of (Z.to_nat 8192)
      (map (fun e => (rank_mask (fst e), snd e))
           (number 1600 straights ++ number 6186 high_cards)).

(** Modelled from the spec: an adjustment table of 512 entries that
    makes the lookup "collision-free over the real key domain".  The
    values of the repository's table are not known; these are one
    solution for the mixing function of [find_fast]. *)
Definition hash_adjust_model : list Z :=
  [
    41; 2080; 4097; 3112; 20; 2144; 2695; 1156; 459; 639; 4111; 4164; 2163;
    41; 3624; 2164; 623; 13; 2547; 1363; 2092; 15; 24; 4099; 3254; 26; 78;
    3160; 1383; 1436; 20; 55; 2091; 2121; 2930; 67; 537; 1225; 2609; 905;
    4097; 1253; 3152; 2033; 1324; 2120; 549; 94; 617; 165; 2295; 1587; 725;
    3289; 0; 535; 4100; 64; 4124; 891; 232; 2271; 1015; 903; 541; 1302;
    1682; 4117; 0; 2169; 1386; 1064; 633; 178; 191; 2441; 2630; 290; 549;
    4134; 29; 3051; 975; 761; 74; 3440; 1119; 4229; 1763; 4699; 2604; 2137;
    1057; 2120; 3915; 2249; 5179; 1; 74; 2148; 2130; 768; 196; 46; 11; 2048;
    1931; 130; 4125; 2369; 4117; 4116; 2706; 4096; 4155; 2282; 1329; 2588;
    4101; 581; 935; 1379; 2064; 4106; 3; 4137; 400; 1238; 0; 2637; 570; 788;
    2162; 2396; 4128; 43; 2803; 2238; 549; 541; 5312; 2795; 384; 1295; 633;
    6; 5; 3; 51; 1031; 37; 4117; 65; 4110; 458; 1371; 4104; 2176; 89; 2397;
    1488; 1299; 2755; 87; 4097; 3047; 4101; 4183; 4115; 4203; 4105; 4098;
    2791; 569; 35; 3074; 559; 140; 4; 220; 515; 4143; 416; 2103; 4103; 1329;
    112; 2572; 2568; 4102; 4; 4262; 77; 1348; 1934; 4111; 69; 842; 2573;
    3682; 2063; 6; 2168; 2333; 660; 2115; 2079; 1171; 112; 65; 585; 4142;
    532; 2117; 97; 525; 3213; 1424; 3427; 666; 1147; 1980; 1372; 56; 318;
    2825; 3417; 314; 2787; 3128; 3213; 2444; 4115; 120; 549; 1258; 98; 142;
    66; 4204; 515; 2055; 4112; 1068; 4574; 30; 0; 3149; 5; 4096; 4131; 513;
    201; 532; 2085; 1645; 4174; 3; 1509; 2415; 516; 2878; 2136; 3062; 554;
    10; 177; 1168; 2055; 2231; 62; 2055; 2421; 2108; 2056; 2751; 701; 2329;
    40; 1379; 2347; 2650; 593; 1551; 1468; 343; 351; 1228; 629; 616; 68;
    4168; 1078; 376; 113; 519; 3717; 261; 2078; 3099; 1686; 2642; 2192;
    4188; 2145; 2380; 134; 3587; 16; 600; 1084; 2461; 3064; 2262; 1500; 366;
    2482; 678; 2236; 2069; 153; 2565; 3391; 2948; 1985; 601; 2106; 864;
    4097; 4122; 5; 2307; 540; 3496; 387; 3813; 515; 3167; 2674; 2471; 519;
    73; 3300; 1916; 561; 1305; 2101; 156; 2609; 459; 3544; 1192; 440; 1; 45;
    2434; 3103; 1383; 2066; 134; 587; 3171; 2849; 39; 60; 2473; 68; 2651;
    74; 4806; 650; 2442; 119; 4104; 589; 2109; 2414; 1346; 170; 527; 235;
    1500; 2983; 0; 4118; 73; 4096; 2073; 2705; 2694; 4099; 437; 4101; 2235;
    29; 3381; 2566; 4325; 83; 2155; 55; 2251; 938; 2439; 395; 2579; 642;
    838; 2618; 640; 3514; 4168; 3250; 2103; 2398; 1503; 1735; 2071; 558;
    939; 4271; 2251; 524; 547; 3131; 2481; 2960; 2797; 3208; 2263; 1042;
    579; 2068; 2878; 515; 2334; 3227; 3742; 4104; 736; 1036; 64; 2966; 2169;
    119; 565; 16; 703; 4130; 879; 2156; 2616; 92; 90; 935; 3171; 3111; 2636;
    321; 37; 2049; 604; 4098; 2651; 913; 4111; 79; 1180; 3029; 4097; 2142;
    770; 2682; 4153; 3200; 526; 1186; 1774; 2779; 2074; 106; 1049; 642;
    2535; 3805; 19; 258; 15; 4104; 2305; 827; 22; 3088; 4150; 4096; 2335; 8;
    519; 2228; 2048; 3073; 774; 458; 1616; 1681; 2038; 2209; 2584; 2423;
    2218; 2633; 1254
  ].

(** Modelled from the spec: a hash value table, holding the class of
    "every remaining case (one pair through four-of-a-kind and full
    house)" at the index the mixing function gives its product. *)
Definition hash_values_model : list Z :=
  Eval vm_compute in
    table_of (Z.to_nat 8192)
      (map (fun e =>
              (match find_fast (Arrays [] [] hash_adjust_model [] [])
                               (rank_primes (fst e)) with
               | Some i => i
               | None => -1
               end, snd e))
           (number 11 quads ++ number 167 full_houses ++ number 1610 trips
            ++ number 2468 two_pairs ++ number 3326 one_pairs)).

(** Modelled from the spec: the 21 combinations of five indices out of
    seven, in increasing order. *)
Definition perm7_model : list (list Z) :=
  Eval vm_compute in combs (map Z.of_nat (seq 0 7)) 5.

Definition arrays_model : arrays :=
  Arrays flushes_model unique5_model hash_adjust_model hash_values_model
         perm7_model.

(* ================================================================= *)
(** ** The specification's own words

    Definitions that follow the text of the specification, to be
    compared with the functions above. *)

Module Spec.

(** *** The mixing function of the perfect hash (section 4.3, step 4) *)

(** "add a fixed 32-bit constant, XOR with a 16-bit right shift, add a
    left-shift-by-8 of itself, XOR with a 4-bit right shift", in
    arithmetic modulo [2 ^ 32]. *)
Definition mix (u : Z) : Z :=
  let u1 := (u + 0xe91aaa35) mod 2 ^ 32 in
  let u2 := Z.lxor u1 (u1 / 2 ^ 16) in
  let u3 := (u2 + u2 * 2 ^ 8) mod 2 ^ 32 in
  Z.lxor u3 (u3 / 2 ^ 4).

(** "a 9-bit bucket selector from bits 8-16 of the result". *)
Definition bucket (m : Z) : Z := (m / 2 ^ 8) mod 2 ^ 9.

(** "a second index from (u + 4u) >> 19". *)
Definition second_index (m : Z) : Z := ((5 * m) mod 2 ^ 32) / 2 ^ 19.

(** "XOR the second index with adjustment_table[bucket_selector] to
    obtain the final dense index". *)
Definition dense_index (T : arrays) (u : Z) : option Z :=
  adj <- rd (hash_adjust T) (bucket (mix u)) ;;
  Some (Z.lxor (second_index (mix u)) adj).

(** *** The card layout (section 3) *)

(** "a unique prime associated with the rank (2->2, 3->3, 4->5, 5->7,
    ..., Ace->41)". *)
Definition prime_of_rank (r : Z) : Z :=
  match r with
  | 2 => 2 | 3 => 3 | 4 => 5 | 5 => 7 | 6 => 11 | 7 => 13 | 8 => 17
  | 9 => 19 | 10 => 23 | 11 => 29 | 12 => 31 | 13 => 37 | 14 => 41
  | _ => 0
  end.

(** The prime in the low byte, the rank in the nibble at bits 8-11, the
    suit bit [sb] among bits 12-15 and the rank-presence bit at
    [16 + (r - 2)]. *)
Definition layout (r sb : Z) : Z :=
  prime_of_rank r + r * 2 ^ 8 + sb + 2 ^ (16 + (r - 2)).

Definition suit_bits : list Z := [0x8000; 0x4000; 0x2000; 0x1000].

Definition card_ranks : list Z := map Z.of_nat (seq 2 13).

(** The cards of a deck with rank [r] and suit bit [sb], decoded from
    the fixed nibble and the suit field. *)
Definition cards_of (deck : list Z) (r sb : Z) : list Z :=
  filter (fun c => (RANK c =? r) && (Z.land c 0xf000 =? sb)) deck.

(** *** The populations of the categories (section 3) *)

Definition class_values : list Z := map Z.of_nat (seq 1 (Z.to_nat 7462)).

Definition population (cat : Z) : Z :=
  Z.of_nat (List.length (filter (fun v => hand_rank v =? cat) class_values)).

Definition categories : list Z :=
  [STRAIGHT_FLUSH; FOUR_OF_A_KIND; FULL_HOUSE; FLUSH; STRAIGHT;
   THREE_OF_A_KIND; TWO_PAIR; ONE_PAIR; HIGH_CARD].

(** *** The five-card evaluator (section 4.3) *)

(** The three-way dispatch on a hand of five cards given by suit and
    rank index: the flush table when all five share a suit, else the
    distinct-rank table when its entry is not zero, else the hash
    lookup on the product of the primes. *)
Definition dispatch (T : arrays) (h : list (suit * nat)) : option (branch * Z) :=
  let q := rank_mask (map snd h) in
  if same_suit h then
    v <- rd (flushes T) q ;; Some (ByFlushes, v)
  else
    u <- rd (unique5 T) q ;;
    if negb (u =? 0) then Some (ByUnique5, u)
    else
      i <- find_fast T (rank_primes (map snd h)) ;;
      v <- rd (hash_values T) i ;;
      Some (ByHash, v).

(** *** The seven-card evaluator (section 4.5) *)

(** The cards of [hand] at the indices of [row]. *)
Definition select (hand : list Z) (row : list Z) : list Z :=
  map (fun k => nth (Z.to_nat k) hand 0) row.

(** The least element of a list of classes; 9999 stands for none. *)
Definition minimum (l : list Z) : Z := fold_right Z.min 9999 l.

(** *** Hand display (section 6) *)

Definition rank_symbols : string := "23456789TJQKA".

Definition suit_letter (s : suit) : ascii :=
  match s with
  | Club => "c" | Diamond => "d" | Heart => "h" | Spade => "s"
  end%char.

(** "a two-character token, rank from 23456789TJQKA followed by suit
    letter from {c,d,h,s}". *)
Definition token (c : suit * nat) : string :=
  match String.get (snd c) rank_symbols with
  | Some r => String r (String (suit_letter (fst c)) EmptyString)
  | None => EmptyString
  end.

(** "concatenates tokens space-separated". *)
Definition space_separated (toks : list string) : string :=
  String.concat " " toks.

(** Each token followed by one space. *)
Definition space_terminated (toks : list string) : string :=
  fold_right (fun t rest => (t ++ " " ++ rest)%string) EmptyString toks.

Definition newline : ascii := ascii_of_nat 10.

(** Whether a text contains a newline. *)
Fixpoint has_newline (s : string) : bool :=
  match s with
  | EmptyString => false
  | String c rest => Ascii.eqb c newline || has_newline rest
  end.

End Spec.

(* ================================================================= *)
(** ** Auxiliary notions for the proofs *)

(** The AND, the OR and the product of the low bytes of a list of cards. *)
Definition land_all (l : list Z) : Z := fold_right Z.land (-1) l.
Definition lor_all (l : list Z) : Z := fold_right Z.lor 0 l.
Definition low_bytes_product (l : list Z) : Z :=
  fold_right (fun c p => Z.land c 0xff * p) 1 l.

(** Whether a list of ranks is in increasing order. *)
Fixpoint sortedb (l : list nat) : bool :=
  match l with
  | x :: (y :: _) as t => (x <=? y)%nat && sortedb t
  | _ => true
  end.

(** The suit agreement of a hand, card after card. *)
Definition suits_of (h : list (suit * nat)) : suits_seen :=
  fold_left (fun f c => see_suit f (fst c)) h NoCard.

Arguments rank_mask : simpl never.
Arguments rank_primes : simpl never.

(** The nested loops of [main] over [deck], [m] levels deep: the level
    with [m'] levels below it runs its index up to [52 - m'] and writes
    the card at position [4 - m'] of [hand]; below the last level the
    hand is tallied. *)
Fixpoint loops (T : arrays) (deck : list Z) (m : nat) (lo : Z)
         (st : list Z * list Z) : option (list Z * list Z) :=
  match m with
  | O =>
      let '(hand, freq) := st in
      freq <- tally T hand freq ;;
      Some (hand, freq)
  | S m' =>
      for_range lo (52 - Z.of_nat m')
        (fun i st =>
           let '(hand, freq) := st in
           x <- rd deck i ;;
           hand <- wr hand (4 - Z.of_nat m') x ;;
           loops T deck m' (i + 1) (hand, freq))
        st
  end.

(** The tally of the categories of the hands [p ++ h], for [h] among
    [hands]. *)
Definition tally_hands (p : list (suit * nat)) (hands : list (list (suit * nat)))
           (t : tallies) : tallies :=
  fold_left (fun t h => bump (hand_category (p ++ h)) t) hands t.

(** The number of hands tallied. *)
Definition total (t : tallies) : N :=
  (t1 t + t2 t + t3 t + t4 t + t5 t + t6 t + t7 t + t8 t + t9 t + t_other t)%N.

(** A fallible step applied to the elements of a list in turn. *)
Fixpoint fold_opt {St A : Type} (G : A -> St -> option St) (l : list A) (s : St)
  : option St :=
  match l with
  | [] => Some s
  | x :: t => bind (G x s) (fold_opt G t)
  end.

(** One iteration of the loop of [eval_7hand], on the row [row]. *)
Definition eval_7hand_step (T : arrays) (hand : list Z) (row : list Z)
           (st : list Z * Z) : option (list Z * Z) :=
  let '(subhand, best) := st in
  subhand <- fill_subhand hand row subhand ;;
  q <- eval_5hand T subhand ;;
  Some (subhand, if q <? best then q else best).

(** What the loops need of the cards chosen so far, [p], of the cards
    still to choose from, and of the array [hand]. *)
Definition loop_invariant (p : list (suit * nat)) (lo : nat) (hand : list Z)
  : Prop :=
  List.length hand = 5%nat
  /\ firstn (List.length p) hand = map encode_card p
  /\ NoDup (p ++ skipn lo deck_cards)
  /\ (forall c, In c (p ++ skipn lo deck_cards) -> (snd c < 13)%nat).

(** The counter of a tally for the category [n]. *)
Definition tally_at (n : Z) (t : tallies) : N :=
  match n with
  | 1 => t1 t | 2 => t2 t | 3 => t3 t | 4 => t4 t | 5 => t5 t
  | 6 => t6 t | 7 => t7 t | 8 => t8 t | 9 => t9 t
  | _ => t_other t
  end.

(** The number of hands among [hands] that [eval_5hand] and [hand_rank]
    put in the category [n]. *)
Definition hands_in_category (T : arrays) (hands : list (list Z)) (n : Z) : Z :=
  Z.of_nat
    (List.length
       (filter (fun hand =>
                  match eval_5hand T hand with
                  | Some v => hand_rank v =? n
                  | None => false
                  end)
               hands)).

(** The position of a suit in the order in which [init_deck] goes
    through the suits. *)
Definition suit_index (s : suit) : Z :=
  match s with
  | Club => 0
  | Diamond => 1
  | Heart => 2
  | Spade => 3
  end.

(** One iteration of the second loop of [shuffle_deck], at index [i]. *)
Definition shuffle_step (i : Z) (st : list Z * list Z * list Z)
  : option (list Z * list Z * list Z) :=
  let '(deck, temp, draws) := st in
  p <- draw_card temp draws ;;
  let '(n, draws) := p in
  t <- rd temp n ;;
  deck <- wr deck i t ;;
  temp <- wr temp n 0 ;;
  Some (deck, temp, draws).

(** The state of [shuffle_deck] once the cards at the indices [chosen]
    of the array [deck0] it was given have been moved, in this order, to
    the front of [deck]: they are distinct and were not zero, and they
    are the entries of [temp] that have been cleared. *)
Definition shuffle_inv (deck0 : list Z) (chosen : list nat)
           (st : list Z * list Z * list Z) : Prop :=
  let '(deck, temp, draws) := st in
  NoDup chosen
  /\ Forall (fun n => (n < 52)%nat /\ nth n deck0 0 <> 0) chosen
  /\ List.length deck = 52%nat
  /\ List.length temp = 52%nat
  /\ firstn (List.length chosen) deck = map (fun n => nth n deck0 0) chosen
  /\ (forall n, (n < 52)%nat ->
        nth n temp 0 = if existsb (Nat.eqb n) chosen then 0 else nth n deck0 0).

(** Draws that let [shuffle_deck] go on: they are indices of [temp], and
    every index not yet chosen is still to come. *)
Definition draws_suffice (chosen : list nat) (draws : list Z) : Prop :=
  Forall (fun n => 0 <= n < 52) draws
  /\ (forall n, (n < 52)%nat -> existsb (Nat.eqb n) chosen = false ->
        In (Z.of_nat n) draws).

(** The draws that are not repetitions of an index of [seen] or of an
    earlier draw, in the order in which they come. *)
Fixpoint distinct_draws (seen : list nat) (draws : list Z) : list nat :=
  match draws with
  | [] => []
  | m :: rest =>
      if existsb (Nat.eqb (Z.to_nat m)) seen then distinct_draws seen rest
      else Z.to_nat m :: distinct_draws (Z.to_nat m :: seen) rest
  end.

(** The draws 51, 50, ..., 0. *)
Definition draws_down : list Z := map Z.of_nat (rev (seq 0 52)).

(** The value of [best] after the loop of [eval_7hand] has seen the
    results [l] of [eval_5hand], from the value [best]. *)
Fixpoint best_from (best : Z) (l : list (option Z)) : option Z :=
  match l with
  | [] => Some best
  | None :: _ => None
  | Some q :: t => best_from (Z.min q best) t
  end.

(** Whether [eval_5hand] returns on a hand, its reads being in bounds. *)
Definition evaluates (T : arrays) (hand : list Z) : bool :=
  match eval_5hand T hand with
  | Some _ => true
  | None => false
  end.

(* ================================================================= *)
(** ** Arrays and loops *)

Section ArrayFacts.

Context {A : Type}.

Lemma rd_nat (a : list A) (n : nat) : rd a (Z.of_nat n) = nth_error a n.
Proof.
  unfold rd. destruct (Z.ltb_spec (Z.of_nat n) 0); [lia|].
  now rewrite Nat2Z.id.
Qed.

Lemma rd_in_range (a : list A) (i : Z) :
  0 <= i < Z.of_nat (List.length a) -> exists x, rd a i = Some x.
Proof.
  intros H. unfold rd. destruct (Z.ltb_spec i 0); [lia|].
  destruct (nth_error a (Z.to_nat i)) eqn:E; [eauto|].
  apply nth_error_None in E. lia.
Qed.

Lemma rd_Some_range (a : list A) (i : Z) (x : A) :
  rd a i = Some x -> 0 <= i < Z.of_nat (List.length a).
Proof.
  unfold rd. destruct (Z.ltb_spec i 0); [discriminate|].
  intros E. assert (Hn : nth_error a (Z.to_nat i) <> None) by congruence.
  apply nth_error_Some in Hn. lia.
Qed.

Lemma rd_In (a : list A) (i : Z) (x : A) : rd a i = Some x -> In x a.
Proof.
  unfold rd. destruct (i <? 0); [discriminate|]. apply nth_error_In.
Qed.

Lemma rd_nth (a : list A) (i : Z) (x d : A) :
  rd a i = Some x -> nth (Z.to_nat i) a d = x.
Proof.
  unfold rd. destruct (i <? 0); [discriminate|]. apply nth_error_nth.
Qed.

Lemma wr_nat_length (a : list A) (n : nat) (v : A) (a' : list A) :
  wr_nat a n v = Some a' -> List.length a' = List.length a.
Proof.
  revert n a'. induction a as [|x t IH]; intros [|n] a'; simpl; try discriminate.
  - intros [= <-]. reflexivity.
  - destruct (wr_nat t n v) eqn:E; [|discriminate].
    intros [= <-]. simpl. f_equal. eauto.
Qed.

End ArrayFacts.

Lemma bind_Some {A B : Type} (m : option A) (f : A -> option B) (y : B) :
  bind m f = Some y <-> exists x, m = Some x /\ f x = Some y.
Proof.
  destruct m; simpl; split.
  - eauto.
  - intros (x & [= ->] & H). exact H.
  - discriminate.
  - intros (x & H & _). discriminate.
Qed.

Lemma for_loop_app {St : Type} (n m : nat) (lo : Z)
      (body : Z -> St -> option St) (s : St) :
  for_loop (n + m) lo body s
  = bind (for_loop n lo body s) (for_loop m (lo + Z.of_nat n) body).
Proof.
  revert lo s. induction n as [|n IH]; intros lo s.
  - simpl. now rewrite Z.add_0_r.
  - change (S n + m)%nat with (S (n + m)). cbn [for_loop].
    destruct (body lo s) as [s'|]; simpl; [|reflexivity].
    rewrite IH. do 2 f_equal. lia.
Qed.

Lemma for_loop_ext {St : Type} (n : nat) (lo : Z)
      (f g : Z -> St -> option St) (s : St) :
  (forall i s, lo <= i < lo + Z.of_nat n -> f i s = g i s) ->
  for_loop n lo f s = for_loop n lo g s.
Proof.
  revert lo s. induction n as [|n IH]; intros lo s H; [reflexivity|].
  cbn [for_loop]. rewrite H by lia.
  destruct (g lo s); simpl; [|reflexivity].
  apply IH. intros. apply H. lia.
Qed.

(* ================================================================= *)
(** ** Machine integer conversions *)

Lemma to_ushort_small (v : Z) : 0 <= v < 2 ^ 16 -> to_ushort v = v.
Proof. intros. unfold to_ushort. now apply Z.mod_small. Qed.

Lemma to_ushort_to_short (u : Z) : to_ushort (to_short u) = to_ushort u.
Proof.
  unfold to_ushort, to_short.
  rewrite <- Zminus_mod_idemp_l, Z.mod_mod by lia.
  rewrite Zminus_mod_idemp_l. f_equal. lia.
Qed.

Lemma to_short_zero (u : Z) : 0 <= u < 2 ^ 16 -> (to_short u =? 0) = (u =? 0).
Proof.
  intros H. unfold to_short.
  destruct (Z.eqb_spec u 0) as [->|Hu]; [reflexivity|].
  apply Z.eqb_neq. intros E.
  assert (Hm : (u + 2 ^ 15) mod 2 ^ 16 = 2 ^ 15) by lia.
  destruct (Z_lt_le_dec u (2 ^ 15)).
  - rewrite Z.mod_small in Hm by lia. lia.
  - replace (u + 2 ^ 15) with (u - 2 ^ 15 + 1 * 2 ^ 16) in Hm by lia.
    rewrite Z_mod_plus_full, Z.mod_small in Hm by lia. lia.
Qed.

Lemma to_uint_to_int (x : Z) : to_uint (to_int x) = to_uint x.
Proof.
  unfold to_uint, to_int.
  rewrite <- Zminus_mod_idemp_l, Z.mod_mod by lia.
  rewrite Zminus_mod_idemp_l. f_equal. lia.
Qed.

Lemma to_uint_small (x : Z) : 0 <= x < 2 ^ 32 -> to_uint x = x.
Proof. intros. unfold to_uint. now apply Z.mod_small. Qed.

Lemma to_int_mod (x : Z) : to_int x mod 2 ^ 32 = x mod 2 ^ 32.
Proof. exact (to_uint_to_int x). Qed.

Lemma to_int_congruent (x y : Z) :
  x mod 2 ^ 32 = y mod 2 ^ 32 -> to_int x = to_int y.
Proof.
  intros H. unfold to_int. f_equal.
  rewrite (Zplus_mod x), (Zplus_mod y), H. reflexivity.
Qed.

Lemma to_int_mul_l (x y : Z) : to_int (to_int x * y) = to_int (x * y).
Proof.
  apply to_int_congruent.
  rewrite (Zmult_mod (to_int x)), to_int_mod, <- Zmult_mod. reflexivity.
Qed.

(* ================================================================= *)
(** ** hand_rank *)

(** C4, as stated: the boundary values with 1599 a Straight and 1600 a
    Flush do not hold of [hand_rank], whose threshold 1599 puts 1599
    among the flushes and 1600 among the straights. *)
Lemma hand_rank_boundaries_as_stated_fail :
  ~ (hand_rank 10 = STRAIGHT_FLUSH /\ hand_rank 11 = FOUR_OF_A_KIND
     /\ hand_rank 166 = FOUR_OF_A_KIND /\ hand_rank 167 = FULL_HOUSE
     /\ hand_rank 1599 = STRAIGHT /\ hand_rank 1600 = FLUSH
     /\ hand_rank 6185 = ONE_PAIR /\ hand_rank 6186 = HIGH_CARD).
Proof.
  intros (_ & _ & _ & _ & H & _). discriminate H.
Qed.

(** C4, amended: [hand_rank] takes the first threshold, from the top,
    that the value exceeds, and so has the boundary values
    hand_rank(10) = StraightFlush, hand_rank(11) = hand_rank(166) =
    FourOfAKind, hand_rank(167) = FullHouse, hand_rank(1599) = Flush,
    hand_rank(1600) = Straight, hand_rank(6185) = OnePair and
    hand_rank(6186) = HighCard. *)
Theorem hand_rank_boundaries :
  hand_rank 10 = STRAIGHT_FLUSH /\ hand_rank 11 = FOUR_OF_A_KIND
  /\ hand_rank 166 = FOUR_OF_A_KIND /\ hand_rank 167 = FULL_HOUSE
  /\ hand_rank 1599 = FLUSH /\ hand_rank 1600 = STRAIGHT
  /\ hand_rank 6185 = ONE_PAIR /\ hand_rank 6186 = HIGH_CARD.
Proof. repeat split; reflexivity. Qed.

(** The thresholds, one by one: the category of [v] is decided by the
    first bound that [v] exceeds. *)
Lemma hand_rank_cases (v : Z) :
  (6185 < v /\ hand_rank v = HIGH_CARD)
  \/ (3325 < v <= 6185 /\ hand_rank v = ONE_PAIR)
  \/ (2467 < v <= 3325 /\ hand_rank v = TWO_PAIR)
  \/ (1609 < v <= 2467 /\ hand_rank v = THREE_OF_A_KIND)
  \/ (1599 < v <= 1609 /\ hand_rank v = STRAIGHT)
  \/ (322 < v <= 1599 /\ hand_rank v = FLUSH)
  \/ (166 < v <= 322 /\ hand_rank v = FULL_HOUSE)
  \/ (10 < v <= 166 /\ hand_rank v = FOUR_OF_A_KIND)
  \/ (v <= 10 /\ hand_rank v = STRAIGHT_FLUSH).
Proof.
  unfold hand_rank.
  repeat match goal with
         | |- context [?a >? ?b] => destruct (Z.gtb_spec a b)
         end; intuition lia.
Qed.

Lemma hand_rank_range (v : Z) : 1 <= hand_rank v <= 9.
Proof.
  destruct (hand_rank_cases v) as [H|[H|[H|[H|[H|[H|[H|[H|H]]]]]]]];
    destruct H as [_ ->]; cbv; split; discriminate.
Qed.

Lemma hand_rank_monotone (v w : Z) : v <= w -> hand_rank v <= hand_rank w.
Proof.
  intros Hvw.
  destruct (hand_rank_cases v) as [H|[H|[H|[H|[H|[H|[H|[H|H]]]]]]]];
    destruct H as [Hv ->];
    destruct (hand_rank_cases w) as [H|[H|[H|[H|[H|[H|[H|[H|H]]]]]]]];
    destruct H as [Hw ->];
    solve [ lia | cbv; discriminate ].
Qed.

(** C5: over the class values 1 to 7462, [hand_rank] has exactly the
    populations 10, 156, 156, 1277, 10, 858, 858, 2860 and 1277 for the
    nine categories from StraightFlush to HighCard, which sum to 7462;
    every value falls in one of the nine categories, and the category
    never gets stronger (its number never decreases) as the class value
    increases. *)
Theorem hand_rank_populations :
  map Spec.population Spec.categories
  = [10; 156; 156; 1277; 10; 858; 858; 2860; 1277]
  /\ fold_right Z.add 0 (map Spec.population Spec.categories) = 7462
  /\ (forall v, 1 <= hand_rank v <= 9)
  /\ (forall v w, v <= w -> hand_rank v <= hand_rank w).
Proof.
  split; [vm_compute; reflexivity|].
  split; [vm_compute; reflexivity|].
  split; [exact hand_rank_range | exact hand_rank_monotone].
Qed.

(** An instance of [hand_rank_populations]. *)
Lemma hand_rank_populations_witness :
  map Spec.population Spec.categories
  = [10; 156; 156; 1277; 10; 858; 858; 2860; 1277]
  /\ hand_rank 322 <= hand_rank 323.
Proof.
  destruct hand_rank_populations as (Hp & _ & _ & Hm).
  split; [exact Hp | apply Hm; lia].
Defined.

(* ================================================================= *)
(** ** find_fast *)

Lemma land_0x1ff (x : Z) : Z.land x 0x1ff = x mod 2 ^ 9.
Proof. change 0x1ff with (Z.ones 9). apply Z.land_ones. lia. Qed.

Lemma uint_add_shiftl (u k : Z) :
  0 <= k ->
  to_uint (u + to_uint (Z.shiftl u k)) = (u + u * 2 ^ k) mod 2 ^ 32.
Proof.
  intros Hk. unfold to_uint.
  rewrite Z.shiftl_mul_pow2 by assumption.
  apply Zplus_mod_idemp_r.
Qed.

(** The value of [u] after the four mixing statements of [find_fast]. *)
Lemma find_fast_mix (T : arrays) (u : Z) :
  find_fast T u
  = (let m := Spec.mix u in
     adj <- rd (hash_adjust T) (Z.land (Z.shiftr m 8) 0x1ff) ;;
     Some (Z.lxor (Z.shiftr (to_uint (m + to_uint (Z.shiftl m 2))) 19) adj)).
Proof.
  unfold find_fast, Spec.mix. cbv zeta.
  rewrite uint_add_shiftl by lia.
  rewrite !Z.shiftr_div_pow2 by lia.
  reflexivity.
Qed.

(** C3: [find_fast] computes the sequence of the specification in
    arithmetic modulo [2 ^ 32]: the four mixing steps, the bucket
    selector from bits 8 to 16 of the result, the second index
    [(5 * u) >> 19], and their combination by XOR with the entry of
    [hash_adjust] at the bucket selector. *)
Theorem find_fast_refines_spec (T : arrays) (u : Z) :
  find_fast T u = Spec.dense_index T u.
Proof.
  rewrite find_fast_mix. unfold Spec.dense_index, Spec.bucket, Spec.second_index.
  cbv zeta.
  rewrite land_0x1ff, uint_add_shiftl by lia.
  rewrite !Z.shiftr_div_pow2 by lia.
  replace (Spec.mix u + Spec.mix u * 2 ^ 2) with (5 * Spec.mix u) by lia.
  reflexivity.
Qed.

(** The bucket selector and the second index are of 9 and 13 bits. *)
Lemma spec_bucket_range (m : Z) : 0 <= Spec.bucket m < 512.
Proof. unfold Spec.bucket. apply Z.mod_pos_bound. lia. Qed.

Lemma spec_second_index_range (m : Z) : 0 <= Spec.second_index m < 8192.
Proof.
  unfold Spec.second_index.
  assert (H := Z.mod_pos_bound (5 * m) (2 ^ 32) ltac:(lia)).
  split; [apply Z.div_pos; lia|].
  apply Z.div_lt_upper_bound; lia.
Qed.

(** The bucket selector holds bits 8 to 16 of the mixed value. *)
Lemma spec_bucket_bits (m i : Z) :
  0 <= i ->
  Z.testbit (Spec.bucket m) i = if i <? 9 then Z.testbit m (i + 8) else false.
Proof.
  intros Hi. unfold Spec.bucket.
  rewrite <- Z.shiftr_div_pow2, <- Z.land_ones by lia.
  rewrite Z.land_spec, Z.shiftr_spec, Z.testbit_ones_nonneg by lia.
  destruct (Z.ltb_spec i 9).
  - now rewrite andb_true_r.
  - now rewrite andb_false_r.
Qed.

(* ================================================================= *)
(** ** Cards *)

(** The fields of an encoded card. *)
Lemma encode_fields (s : suit) (j : nat) :
  (j < 13)%nat ->
  Z.land (encode s j) 0xff = prime_of j
  /\ RANK (encode s j) = 2 + Z.of_nat j
  /\ Z.land (encode s j) 0xf000 = suit_bit s
  /\ Z.shiftr (encode s j) 16 = Z.shiftl 1 (Z.of_nat j)
  /\ 0 <= encode s j < 2 ^ 29
  /\ encode s j = Spec.layout (2 + Z.of_nat j) (suit_bit s).
Proof.
  intros Hj.
  destruct s;
    do 13 (destruct j as [|j];
           [ vm_compute; intuition (discriminate || reflexivity) | ]);
    lia.
Qed.

Lemma encode_low_byte (s : suit) (j : nat) :
  (j < 13)%nat -> Z.land (encode s j) 0xff = prime_of j.
Proof. intros H. apply (encode_fields s j H). Qed.

Lemma encode_suit_field (s : suit) (j : nat) :
  (j < 13)%nat -> Z.land (encode s j) 0xf000 = suit_bit s.
Proof. intros H. apply (encode_fields s j H). Qed.

Lemma encode_rank_bit (s : suit) (j : nat) :
  (j < 13)%nat -> Z.shiftr (encode s j) 16 = Z.shiftl 1 (Z.of_nat j).
Proof. intros H. apply (encode_fields s j H). Qed.

Lemma encode_range (s : suit) (j : nat) :
  (j < 13)%nat -> 0 <= encode s j < 2 ^ 29.
Proof. intros H. apply (encode_fields s j H). Qed.

Lemma valid_card_range (c : Z) : valid_card c -> 0 <= c < 2 ^ 29.
Proof. intros (s & j & Hj & ->). now apply encode_range. Qed.

Lemma prime_of_range (j : nat) : (j < 13)%nat -> 2 <= prime_of j <= 41.
Proof.
  intros Hj. do 13 (destruct j as [|j]; [vm_compute; intuition discriminate|]).
  lia.
Qed.

Lemma suit_eqb_eq (s t : suit) : suit_eqb s t = true <-> s = t.
Proof. destruct s, t; simpl; intuition (discriminate || reflexivity). Qed.

Lemma suit_bit_land (s t : suit) :
  Z.land (suit_bit s) (suit_bit t) = if suit_eqb s t then suit_bit s else 0.
Proof. destruct s, t; reflexivity. Qed.

Lemma suit_bit_nonzero (s : suit) : suit_bit s <> 0.
Proof. destruct s; discriminate. Qed.

(* ================================================================= *)
(** ** eval_5cards: the three quantities it reads *)


Lemma land_m1 (a : Z) : Z.land a (-1) = a.
Proof. apply Z.land_m1_r. Qed.

Lemma suit_and_fold (c1 c2 c3 c4 c5 : Z) :
  suit_and c1 c2 c3 c4 c5 = Z.land (land_all [c1; c2; c3; c4; c5]) 0xf000.
Proof.
  unfold suit_and, land_all. simpl fold_right.
  now rewrite land_m1, !Z.land_assoc.
Qed.

Lemma rank_or_fold (c1 c2 c3 c4 c5 : Z) :
  rank_or c1 c2 c3 c4 c5 = Z.shiftr (lor_all [c1; c2; c3; c4; c5]) 16.
Proof.
  unfold rank_or, lor_all. simpl fold_right.
  now rewrite Z.lor_0_r, !Z.lor_assoc.
Qed.

Lemma prime_product_fold (c1 c2 c3 c4 c5 : Z) :
  prime_product c1 c2 c3 c4 c5 = to_int (low_bytes_product [c1; c2; c3; c4; c5]).
Proof.
  unfold prime_product, low_bytes_product. simpl fold_right.
  unfold mul_int.
  rewrite (to_int_mul_l (Z.land c1 255 * Z.land c2 255)).
  rewrite (to_int_mul_l (Z.land c1 255 * Z.land c2 255 * Z.land c3 255)).
  rewrite (to_int_mul_l (Z.land c1 255 * Z.land c2 255 * Z.land c3 255
                         * Z.land c4 255)).
  apply (f_equal to_int). ring.
Qed.

(** A fold with an operation whose arguments commute does not depend on
    the order of the list. *)
Lemma fold_right_permutation {A B : Type} (f : A -> B -> B) (b : B) :
  (forall x y z, f x (f y z) = f y (f x z)) ->
  forall l l', Permutation l l' -> fold_right f b l = fold_right f b l'.
Proof.
  intros Hf l l' HP. induction HP; simpl.
  - reflexivity.
  - now f_equal.
  - apply Hf.
  - congruence.
Qed.

Lemma land_all_permutation (l l' : list Z) :
  Permutation l l' -> land_all l = land_all l'.
Proof.
  apply fold_right_permutation. intros x y z.
  now rewrite !Z.land_assoc, (Z.land_comm x y).
Qed.

Lemma lor_all_permutation (l l' : list Z) :
  Permutation l l' -> lor_all l = lor_all l'.
Proof.
  apply fold_right_permutation. intros x y z.
  now rewrite !Z.lor_assoc, (Z.lor_comm x y).
Qed.

Lemma low_bytes_product_permutation (l l' : list Z) :
  Permutation l l' -> low_bytes_product l = low_bytes_product l'.
Proof.
  apply (fold_right_permutation (fun c p => Z.land c 0xff * p)).
  intros x y z. ring.
Qed.

Lemma eval_5cards_traced_permutation (T : arrays) (c1 c2 c3 c4 c5 d1 d2 d3 d4 d5 : Z) :
  Permutation [c1; c2; c3; c4; c5] [d1; d2; d3; d4; d5] ->
  eval_5cards_traced T c1 c2 c3 c4 c5 = eval_5cards_traced T d1 d2 d3 d4 d5.
Proof.
  intros HP. unfold eval_5cards_traced.
  rewrite !suit_and_fold, !rank_or_fold, !prime_product_fold.
  rewrite (land_all_permutation _ _ HP), (lor_all_permutation _ _ HP),
    (low_bytes_product_permutation _ _ HP).
  reflexivity.
Qed.

(** C9: [eval_5cards], and with it [eval_5hand], is invariant under
    every permutation of its five cards: hands that are permutations of
    one another get the same result, by the same return statement. *)
Theorem eval_5cards_permutation (T : arrays) (c1 c2 c3 c4 c5 d1 d2 d3 d4 d5 : Z) :
  Permutation [c1; c2; c3; c4; c5] [d1; d2; d3; d4; d5] ->
  eval_5cards T c1 c2 c3 c4 c5 = eval_5cards T d1 d2 d3 d4 d5
  /\ eval_5hand T [c1; c2; c3; c4; c5] = eval_5hand T [d1; d2; d3; d4; d5].
Proof.
  intros HP.
  assert (H : eval_5cards T c1 c2 c3 c4 c5 = eval_5cards T d1 d2 d3 d4 d5).
  { unfold eval_5cards. now rewrite (eval_5cards_traced_permutation T _ _ _ _ _ _ _ _ _ _ HP). }
  split; [exact H|]. exact H.
Qed.

(** An instance of [eval_5cards_permutation]. *)
Lemma eval_5cards_permutation_witness :
  eval_5cards arrays_model 268443177 134225189 67116063 33561373 16783895
  = eval_5cards arrays_model 16783895 33561373 67116063 134225189 268443177.
Proof.
  apply (eval_5cards_permutation arrays_model
           268443177 134225189 67116063 33561373 16783895
           16783895 33561373 67116063 134225189 268443177).
  exact (Permutation_rev [268443177; 134225189; 67116063; 33561373; 16783895]).
Defined.

Lemma eval_5hand_cards (T : arrays) (c1 c2 c3 c4 c5 : Z) (rest : list Z) :
  eval_5hand T (c1 :: c2 :: c3 :: c4 :: c5 :: rest) = eval_5cards T c1 c2 c3 c4 c5.
Proof. reflexivity. Qed.

(* ================================================================= *)
(** ** The table index is in range *)

Lemma lor_bound (a b n : Z) :
  0 <= a < 2 ^ n -> 0 <= b < 2 ^ n -> 0 <= Z.lor a b < 2 ^ n.
Proof.
  intros Ha Hb.
  assert (H0 : 0 <= Z.lor a b) by (apply Z.lor_nonneg; lia).
  split; [exact H0|].
  destruct (Z.eq_dec a 0) as [->|Hna]; [now rewrite Z.lor_0_l|].
  destruct (Z.eq_dec b 0) as [->|Hnb]; [now rewrite Z.lor_0_r|].
  assert (Hpos : 0 < Z.lor a b).
  { destruct (Z.eq_dec (Z.lor a b) 0) as [E|]; [|lia].
    apply Z.lor_eq_0_iff in E. lia. }
  apply Z.log2_lt_pow2; [exact Hpos|].
  rewrite Z.log2_lor by lia.
  apply Z.max_lub_lt; apply Z.log2_lt_pow2; lia.
Qed.

Lemma rank_or_range (c1 c2 c3 c4 c5 : Z) :
  0 <= c1 < 2 ^ 29 -> 0 <= c2 < 2 ^ 29 -> 0 <= c3 < 2 ^ 29 ->
  0 <= c4 < 2 ^ 29 -> 0 <= c5 < 2 ^ 29 ->
  0 <= rank_or c1 c2 c3 c4 c5 <= 8191.
Proof.
  intros H1 H2 H3 H4 H5. unfold rank_or.
  assert (H : 0 <= Z.lor (Z.lor (Z.lor (Z.lor c1 c2) c3) c4) c5 < 2 ^ 29)
    by (repeat apply lor_bound; assumption).
  rewrite Z.shiftr_div_pow2 by lia.
  split; [apply Z.div_pos; lia|].
  apply Z.lt_succ_r. apply Z.div_lt_upper_bound; lia.
Qed.

(** C10: for five valid encoded cards, whose bits above bit 28 are
    clear, the index [q = (c1|c2|c3|c4|c5) >> 16] lies in [0, 8191]; so
    the reads [flushes[q]] and [unique5[q]] of tables of 8192 entries
    are in bounds. *)
Theorem table_index_in_range (T : arrays) (c1 c2 c3 c4 c5 : Z) :
  valid_card c1 -> valid_card c2 -> valid_card c3 -> valid_card c4 ->
  valid_card c5 ->
  0 <= rank_or c1 c2 c3 c4 c5 <= 8191
  /\ (Z.of_nat (List.length (flushes T)) = 8192 ->
      exists v, rd (flushes T) (rank_or c1 c2 c3 c4 c5) = Some v)
  /\ (Z.of_nat (List.length (unique5 T)) = 8192 ->
      exists v, rd (unique5 T) (rank_or c1 c2 c3 c4 c5) = Some v).
Proof.
  intros V1 V2 V3 V4 V5.
  assert (Hq : 0 <= rank_or c1 c2 c3 c4 c5 <= 8191)
    by (apply rank_or_range; now apply valid_card_range).
  split; [exact Hq|].
  split; intros Hlen; apply rd_in_range; lia.
Qed.

(** An instance of [table_index_in_range]. *)
Lemma table_index_in_range_witness :
  0 <= rank_or 268443177 134225189 67116063 33561373 16783895 <= 8191
  /\ (exists v, rd (flushes arrays_model)
                  (rank_or 268443177 134225189 67116063 33561373 16783895) = Some v)
  /\ (exists v, rd (unique5 arrays_model)
                  (rank_or 268443177 134225189 67116063 33561373 16783895) = Some v).
Proof.
  destruct (table_index_in_range arrays_model
              268443177 134225189 67116063 33561373 16783895) as (Hq & Hf & Hu).
  - exists Spade, 12%nat. split; [lia | reflexivity].
  - exists Spade, 11%nat. split; [lia | reflexivity].
  - exists Spade, 10%nat. split; [lia | reflexivity].
  - exists Spade, 9%nat. split; [lia | reflexivity].
  - exists Spade, 8%nat. split; [lia | reflexivity].
  - split; [exact Hq|].
    split; [apply Hf | apply Hu]; vm_compute; reflexivity.
Defined.

(* ================================================================= *)
(** ** eval_5cards on encoded cards *)

Lemma land5_mask (c1 c2 c3 c4 c5 m : Z) :
  Z.land (Z.land (Z.land (Z.land (Z.land c1 c2) c3) c4) c5) m
  = Z.land (Z.land c1 m)
      (Z.land (Z.land c2 m)
         (Z.land (Z.land c3 m) (Z.land (Z.land c4 m) (Z.land c5 m)))).
Proof.
  apply Z.bits_inj'. intros n _. rewrite !Z.land_spec.
  repeat match goal with
         | |- context [Z.testbit ?x n] => destruct (Z.testbit x n)
         end; reflexivity.
Qed.

Section EncodedHand.

Variables (s1 s2 s3 s4 s5 : suit) (j1 j2 j3 j4 j5 : nat).
Hypotheses (R1 : (j1 < 13)%nat) (R2 : (j2 < 13)%nat) (R3 : (j3 < 13)%nat)
           (R4 : (j4 < 13)%nat) (R5 : (j5 < 13)%nat).

Let h : list (suit * nat) := [(s1, j1); (s2, j2); (s3, j3); (s4, j4); (s5, j5)].
Let c1 := encode s1 j1.
Let c2 := encode s2 j2.
Let c3 := encode s3 j3.
Let c4 := encode s4 j4.
Let c5 := encode s5 j5.

Lemma suit_and_encoded :
  suit_and c1 c2 c3 c4 c5 = if same_suit h then suit_bit s1 else 0.
Proof.
  unfold suit_and, c1, c2, c3, c4, c5. rewrite land5_mask.
  rewrite !encode_suit_field by assumption.
  destruct s1, s2, s3, s4, s5; reflexivity.
Qed.

Lemma same_suit_five :
  same_suit h = true <-> (s2 = s1 /\ s3 = s1 /\ s4 = s1 /\ s5 = s1).
Proof.
  unfold h. simpl. rewrite !andb_true_iff, !suit_eqb_eq. tauto.
Qed.

Lemma suit_and_nonzero_iff :
  suit_and c1 c2 c3 c4 c5 <> 0 <-> same_suit h = true.
Proof.
  rewrite suit_and_encoded. destruct (same_suit h).
  - split; [reflexivity|]. intros _. apply suit_bit_nonzero.
  - split; [intros H; now elim H | discriminate].
Qed.

Lemma rank_or_encoded :
  rank_or c1 c2 c3 c4 c5 = rank_mask (map snd h).
Proof.
  unfold rank_or, c1, c2, c3, c4, c5. rewrite !Z.shiftr_lor.
  rewrite !encode_rank_bit by assumption.
  unfold rank_mask. simpl. now rewrite Z.lor_0_r, !Z.lor_assoc.
Qed.

Lemma rank_primes_five :
  rank_primes (map snd h)
  = prime_of j1 * prime_of j2 * prime_of j3 * prime_of j4 * prime_of j5.
Proof. unfold rank_primes. simpl. ring. Qed.

Lemma rank_primes_range : 0 <= rank_primes (map snd h) < 2 ^ 31.
Proof.
  rewrite rank_primes_five.
  pose proof (prime_of_range j1 R1). pose proof (prime_of_range j2 R2).
  pose proof (prime_of_range j3 R3). pose proof (prime_of_range j4 R4).
  pose proof (prime_of_range j5 R5).
  assert (0 <= prime_of j1 * prime_of j2 <= 41 * 41) by nia.
  assert (0 <= prime_of j1 * prime_of j2 * prime_of j3 <= 41 * 41 * 41) by nia.
  assert (0 <= prime_of j1 * prime_of j2 * prime_of j3 * prime_of j4
          <= 41 * 41 * 41 * 41) by nia.
  nia.
Qed.

Lemma prime_product_encoded :
  to_uint (prime_product c1 c2 c3 c4 c5) = rank_primes (map snd h).
Proof.
  rewrite prime_product_fold. unfold low_bytes_product, c1, c2, c3, c4, c5.
  cbn [fold_right]. rewrite !encode_low_byte by assumption.
  rewrite to_uint_to_int. apply to_uint_small.
  pose proof rank_primes_range as H. lia.
Qed.

(** [eval_5cards] on five encoded cards, in terms of their suits and
    ranks. *)
Lemma eval_5cards_traced_encoded (T : arrays) :
  eval_5cards_traced T c1 c2 c3 c4 c5
  = (if same_suit h then
       v <- rd (flushes T) (rank_mask (map snd h)) ;;
       Some (ByFlushes, to_ushort v)
     else
       u <- rd (unique5 T) (rank_mask (map snd h)) ;;
       if negb (to_short u =? 0) then Some (ByUnique5, to_ushort u)
       else
         i <- find_fast T (rank_primes (map snd h)) ;;
         v <- rd (hash_values T) i ;;
         Some (ByHash, to_ushort v)).
Proof.
  unfold eval_5cards_traced.
  rewrite rank_or_encoded, prime_product_encoded, suit_and_encoded.
  destruct (same_suit h).
  - destruct (Z.eqb_spec (suit_bit s1) 0) as [E|_]; [|reflexivity].
    now apply suit_bit_nonzero in E.
  - change (negb (0 =? 0)) with false. cbv iota.
    destruct (rd (unique5 T) (rank_mask (map snd h))); [|reflexivity].
    unfold bind. now rewrite to_ushort_to_short.
Qed.

End EncodedHand.

Lemma rd_ushort (t : list Z) (i v : Z) :
  Forall (fun v => 0 <= v < 2 ^ 16) t -> rd t i = Some v -> 0 <= v < 2 ^ 16.
Proof.
  intros Ht E. apply rd_In in E. rewrite Forall_forall in Ht. now apply Ht.
Qed.

(** C2: on five valid encoded cards [eval_5cards] follows the three-way
    dispatch in order.  The AND of the suit fields is nonzero exactly
    when the five cards have the same suit; the result is then
    [flushes[q]]; otherwise it is [unique5[q]] when that entry is not
    zero; otherwise it is the perfect-hash lookup on the product of the
    five primes.  Each result comes from exactly one of the three return
    statements, decided by these conditions. *)
Theorem eval_5cards_dispatch (T : arrays)
        (s1 s2 s3 s4 s5 : suit) (j1 j2 j3 j4 j5 : nat) :
  (j1 < 13)%nat -> (j2 < 13)%nat -> (j3 < 13)%nat -> (j4 < 13)%nat ->
  (j5 < 13)%nat ->
  tables_shape T ->
  let h := [(s1, j1); (s2, j2); (s3, j3); (s4, j4); (s5, j5)] in
  let c1 := encode s1 j1 in let c2 := encode s2 j2 in
  let c3 := encode s3 j3 in let c4 := encode s4 j4 in
  let c5 := encode s5 j5 in
  let q := rank_or c1 c2 c3 c4 c5 in
  (suit_and c1 c2 c3 c4 c5 <> 0 <-> (s2 = s1 /\ s3 = s1 /\ s4 = s1 /\ s5 = s1))
  /\ eval_5cards_traced T c1 c2 c3 c4 c5 = Spec.dispatch T h
  /\ (forall b v, eval_5cards_traced T c1 c2 c3 c4 c5 = Some (b, v) ->
      match b with
      | ByFlushes =>
          suit_and c1 c2 c3 c4 c5 <> 0 /\ rd (flushes T) q = Some v
      | ByUnique5 =>
          suit_and c1 c2 c3 c4 c5 = 0 /\ rd (unique5 T) q = Some v /\ v <> 0
      | ByHash =>
          suit_and c1 c2 c3 c4 c5 = 0 /\ rd (unique5 T) q = Some 0
          /\ exists i, find_fast T (to_uint (prime_product c1 c2 c3 c4 c5)) = Some i
                       /\ rd (hash_values T) i = Some v
      end).
Proof.
  intros R1 R2 R3 R4 R5 HT h c1 c2 c3 c4 c5 q.
  assert (Hand : suit_and c1 c2 c3 c4 c5 <> 0 <-> same_suit h = true)
    by (apply suit_and_nonzero_iff; assumption).
  assert (Hq : q = rank_mask (map snd h)) by (apply rank_or_encoded; assumption).
  assert (Hp : to_uint (prime_product c1 c2 c3 c4 c5) = rank_primes (map snd h))
    by (apply prime_product_encoded; assumption).
  assert (Heq : eval_5cards_traced T c1 c2 c3 c4 c5 = Spec.dispatch T h).
  { unfold c1, c2, c3, c4, c5. rewrite eval_5cards_traced_encoded by assumption.
    fold h. unfold Spec.dispatch.
    destruct (same_suit h).
    - destruct (rd (flushes T) (rank_mask (map snd h))) as [v|] eqn:E; [|reflexivity].
      cbn [bind]. rewrite to_ushort_small; [reflexivity|].
      eapply rd_ushort; [apply (flushes_ushort T HT) | exact E].
    - destruct (rd (unique5 T) (rank_mask (map snd h))) as [u|] eqn:E; [|reflexivity].
      cbn [bind].
      assert (Hu : 0 <= u < 2 ^ 16)
        by (eapply rd_ushort; [apply (unique5_ushort T HT) | exact E]).
      rewrite to_short_zero by exact Hu.
      destruct (u =? 0); cbn [negb].
      + destruct (find_fast T (rank_primes (map snd h))) as [i|]; [|reflexivity].
        cbn [bind]. destruct (rd (hash_values T) i) as [v|] eqn:Ev; [|reflexivity].
        cbn [bind]. rewrite to_ushort_small; [reflexivity|].
        eapply rd_ushort; [apply (hash_values_ushort T HT) | exact Ev].
      + now rewrite to_ushort_small. }
  split; [|split].
  - rewrite Hand. apply same_suit_five.
  - exact Heq.
  - intros b v. rewrite Heq, Hp, Hq. unfold Spec.dispatch.
    destruct (same_suit h) eqn:Es.
    + destruct (rd (flushes T) (rank_mask (map snd h))) as [w|]; [|discriminate].
      cbn [bind]. intros [= <- <-]. split; [now apply Hand | reflexivity].
    + assert (Hz : suit_and c1 c2 c3 c4 c5 = 0).
      { destruct (Z.eq_dec (suit_and c1 c2 c3 c4 c5) 0) as [|Hn]; [assumption|].
        apply Hand in Hn. discriminate. }
      destruct (rd (unique5 T) (rank_mask (map snd h))) as [u|]; [|discriminate].
      cbn [bind]. destruct (Z.eqb_spec u 0) as [->|Hu]; cbn [negb].
      * destruct (find_fast T (rank_primes (map snd h))) as [i|]; [|discriminate].
        cbn [bind]. destruct (rd (hash_values T) i) as [w|] eqn:Ew; [|discriminate].
        cbn [bind]. intros [= <- <-]. repeat split; try assumption. now exists i.
      * intros [= <- <-]. repeat split; assumption.
Qed.

(* ================================================================= *)
(** ** Sorting the ranks of a hand *)

Lemma insert_permutation (r : nat) (l : list nat) :
  Permutation (insert r l) (r :: l).
Proof.
  induction l as [|x t IH]; simpl; [reflexivity|].
  destruct (r <=? x)%nat; [reflexivity|].
  rewrite IH. apply perm_swap.
Qed.

Lemma fold_insert_permutation (l acc : list nat) :
  Permutation (fold_left (fun acc r => insert r acc) l acc) (l ++ acc).
Proof.
  revert acc. induction l as [|x t IH]; intros acc; simpl; [reflexivity|].
  rewrite IH, insert_permutation. symmetry. apply Permutation_middle.
Qed.

Lemma sort_ranks_permutation (l : list nat) : Permutation (sort_ranks l) l.
Proof.
  unfold sort_ranks. rewrite fold_insert_permutation. now rewrite app_nil_r.
Qed.

Lemma insert_sorted (r : nat) (l : list nat) :
  sortedb l = true -> sortedb (insert r l) = true.
Proof.
  induction l as [|x t IH]; intros Hs; [reflexivity|].
  simpl insert. destruct (Nat.leb_spec r x) as [Hrx|Hrx].
  - change (((r <=? x)%nat && sortedb (x :: t)) = true).
    rewrite Hs, andb_true_r. now apply Nat.leb_le.
  - destruct t as [|y t'].
    + simpl. rewrite andb_true_r. apply Nat.leb_le. lia.
    + simpl in Hs. apply andb_true_iff in Hs. destruct Hs as [Hxy Hs].
      specialize (IH Hs). simpl insert in IH |- *.
      destruct (r <=? y)%nat.
      * change (((x <=? r)%nat && sortedb (r :: y :: t')) = true).
        rewrite IH, andb_true_r. apply Nat.leb_le. lia.
      * change (((x <=? y)%nat && sortedb (y :: insert r t')) = true).
        now rewrite Hxy, IH.
Qed.

Lemma sort_ranks_sorted (l : list nat) : sortedb (sort_ranks l) = true.
Proof.
  unfold sort_ranks.
  assert (H : forall acc, sortedb acc = true ->
                          sortedb (fold_left (fun acc r => insert r acc) l acc) = true).
  { induction l as [|x t IH]; intros acc Hacc; simpl; [exact Hacc|].
    apply IH. now apply insert_sorted. }
  now apply H.
Qed.

(** The sorted ranks of five cards. *)
Lemma sort_ranks_five (j1 j2 j3 j4 j5 : nat) :
  (j1 < 13)%nat -> (j2 < 13)%nat -> (j3 < 13)%nat -> (j4 < 13)%nat ->
  (j5 < 13)%nat ->
  exists a b c d e,
    sort_ranks [j1; j2; j3; j4; j5] = [a; b; c; d; e]
    /\ increasing5 a b c d e
    /\ Permutation [a; b; c; d; e] [j1; j2; j3; j4; j5].
Proof.
  intros R1 R2 R3 R4 R5.
  pose proof (sort_ranks_permutation [j1; j2; j3; j4; j5]) as HP.
  pose proof (sort_ranks_sorted [j1; j2; j3; j4; j5]) as HS.
  pose proof (Permutation_length HP) as HL.
  destruct (sort_ranks [j1; j2; j3; j4; j5]) as [|a [|b [|c [|d [|e [|x t]]]]]];
    try discriminate HL.
  exists a, b, c, d, e. split; [reflexivity|]. split; [|exact HP].
  simpl in HS. rewrite !andb_true_iff, !Nat.leb_le in HS.
  assert (He : In e [j1; j2; j3; j4; j5])
    by (eapply Permutation_in; [exact HP | simpl; tauto]).
  unfold increasing5. simpl in He. intuition lia.
Qed.

Lemma rank_mask_permutation (l l' : list nat) :
  Permutation l l' -> rank_mask l = rank_mask l'.
Proof.
  apply (fold_right_permutation (fun r m => Z.lor (Z.shiftl 1 (Z.of_nat r)) m)).
  intros x y z.
  now rewrite !Z.lor_assoc, (Z.lor_comm (Z.shiftl 1 (Z.of_nat x))).
Qed.

Lemma rank_primes_permutation (l l' : list nat) :
  Permutation l l' -> rank_primes l = rank_primes l'.
Proof.
  apply (fold_right_permutation (fun r p => prime_of r * p)).
  intros x y z. ring.
Qed.

(* ================================================================= *)
(** ** The pattern of the ranks of distinct cards *)

Lemma rank_pattern_distinct (a b c d e : nat) :
  NoDup [a; b; c; d; e] -> rank_pattern [a; b; c; d; e] = Distinct.
Proof.
  intros H. repeat (apply NoDup_cons_iff in H; destruct H as [? H]).
  unfold rank_pattern.
  destruct (Nat.eqb_spec a b); [subst; simpl in *; tauto|].
  destruct (Nat.eqb_spec b c); [subst; simpl in *; tauto|].
  destruct (Nat.eqb_spec c d); [subst; simpl in *; tauto|].
  destruct (Nat.eqb_spec d e); [subst; simpl in *; tauto|].
  reflexivity.
Qed.

Lemma rank_pattern_none (a b c d e : nat) :
  rank_pattern [a; b; c; d; e] = NoPattern -> a = b /\ b = c /\ c = d /\ d = e.
Proof.
  unfold rank_pattern.
  destruct (Nat.eqb_spec a b), (Nat.eqb_spec b c), (Nat.eqb_spec c d),
    (Nat.eqb_spec d e); try discriminate.
  tauto.
Qed.

(** Cards of one suit that are distinct have distinct ranks. *)
Lemma same_suit_ranks_distinct (h : list (suit * nat)) :
  same_suit h = true -> NoDup h -> NoDup (map snd h).
Proof.
  destruct h as [|[s j] t]; [discriminate|].
  simpl same_suit. intros Hs Hn.
  apply NoDup_map_NoDup_ForallPairs; [|exact Hn].
  assert (Hall : forall c, In c ((s, j) :: t) -> fst c = s).
  { intros c [<-|Hc]; [reflexivity|].
    rewrite forallb_forall in Hs. apply suit_eqb_eq. now apply Hs. }
  intros [sx jx] [sy jy] Hx Hy E. simpl in E.
  apply Hall in Hx, Hy. simpl in Hx, Hy. congruence.
Qed.

(** Five distinct cards cannot all have the same rank: there are four
    suits. *)
Lemma five_of_a_rank_impossible (h : list (suit * nat)) (j : nat) :
  List.length h = 5%nat -> NoDup h -> (forall c, In c h -> snd c = j) -> False.
Proof.
  intros HL Hn Hall.
  assert (Hs : NoDup (map fst h)).
  { apply NoDup_map_NoDup_ForallPairs; [|exact Hn].
    intros [sx jx] [sy jy] Hx Hy E. simpl in E.
    apply Hall in Hx, Hy. simpl in Hx, Hy. congruence. }
  assert (Hi : incl (map fst h) [Club; Diamond; Heart; Spade]).
  { intros s _. destruct s; simpl; tauto. }
  pose proof (NoDup_incl_length Hs Hi) as Hlen.
  rewrite length_map, HL in Hlen. simpl in Hlen. lia.
Qed.

(* ================================================================= *)
(** ** The class of a hand of five distinct cards *)

Lemma class_of_ushort (cat v : Z) : class_of cat v -> 0 <= v < 2 ^ 16.
Proof. intros [H _]. lia. Qed.

Lemma class_of_nonzero (cat v : Z) : class_of cat v -> (v =? 0) = false.
Proof. intros [H _]. apply Z.eqb_neq. lia. Qed.

Section HandClass.

Variable T : arrays.
Hypothesis contract : tables_contract T.

Lemma eval_5cards_traced_class
      (s1 s2 s3 s4 s5 : suit) (j1 j2 j3 j4 j5 : nat) :
  (j1 < 13)%nat -> (j2 < 13)%nat -> (j3 < 13)%nat -> (j4 < 13)%nat ->
  (j5 < 13)%nat ->
  NoDup [(s1, j1); (s2, j2); (s3, j3); (s4, j4); (s5, j5)] ->
  exists b v,
    eval_5cards_traced T (encode s1 j1) (encode s2 j2) (encode s3 j3)
                       (encode s4 j4) (encode s5 j5) = Some (b, v)
    /\ class_of (hand_category [(s1, j1); (s2, j2); (s3, j3); (s4, j4); (s5, j5)]) v.
Proof.
  intros R1 R2 R3 R4 R5 Hn.
  rewrite eval_5cards_traced_encoded by assumption.
  set (h := [(s1, j1); (s2, j2); (s3, j3); (s4, j4); (s5, j5)]) in *.
  unfold hand_category.
  change (map snd h) with [j1; j2; j3; j4; j5].
  destruct (sort_ranks_five j1 j2 j3 j4 j5 R1 R2 R3 R4 R5)
    as (a & b & c & d & e & -> & Hinc & HP).
  rewrite <- (rank_mask_permutation _ _ HP), <- (rank_primes_permutation _ _ HP).
  destruct (same_suit h) eqn:Es.
  - (* a suited hand has five distinct ranks *)
    assert (Hd : rank_pattern [a; b; c; d; e] = Distinct).
    { apply rank_pattern_distinct.
      apply (Permutation_NoDup (Permutation_sym HP)).
      now apply (same_suit_ranks_distinct h). }
    destruct (flushes_classes T contract a b c d e Hinc Hd) as (v & -> & Hv).
    exists ByFlushes, v. cbn [bind].
    rewrite to_ushort_small by (eapply class_of_ushort; eassumption).
    now split.
  - destruct (rank_pattern [a; b; c; d; e]) eqn:Ep.
    1: { (* five distinct ranks: the distinct-rank table *)
      destruct (unique5_classes T contract a b c d e Hinc Ep) as (v & -> & Hv).
      exists ByUnique5, v. cbn [bind].
      rewrite to_short_zero by (eapply class_of_ushort; eassumption).
      rewrite (class_of_nonzero _ _ Hv). cbn [negb].
      rewrite to_ushort_small by (eapply class_of_ushort; eassumption).
      now split. }
    6: { (* five cards of one rank do not exist *)
      exfalso. apply rank_pattern_none in Ep.
      destruct Ep as (-> & -> & -> & ->).
      apply (five_of_a_rank_impossible h e); [reflexivity | exact Hn |].
      intros [s j] Hc. simpl.
      assert (Hj : In j [j1; j2; j3; j4; j5])
        by (change [j1; j2; j3; j4; j5] with (map snd h);
            apply in_map_iff; now exists (s, j)).
      apply (Permutation_in _ (Permutation_sym HP)) in Hj.
      simpl in Hj. intuition congruence. }
    (* a repeated rank: the perfect hash *)
    all: rewrite (unique5_zero T contract a b c d e Hinc) by congruence;
      cbn [bind]; change (negb (to_short 0 =? 0)) with false; cbv iota;
      destruct (hash_classes T contract a b c d e Hinc) as (i & v & Ei & Ev & Hv);
      [congruence | congruence |];
      rewrite Ei; cbn [bind]; rewrite Ev; cbn [bind];
      exists ByHash, v;
      rewrite to_ushort_small by (eapply class_of_ushort; eassumption);
      now split.
Qed.

(** A hand of five distinct cards gets a class of its category. *)
Lemma eval_5hand_class (h : list (suit * nat)) :
  List.length h = 5%nat -> NoDup h -> (forall c, In c h -> (snd c < 13)%nat) ->
  exists v, eval_5hand T (map encode_card h) = Some v
            /\ class_of (hand_category h) v.
Proof.
  intros HL Hn Hr.
  destruct h as [|[s1 j1] [|[s2 j2] [|[s3 j3] [|[s4 j4] [|[s5 j5] [|x t]]]]]];
    try discriminate HL.
  assert (R1 : (j1 < 13)%nat) by (apply (Hr (s1, j1)); simpl; tauto).
  assert (R2 : (j2 < 13)%nat) by (apply (Hr (s2, j2)); simpl; tauto).
  assert (R3 : (j3 < 13)%nat) by (apply (Hr (s3, j3)); simpl; tauto).
  assert (R4 : (j4 < 13)%nat) by (apply (Hr (s4, j4)); simpl; tauto).
  assert (R5 : (j5 < 13)%nat) by (apply (Hr (s5, j5)); simpl; tauto).
  destruct (eval_5cards_traced_class s1 s2 s3 s4 s5 j1 j2 j3 j4 j5
              R1 R2 R3 R4 R5 Hn) as (b & v & E & Hv).
  exists v. split; [|exact Hv].
  change (eval_5cards T (encode s1 j1) (encode s2 j2) (encode s3 j3)
                      (encode s4 j4) (encode s5 j5) = Some v).
  unfold eval_5cards. now rewrite E.
Qed.

End HandClass.

(* ================================================================= *)
(** ** Deciding the contract *)

Lemma class_ofb_sound (cat v : Z) : class_ofb cat v = true -> class_of cat v.
Proof.
  unfold class_ofb, class_of.
  rewrite !andb_true_iff, !Z.leb_le, Z.eqb_eq. tauto.
Qed.

Lemma ranks_from_In (a b : nat) : (a <= b < 13)%nat -> In b (ranks_from a).
Proof. intros H. unfold ranks_from. apply in_seq. lia. Qed.

Lemma check_tables_ranks (T : arrays) (a b c d e : nat) :
  check_tables T = true -> increasing5 a b c d e ->
  check_ranks T a b c d e = true.
Proof.
  unfold check_tables, increasing5. intros H (Hab & Hbc & Hcd & Hde & He).
  rewrite forallb_forall in H.
  specialize (H a (ranks_from_In 0 a ltac:(lia))).
  rewrite forallb_forall in H.
  specialize (H b (ranks_from_In a b ltac:(lia))).
  rewrite forallb_forall in H.
  specialize (H c (ranks_from_In b c ltac:(lia))).
  rewrite forallb_forall in H.
  specialize (H d (ranks_from_In c d ltac:(lia))).
  rewrite forallb_forall in H.
  exact (H e (ranks_from_In d e ltac:(lia))).
Qed.

Lemma check_tables_sound (T : arrays) :
  check_tables T = true -> tables_contract T.
Proof.
  intros H. split; intros a b c d e Hinc; intros;
    pose proof (check_tables_ranks T a b c d e H Hinc) as Hc;
    unfold check_ranks in Hc;
    destruct (rank_pattern [a; b; c; d; e]) eqn:Ep; try congruence.
  (* the entries of the distinct-rank table at repeated ranks *)
  3-7: destruct (rd (unique5 T) (rank_mask [a; b; c; d; e])) as [[| |]|];
    congruence.
  (* the perfect-hash lookups *)
  3-7: destruct (rd (unique5 T) (rank_mask [a; b; c; d; e])) as [[| |]|];
    try discriminate;
    destruct (find_fast T (rank_primes [a; b; c; d; e])) as [i|]; [|discriminate];
    destruct (rd (hash_values T) i) as [v|] eqn:Ev; [|discriminate];
    exists i, v; split; [reflexivity|]; split; [exact Ev|];
    now apply class_ofb_sound.
  (* five distinct ranks *)
  - destruct (rd (flushes T) (rank_mask [a; b; c; d; e])) as [v|]; [|discriminate].
    destruct (rd (unique5 T) (rank_mask [a; b; c; d; e])) as [w|]; [|discriminate].
    apply andb_true_iff in Hc. exists v. split; [reflexivity|].
    now apply class_ofb_sound.
  - destruct (rd (flushes T) (rank_mask [a; b; c; d; e])) as [v|]; [|discriminate].
    destruct (rd (unique5 T) (rank_mask [a; b; c; d; e])) as [w|]; [|discriminate].
    apply andb_true_iff in Hc. exists w. split; [reflexivity|].
    now apply class_ofb_sound.
Qed.

(** The tables built above meet the contract. *)
Lemma arrays_model_contract : tables_contract arrays_model.
Proof. apply check_tables_sound. vm_compute. reflexivity. Qed.

Lemma forallb_Forall {A : Type} (f : A -> bool) (P : A -> Prop) (l : list A) :
  (forall x, f x = true -> P x) -> forallb f l = true -> Forall P l.
Proof.
  intros HfP H. apply Forall_forall. intros x Hx.
  apply HfP. rewrite forallb_forall in H. now apply H.
Qed.

Lemma ushort_entries (t : list Z) :
  forallb (fun v => (0 <=? v) && (v <? 2 ^ 16)) t = true ->
  Forall (fun v => 0 <= v < 2 ^ 16) t.
Proof.
  apply forallb_Forall. intros x. rewrite andb_true_iff, Z.leb_le, Z.ltb_lt. tauto.
Qed.

Lemma arrays_model_shape : tables_shape arrays_model.
Proof.
  split; try (vm_compute; reflexivity); apply ushort_entries; vm_compute; reflexivity.
Qed.

Lemma arrays_model_perm7 : perm7_contract arrays_model.
Proof.
  split; [reflexivity|].
  intros row Hrow. simpl in Hrow.
  repeat (destruct Hrow as [<-|Hrow];
          [ split; [reflexivity|]; split;
            [ repeat constructor; simpl; intuition discriminate
            | repeat constructor; lia ] | ]).
  contradiction.
Qed.

(* ================================================================= *)
(** ** Choices of [k] elements *)

Section Combs.

Context {A : Type}.

Lemma combs_nil_r (l : list A) : combs l 0 = [[]].
Proof. destruct l; reflexivity. Qed.

Lemma combs_cons (x : A) (t : list A) (k : nat) :
  combs (x :: t) (S k) = map (cons x) (combs t k) ++ combs t (S k).
Proof. reflexivity. Qed.

Lemma combs_short (l : list A) (k : nat) :
  (List.length l < k)%nat -> combs l k = [].
Proof.
  revert k. induction l as [|x t IH]; intros [|k] H; simpl in *; try lia.
  - reflexivity.
  - rewrite (IH k), (IH (S k)) by lia. reflexivity.
Qed.

Lemma combs_In (l : list A) (k : nat) (h : list A) :
  In h (combs l k) ->
  List.length h = k /\ incl h l /\ (NoDup l -> NoDup h).
Proof.
  revert k h. induction l as [|x t IH]; intros [|k] h; simpl.
  - intros [<-|[]]. repeat split; [apply incl_nil_l | constructor].
  - intros [].
  - intros [<-|[]]. repeat split; [apply incl_nil_l | constructor].
  - rewrite in_app_iff, in_map_iff. intros [(h' & <- & Hh')|Hh].
    + destruct (IH k h' Hh') as (HL & Hi & Hn).
      split; [simpl; now f_equal|]. split.
      * intros y [<-|Hy]; [now left | right; now apply Hi].
      * intros Hx. apply NoDup_cons_iff in Hx. destruct Hx as [Hx Ht].
        constructor; [|now apply Hn]. intros Hin. apply Hx. now apply Hi.
    + destruct (IH (S k) h Hh) as (HL & Hi & Hn).
      split; [exact HL|]. split.
      * intros y Hy. right. now apply Hi.
      * intros Hx. apply NoDup_cons_iff in Hx. now apply Hn.
Qed.

(** The choices from a list without repetition are all different. *)
Lemma combs_NoDup (l : list A) (k : nat) : NoDup l -> NoDup (combs l k).
Proof.
  revert k. induction l as [|x t IH]; intros [|k] Hn; simpl.
  - repeat constructor. simpl. tauto.
  - constructor.
  - repeat constructor. simpl. tauto.
  - apply NoDup_cons_iff in Hn. destruct Hn as [Hx Ht].
    apply NoDup_app.
    + apply NoDup_map_NoDup_ForallPairs; [|now apply IH].
      intros a b _ _ E. congruence.
    + now apply IH.
    + intros h Hh Hh'. apply in_map_iff in Hh. destruct Hh as (h' & <- & _).
      apply combs_In in Hh'. destruct Hh' as (_ & Hi & _).
      apply Hx. apply Hi. now left.
Qed.

End Combs.

Lemma combs_map {A B : Type} (f : A -> B) (l : list A) (k : nat) :
  combs (map f l) k = map (map f) (combs l k).
Proof.
  revert k. induction l as [|x t IH]; intros [|k]; simpl; try reflexivity.
  rewrite map_app, !map_map, !IH, map_map. reflexivity.
Qed.

(* ================================================================= *)
(** ** The fused enumeration tallies the categories of all hands *)

Lemma next_succ (x : N) (k : N -> tallies) : next x k = k (N.succ x).
Proof. unfold next. destruct (N.succ x); reflexivity. Qed.

Lemma after_eq (t : tallies) (k : tallies -> tallies) : after t k = k t.
Proof. destruct t. reflexivity. Qed.

Lemma suited_see (s : suit) (t : list (suit * nat)) :
  suited (fold_left (fun f c => see_suit f (fst c)) t (AllOf s))
  = forallb (fun c => suit_eqb (fst c) s) t.
Proof.
  induction t as [|[s' j] t IH]; [reflexivity|].
  simpl. destruct (suit_eqb s' s); [exact IH|].
  clear IH. induction t as [|c t IH]; [reflexivity | exact IH].
Qed.

Lemma suited_suits_of (h : list (suit * nat)) :
  suited (suits_of h) = same_suit h.
Proof.
  destruct h as [|[s j] t]; [reflexivity|]. apply suited_see.
Qed.

Lemma sort_ranks_fold (h : list (suit * nat)) :
  sort_ranks (map snd h) = fold_left (fun acc c => insert (snd c) acc) h [].
Proof.
  unfold sort_ranks. generalize (@nil nat).
  induction h as [|c t IH]; intros acc; [reflexivity|]. simpl. apply IH.
Qed.

Lemma count_hands_fold (l : list (suit * nat)) (k : nat)
      (f : suits_seen) (rs : list nat) (acc : tallies) :
  count_hands l k f rs acc
  = fold_left
      (fun acc h =>
         bump (category (suited (fold_left (fun f c => see_suit f (fst c)) h f))
                        (fold_left (fun acc c => insert (snd c) acc) h rs))
              acc)
      (combs l k) acc.
Proof.
  revert k f rs acc. induction l as [|[s r] t IH]; intros [|k] f rs acc;
    try reflexivity.
  cbn [count_hands]. rewrite after_eq, IH, IH, combs_cons, fold_left_app.
  f_equal. clear IH.
  generalize (combs t k) as hs. intros hs. revert acc.
  induction hs as [|h hs IHh]; intros acc; [reflexivity|].
  simpl. apply IHh.
Qed.

(** The enumeration from no card chosen tallies [hand_category]. *)
Lemma count_hands_tally (l : list (suit * nat)) (k : nat) :
  count_hands l k NoCard [] no_tallies = tally_hands [] (combs l k) no_tallies.
Proof.
  rewrite count_hands_fold. unfold tally_hands.
  generalize no_tallies as acc. generalize (combs l k) as hs.
  induction hs as [|h hs IH]; intros acc; [reflexivity|].
  simpl. rewrite <- IH. do 2 f_equal.
  unfold hand_category. rewrite <- suited_suits_of, sort_ranks_fold. reflexivity.
Qed.

Lemma total_bump (cat : Z) (t : tallies) : total (bump cat t) = N.succ (total t).
Proof.
  destruct t as [a1 a2 a3 a4 a5 a6 a7 a8 a9 a0]. unfold bump.
  repeat match goal with
         | |- context [match ?c with _ => _ end] => destruct c
         end;
    rewrite next_succ; unfold total; simpl; lia.
Qed.

Lemma total_tally_hands (p : list (suit * nat)) (hs : list (list (suit * nat)))
      (t : tallies) :
  total (tally_hands p hs t) = (total t + N.of_nat (List.length hs))%N.
Proof.
  unfold tally_hands. revert t. induction hs as [|h hs IH]; intros t.
  - simpl. lia.
  - cbn [fold_left List.length]. rewrite IH, total_bump. lia.
Qed.

(** [freq[n]++] on the frequency array of a tally. *)
Lemma incr_freq_bump (cat : Z) (t : tallies) :
  1 <= cat <= 9 -> incr_freq (freq_of t) cat = Some (freq_of (bump cat t)).
Proof.
  intros H. destruct t as [a1 a2 a3 a4 a5 a6 a7 a8 a9 a0].
  assert (E : cat = 1 \/ cat = 2 \/ cat = 3 \/ cat = 4 \/ cat = 5 \/ cat = 6
              \/ cat = 7 \/ cat = 8 \/ cat = 9) by lia.
  unfold bump.
  destruct E as [->|[->|[->|[->|[->|[->|[->|[->| ->]]]]]]]];
    rewrite next_succ; unfold incr_freq, freq_of; cbn;
    rewrite N2Z.inj_succ; reflexivity.
Qed.

(* ================================================================= *)
(** ** The nested loops of allfive.c *)

Lemma all_hands_loop_loops (T : arrays) (deck hand freq : list Z) :
  all_hands_loop T deck hand freq = loops T deck 5 0 (hand, freq).
Proof. reflexivity. Qed.

Lemma rd_map {A B : Type} (f : A -> B) (l : list A) (i : Z) :
  rd (map f l) i = option_map f (rd l i).
Proof.
  unfold rd. destruct (i <? 0); [reflexivity|]. apply nth_error_map.
Qed.

Lemma skipn_cons_rd {A : Type} (l : list A) (lo : nat) :
  (lo < List.length l)%nat ->
  exists x, rd l (Z.of_nat lo) = Some x /\ skipn lo l = x :: skipn (S lo) l.
Proof.
  revert lo. induction l as [|y t IH]; intros lo H; simpl in H; [lia|].
  destruct lo as [|lo].
  - exists y. split; reflexivity.
  - destruct (IH lo ltac:(lia)) as (x & Hx & Hs).
    exists x. rewrite rd_nat in *. split; [exact Hx | exact Hs].
Qed.

Lemma wr_nat_firstn {A : Type} (a : list A) (n : nat) (v : A) :
  (n < List.length a)%nat ->
  exists a', wr_nat a n v = Some a'
             /\ List.length a' = List.length a
             /\ firstn (S n) a' = firstn n a ++ [v].
Proof.
  revert n. induction a as [|x t IH]; intros n H; simpl in H; [lia|].
  destruct n as [|n].
  - exists (v :: t). repeat split.
  - destruct (IH n ltac:(lia)) as (t' & E & HL & HF).
    exists (x :: t'). cbn [wr_nat]. rewrite E. repeat split.
    + simpl. now f_equal.
    + change (x :: firstn (S n) t' = x :: (firstn n t ++ [v])). now f_equal.
Qed.

Lemma wr_firstn {A : Type} (a : list A) (n : nat) (v : A) :
  (n < List.length a)%nat ->
  exists a', wr a (Z.of_nat n) v = Some a'
             /\ List.length a' = List.length a
             /\ firstn (S n) a' = firstn n a ++ [v].
Proof.
  intros H. unfold wr. destruct (Z.ltb_spec (Z.of_nat n) 0); [lia|].
  rewrite Nat2Z.id. now apply wr_nat_firstn.
Qed.

Lemma firstn_prefix {A : Type} (a p q : list A) :
  firstn (List.length (p ++ q)) a = p ++ q -> firstn (List.length p) a = p.
Proof.
  intros H.
  assert (E : firstn (List.length p) (firstn (List.length (p ++ q)) a)
              = firstn (List.length p) (p ++ q)) by now rewrite H.
  rewrite firstn_firstn, length_app, Nat.min_l in E by lia.
  rewrite E, firstn_app, Nat.sub_diag, firstn_all. simpl. apply app_nil_r.
Qed.

Lemma tally_hands_cons (p : list (suit * nat)) (x : suit * nat)
      (hs : list (list (suit * nat))) (t : tallies) :
  tally_hands p (map (cons x) hs) t = tally_hands (p ++ [x]) hs t.
Proof.
  unfold tally_hands. revert t. induction hs as [|h hs IH]; intros t; [reflexivity|].
  simpl. rewrite IH. now rewrite <- app_assoc.
Qed.

Lemma tally_hands_app (p : list (suit * nat)) (hs hs' : list (list (suit * nat)))
      (t : tallies) :
  tally_hands p (hs ++ hs') t = tally_hands p hs' (tally_hands p hs t).
Proof. apply fold_left_app. Qed.

Lemma deck_cards_length : List.length deck_cards = 52%nat.
Proof. reflexivity. Qed.

Section Loops.

Variable T : arrays.
Hypothesis contract : tables_contract T.

Lemma loop_invariant_step (p : list (suit * nat)) (lo : nat) (hand : list Z)
      (x : suit * nat) :
  loop_invariant p lo hand ->
  skipn lo deck_cards = x :: skipn (S lo) deck_cards ->
  loop_invariant p (S lo) hand.
Proof.
  intros (HL & HF & Hn & Hr) Hs. rewrite Hs in Hn, Hr.
  repeat split; try assumption.
  - now apply NoDup_remove_1 in Hn.
  - intros c Hc. apply Hr. rewrite in_app_iff in *. simpl. tauto.
Qed.

Lemma loops_tally (m : nat) :
  forall (lo : nat) (p : list (suit * nat)) (hand : list Z) (t : tallies),
    (List.length p + m = 5)%nat -> (lo + m <= 52)%nat ->
    loop_invariant p lo hand ->
    exists hand',
      loops T the_deck m (Z.of_nat lo) (hand, freq_of t)
      = Some (hand', freq_of (tally_hands p (combs (skipn lo deck_cards) m) t))
      /\ List.length hand' = 5%nat
      /\ firstn (List.length p) hand' = map encode_card p.
Proof.
  induction m as [|m IHm]; intros lo p hand t Hp Hlo Hinv.
  - (* the hand is complete *)
    destruct Hinv as (HL & HF & Hn & Hr).
    assert (Hp5 : List.length p = 5%nat) by lia.
    rewrite Hp5, <- HL, firstn_all in HF. subst hand.
    rewrite combs_nil_r. unfold tally_hands. cbn [fold_left loops].
    rewrite app_nil_r.
    destruct (eval_5hand_class T contract p Hp5) as (v & Ev & Hc & Hv).
    + now apply NoDup_app_remove_r in Hn.
    + intros c Hc. apply Hr. apply in_app_iff. now left.
    + exists (map encode_card p). unfold tally. rewrite Ev. cbn [bind].
      rewrite Hv, incr_freq_bump by (rewrite <- Hv; apply hand_rank_range).
      cbn [bind]. split; [reflexivity|]. split; [exact HL|].
      rewrite <- (length_map encode_card p). apply firstn_all.
  - (* one more card to choose, at an index from [lo] *)
    cbn [loops]. unfold for_range.
    remember (Z.to_nat (52 - Z.of_nat m - Z.of_nat lo)) as n eqn:En.
    assert (Hn : (lo + n + m = 52)%nat) by lia. clear En Hlo.
    revert lo hand t Hinv Hn.
    induction n as [|n IHn]; intros lo hand t Hinv Hn.
    + exists hand. rewrite combs_short
        by (rewrite length_skipn, deck_cards_length; lia).
      destruct Hinv as (HL & HF & _). now repeat split.
    + destruct (skipn_cons_rd deck_cards lo) as (x & Hx & Hs);
        [rewrite deck_cards_length; lia|].
      pose proof Hinv as (HL & HF & Hnd & Hr).
      cbn [for_loop]. unfold the_deck at 1. rewrite rd_map, Hx.
      cbn [option_map bind].
      assert (Epos : Z.of_nat (List.length p) = 4 - Z.of_nat m) by lia.
      assert (Elo : Z.of_nat (S lo) = Z.of_nat lo + 1) by lia.
      destruct (wr_firstn hand (List.length p) (encode_card x))
        as (hand1 & E1 & HL1 & HF1); [lia|].
      rewrite Epos in E1. rewrite E1. cbn [bind].
      (* the levels below, with [x] chosen *)
      destruct (IHm (S lo) (p ++ [x]) hand1 t) as (hand2 & E2 & HL2 & HF2).
      * rewrite length_app. simpl. lia.
      * lia.
      * rewrite Hs in Hnd, Hr. repeat split.
        -- lia.
        -- rewrite length_app, Nat.add_1_r, HF1, HF, map_app. reflexivity.
        -- now rewrite <- app_assoc.
        -- intros c Hc. apply Hr. now rewrite <- app_assoc in Hc.
      * rewrite Elo in E2. rewrite E2. cbn [bind].
        (* the remaining choices at this level, without [x] *)
        destruct (IHn (S lo) hand2
                      (tally_hands (p ++ [x]) (combs (skipn (S lo) deck_cards) m) t))
          as (hand3 & E3 & HL3 & HF3).
        -- apply (loop_invariant_step p lo hand2 x); [|exact Hs].
           repeat split; try assumption.
           rewrite <- (length_map encode_card p).
           apply (firstn_prefix hand2 _ (map encode_card [x])).
           rewrite <- map_app, length_map. exact HF2.
        -- lia.
        -- rewrite Elo in E3. rewrite E3.
           exists hand3. rewrite Hs, combs_cons, tally_hands_app, tally_hands_cons.
           now repeat split.
Qed.

End Loops.

(* ================================================================= *)
(** ** Counting the hands of a category *)

Lemma tally_at_bump (n cat : Z) (t : tallies) :
  1 <= n <= 9 -> 1 <= cat <= 9 ->
  tally_at n (bump cat t) = (tally_at n t + if (cat =? n)%Z then 1 else 0)%N.
Proof.
  intros Hn Hc. destruct t as [a1 a2 a3 a4 a5 a6 a7 a8 a9 a0].
  assert (En : n = 1 \/ n = 2 \/ n = 3 \/ n = 4 \/ n = 5 \/ n = 6
               \/ n = 7 \/ n = 8 \/ n = 9) by lia.
  assert (Ec : cat = 1 \/ cat = 2 \/ cat = 3 \/ cat = 4 \/ cat = 5 \/ cat = 6
               \/ cat = 7 \/ cat = 8 \/ cat = 9) by lia.
  destruct En as [->|[->|[->|[->|[->|[->|[->|[->| ->]]]]]]]];
    destruct Ec as [->|[->|[->|[->|[->|[->|[->|[->| ->]]]]]]]];
    unfold bump; rewrite next_succ; cbn; lia.
Qed.

Lemma tally_at_hands (n : Z) (hs : list (list (suit * nat))) (t : tallies) :
  1 <= n <= 9 ->
  (forall h, In h hs -> 1 <= hand_category h <= 9) ->
  tally_at n (tally_hands [] hs t)
  = (tally_at n t
     + N.of_nat (List.length (filter (fun h => (hand_category h =? n)%Z) hs)))%N.
Proof.
  intros Hn. unfold tally_hands. revert t.
  induction hs as [|h hs IH]; intros t Hc.
  - simpl. lia.
  - cbn [fold_left filter app].
    rewrite IH by (intros h' Hh'; apply Hc; now right).
    rewrite tally_at_bump by (try apply Hc; try (now left); exact Hn).
    destruct (hand_category h =? n); cbn [List.length]; lia.
Qed.

Lemma filter_map_length {A B : Type} (f : B -> bool) (g : A -> B) (l : list A) :
  List.length (filter f (map g l)) = List.length (filter (fun x => f (g x)) l).
Proof.
  induction l as [|x l IH]; [reflexivity|].
  simpl. destruct (f (g x)); simpl; now rewrite IH.
Qed.

Lemma tally_at_no_tallies (n : Z) : tally_at n no_tallies = 0%N.
Proof.
  unfold tally_at.
  repeat match goal with
         | |- context [match ?c with _ => _ end] => destruct c
         end; reflexivity.
Qed.

(* ================================================================= *)
(** ** init_deck *)

Lemma init_deck_the_deck (deck0 : list Z) :
  List.length deck0 = 52%nat -> init_deck deck0 = Some the_deck.
Proof.
  intros H.
  do 52 (destruct deck0 as [|? deck0]; [discriminate H|]).
  destruct deck0; [|discriminate H].
  vm_compute. reflexivity.
Qed.

Lemma NoDup_by_nodup (l : list Z) : nodup Z.eq_dec l = l -> NoDup l.
Proof. intros <-. apply NoDup_nodup. Qed.

Lemma the_deck_NoDup : NoDup the_deck.
Proof. apply NoDup_by_nodup. vm_compute. reflexivity. Qed.

Lemma deck_cards_NoDup : NoDup deck_cards.
Proof. apply (NoDup_map_inv encode_card). exact the_deck_NoDup. Qed.

Lemma deck_cards_ranks (c : suit * nat) : In c deck_cards -> (snd c < 13)%nat.
Proof.
  assert (H : forallb (fun c => (snd c <? 13)%nat) deck_cards = true) by reflexivity.
  rewrite forallb_forall in H. intros Hc. apply Nat.ltb_lt. now apply H.
Qed.

(** The cards of the deck are the valid cards. *)
Lemma the_deck_valid (c : Z) : In c the_deck <-> valid_card c.
Proof.
  split.
  - intros Hc. apply in_map_iff in Hc. destruct Hc as ([s j] & <- & Hc).
    exists s, j. split; [now apply (deck_cards_ranks (s, j)) | reflexivity].
  - intros (s & j & Hj & ->).
    apply in_map_iff. exists (s, j). split; [reflexivity|].
    unfold deck_cards. apply in_flat_map. exists s. split.
    + destruct s; simpl; tauto.
    + apply in_map. apply in_seq. lia.
Qed.

(** Every rank and suit is decoded from exactly one card of the deck,
    which has the layout of the specification. *)
Lemma the_deck_covers (r sb : Z) :
  In r Spec.card_ranks -> In sb Spec.suit_bits ->
  Spec.cards_of the_deck r sb = [Spec.layout r sb].
Proof.
  intros Hr Hsb. simpl in Hr, Hsb.
  repeat (destruct Hr as [<-|Hr];
          [ repeat (destruct Hsb as [<-|Hsb]; [vm_compute; reflexivity|]);
            contradiction | ]).
  contradiction.
Qed.

Lemma the_deck_layout (c : Z) :
  In c the_deck ->
  exists r sb, In r Spec.card_ranks /\ In sb Spec.suit_bits
               /\ c = Spec.layout r sb
               /\ Z.land c 0xff = Spec.prime_of_rank r
               /\ RANK c = r
               /\ Z.land c 0xf000 = sb
               /\ Z.shiftr c 16 = 2 ^ (r - 2).
Proof.
  intros Hc. apply in_map_iff in Hc. destruct Hc as ([s j] & <- & Hc).
  exists (2 + Z.of_nat j), (suit_bit s).
  pose proof (deck_cards_ranks _ Hc) as Hj. simpl in Hj. clear Hc.
  unfold encode_card. cbn [fst snd].
  destruct s;
    do 13 (destruct j as [|j];
           [ vm_compute; intuition (discriminate || reflexivity) | ]);
    lia.
Qed.

(** C7: [init_deck] fills the 52-element array with 52 pairwise distinct
    card values; every rank from 2 to 14 combined with every suit is
    found on exactly one of them; and each card has the fixed layout:
    the prime of its rank in the low byte, the rank in the nibble at
    bits 8-11, one suit bit among bits 12-15 and the rank-presence bit
    at bit [16 + (rank - 2)]. *)
Theorem init_deck_correct (deck0 : list Z) :
  List.length deck0 = 52%nat ->
  exists deck,
    init_deck deck0 = Some deck
    /\ List.length deck = 52%nat
    /\ NoDup deck
    /\ (forall r sb, In r Spec.card_ranks -> In sb Spec.suit_bits ->
        Spec.cards_of deck r sb = [Spec.layout r sb])
    /\ (forall c, In c deck ->
        exists r sb, In r Spec.card_ranks /\ In sb Spec.suit_bits
                     /\ c = Spec.layout r sb
                     /\ Z.land c 0xff = Spec.prime_of_rank r
                     /\ RANK c = r
                     /\ Z.land c 0xf000 = sb
                     /\ Z.shiftr c 16 = 2 ^ (r - 2)).
Proof.
  intros H. exists the_deck.
  split; [now apply init_deck_the_deck|].
  split; [reflexivity|].
  split; [exact the_deck_NoDup|].
  split; [exact the_deck_covers | exact the_deck_layout].
Qed.

(** An instance of [init_deck_correct]. *)
Lemma init_deck_correct_witness :
  exists deck,
    init_deck (repeat 0 52) = Some deck
    /\ List.length deck = 52%nat
    /\ NoDup deck
    /\ (forall r sb, In r Spec.card_ranks -> In sb Spec.suit_bits ->
        Spec.cards_of deck r sb = [Spec.layout r sb])
    /\ (forall c, In c deck ->
        exists r sb, In r Spec.card_ranks /\ In sb Spec.suit_bits
                     /\ c = Spec.layout r sb
                     /\ Z.land c 0xff = Spec.prime_of_rank r
                     /\ RANK c = r
                     /\ Z.land c 0xf000 = sb
                     /\ Z.shiftr c 16 = 2 ^ (r - 2)).
Proof.
  apply (init_deck_correct (repeat 0 52)). reflexivity.
Defined.

(* ================================================================= *)
(** ** allfive.c: all five-card hands *)

(** The tally of the categories of all hands of five cards of the deck. *)
Lemma all_hands_tally :
  count_hands deck_cards 5 NoCard [] no_tallies
  = Tallies 40 624 3744 5108 10200 54912 123552 1098240 1302540 0.
Proof. vm_compute. reflexivity. Qed.

Lemma hand_of_the_deck (hand : list Z) :
  In hand (combs the_deck 5) ->
  exists h, hand = map encode_card h /\ In h (combs deck_cards 5)
            /\ List.length h = 5%nat /\ NoDup h
            /\ (forall c, In c h -> (snd c < 13)%nat).
Proof.
  unfold the_deck. rewrite combs_map, in_map_iff.
  intros (h & <- & Hh). exists h.
  destruct (combs_In _ _ _ Hh) as (HL & Hi & Hn).
  repeat split; try assumption.
  - apply Hn. exact deck_cards_NoDup.
  - intros c Hc. apply deck_cards_ranks. now apply Hi.
Qed.

(** The number of hands of each category, as [eval_5hand] and
    [hand_rank] classify them. *)
Lemma hands_in_categories (T : arrays) :
  tables_contract T ->
  map (hands_in_category T (combs the_deck 5)) Spec.categories
  = [40; 624; 3744; 5108; 10200; 54912; 123552; 1098240; 1302540].
Proof.
  intros contract.
  assert (Hcat : forall h, In h (combs deck_cards 5) ->
                   exists v, eval_5hand T (map encode_card h) = Some v
                             /\ hand_rank v = hand_category h).
  { intros h Hh. destruct (combs_In _ _ _ Hh) as (HL & Hi & Hn).
    destruct (eval_5hand_class T contract h HL) as (v & Ev & _ & Hv).
    - apply Hn. exact deck_cards_NoDup.
    - intros c Hc. apply deck_cards_ranks. now apply Hi.
    - now exists v. }
  assert (Hcount : forall n, 1 <= n <= 9 ->
            hands_in_category T (combs the_deck 5) n
            = Z.of_N (tally_at n (Tallies 40 624 3744 5108 10200 54912 123552
                                          1098240 1302540 0))).
  { intros n Hn. rewrite <- all_hands_tally, count_hands_tally.
    rewrite tally_at_hands; [|exact Hn|].
    - unfold hands_in_category, the_deck.
      rewrite combs_map, filter_map_length.
      rewrite tally_at_no_tallies, N.add_0_l, nat_N_Z. do 2 f_equal.
      apply filter_ext_in. intros h Hh.
      destruct (Hcat h Hh) as (v & -> & ->). reflexivity.
    - intros h Hh. destruct (Hcat h Hh) as (v & _ & <-). apply hand_rank_range. }
  cbn [map Spec.categories].
  rewrite !Hcount by (cbv; split; discriminate).
  reflexivity.
Qed.

(** C1: under the contract of the tables, [main] of allfive.c builds the
    deck with [init_deck] and visits the 2,598,960 distinct hands of five
    of its cards; [eval_5hand] gives each of them a value in [1, 7462];
    and the frequencies of the categories of [hand_rank] it ends with
    are those of [expected_freq]: StraightFlush 40, FourOfAKind 624,
    FullHouse 3744, Flush 5108, Straight 10200, ThreeOfAKind 54912,
    TwoPair 123552, OnePair 1098240, HighCard 1302540, which are also
    the numbers of hands that [eval_5hand] and [hand_rank] put in each
    category. *)
Theorem all_five_card_hands (T : arrays) :
  tables_contract T ->
  init_deck (repeat 0 52) = Some the_deck
  /\ Z.of_nat (List.length (combs the_deck 5)) = 2598960
  /\ NoDup (combs the_deck 5)
  /\ (forall hand, In hand (combs the_deck 5) ->
      exists v, eval_5hand T hand = Some v /\ 1 <= v <= 7462)
  /\ map (hands_in_category T (combs the_deck 5)) Spec.categories
     = [40; 624; 3744; 5108; 10200; 54912; 123552; 1098240; 1302540]
  /\ main_freq T = Some expected_freq.
Proof.
  intros contract.
  assert (Hdeck : init_deck (repeat 0 52) = Some the_deck)
    by (now apply init_deck_the_deck).
  split; [exact Hdeck|]. split; [|split; [|split; [|split]]].
  - unfold the_deck. rewrite combs_map, length_map.
    pose proof (total_tally_hands [] (combs deck_cards 5) no_tallies) as Ht.
    rewrite <- count_hands_tally, all_hands_tally in Ht.
    change (total no_tallies) with 0%N in Ht.
    change (total (Tallies 40 624 3744 5108 10200 54912 123552 1098240 1302540 0))
      with 2598960%N in Ht.
    lia.
  - apply combs_NoDup. exact the_deck_NoDup.
  - intros hand Hh.
    destruct (hand_of_the_deck hand Hh) as (h & -> & _ & HL & Hn & Hr).
    destruct (eval_5hand_class T contract h HL Hn Hr) as (v & Ev & Hv & _).
    now exists v.
  - apply hands_in_categories. exact contract.
  - unfold main_freq. rewrite Hdeck. cbn [bind].
    change (for_range 0 10 (fun i freq => wr freq i 0) (repeat 0 10))
      with (Some (freq_of no_tallies)).
    cbn [bind]. rewrite all_hands_loop_loops.
    destruct (loops_tally T contract 5 0 [] (repeat 0 5) no_tallies)
      as (hand' & E & _); [reflexivity | simpl; lia | |].
    + repeat split.
      * exact deck_cards_NoDup.
      * intros c Hc. now apply deck_cards_ranks.
    + change (Z.of_nat 0) with 0 in E. rewrite E. cbn [bind snd].
      change (skipn 0 deck_cards) with deck_cards.
      rewrite <- count_hands_tally, all_hands_tally. reflexivity.
Qed.

(** An instance of [all_five_card_hands]. *)
Lemma all_five_card_hands_witness :
  init_deck (repeat 0 52) = Some the_deck
  /\ Z.of_nat (List.length (combs the_deck 5)) = 2598960
  /\ NoDup (combs the_deck 5)
  /\ (forall hand, In hand (combs the_deck 5) ->
      exists v, eval_5hand arrays_model hand = Some v /\ 1 <= v <= 7462)
  /\ map (hands_in_category arrays_model (combs the_deck 5)) Spec.categories
     = [40; 624; 3744; 5108; 10200; 54912; 123552; 1098240; 1302540]
  /\ main_freq arrays_model = Some expected_freq.
Proof.
  apply (all_five_card_hands arrays_model). exact arrays_model_contract.
Defined.

(* ================================================================= *)
(** ** eval_7hand *)

Lemma for_loop_rd {St A : Type} (G : A -> St -> option St) (l2 l1 : list A) (s : St) :
  for_loop (List.length l2) (Z.of_nat (List.length l1))
           (fun i st => x <- rd (l1 ++ l2) i ;; G x st) s
  = fold_opt G l2 s.
Proof.
  revert l1 s. induction l2 as [|x t IH]; intros l1 s; [reflexivity|].
  cbn [List.length for_loop fold_opt].
  rewrite rd_nat, nth_error_app2, Nat.sub_diag by lia. cbn [nth_error bind].
  destruct (G x s) as [s'|]; [|reflexivity]. cbn [bind].
  specialize (IH (l1 ++ [x]) s').
  rewrite <- app_assoc, length_app, Nat.add_1_r in IH. cbn [app] in IH.
  rewrite <- IH. f_equal. lia.
Qed.

Lemma eval_7hand_fold (T : arrays) (hand : list Z) :
  List.length (perm7 T) = 21%nat ->
  eval_7hand T hand
  = (r <- fold_opt (eval_7hand_step T hand) (perm7 T) ([0; 0; 0; 0; 0], 9999) ;;
     Some (snd r)).
Proof.
  intros H21. unfold eval_7hand, for_range. f_equal.
  change (Z.to_nat (21 - 0)) with 21%nat. rewrite <- H21.
  rewrite <- (for_loop_rd (eval_7hand_step T hand) (perm7 T) []).
  apply for_loop_ext. intros i [subhand best] _. reflexivity.
Qed.

Lemma rd_nth_in_range (a : list Z) (k : Z) :
  0 <= k < Z.of_nat (List.length a) -> rd a k = Some (nth (Z.to_nat k) a 0).
Proof.
  intros H. destruct (rd_in_range a k H) as (x & E).
  rewrite E. f_equal. symmetry. now apply rd_nth.
Qed.

(** The inner loop copies the selected cards. *)
Lemma fill_subhand_select (hand row subhand : list Z) :
  List.length row = 5%nat -> List.length subhand = 5%nat ->
  Forall (fun k => 0 <= k < Z.of_nat (List.length hand)) row ->
  fill_subhand hand row subhand = Some (Spec.select hand row).
Proof.
  intros Hr Hs Hk.
  destruct row as [|k0 [|k1 [|k2 [|k3 [|k4 [|? ?]]]]]]; try discriminate Hr.
  destruct subhand as [|x0 [|x1 [|x2 [|x3 [|x4 [|? ?]]]]]]; try discriminate Hs.
  repeat match goal with
         | H : Forall _ (_ :: _) |- _ => inversion_clear H
         end.
  unfold fill_subhand, for_range.
  change (Z.to_nat (5 - 0)) with 5%nat. cbn [for_loop].
  change (rd [k0; k1; k2; k3; k4] 0) with (Some k0).
  change (rd [k0; k1; k2; k3; k4] (0 + 1)) with (Some k1).
  change (rd [k0; k1; k2; k3; k4] (0 + 1 + 1)) with (Some k2).
  change (rd [k0; k1; k2; k3; k4] (0 + 1 + 1 + 1)) with (Some k3).
  change (rd [k0; k1; k2; k3; k4] (0 + 1 + 1 + 1 + 1)) with (Some k4).
  cbn [bind].
  rewrite (rd_nth_in_range hand k0) by assumption. cbn [bind].
  change (wr [x0; x1; x2; x3; x4] 0 ?c) with (Some [c; x1; x2; x3; x4]).
  cbn [bind]. rewrite (rd_nth_in_range hand k1) by assumption. cbn [bind].
  change (wr [?a; x1; x2; x3; x4] (0 + 1) ?c) with (Some [a; c; x2; x3; x4]).
  cbn [bind]. rewrite (rd_nth_in_range hand k2) by assumption. cbn [bind].
  change (wr [?a; ?b; x2; x3; x4] (0 + 1 + 1) ?c) with (Some [a; b; c; x3; x4]).
  cbn [bind]. rewrite (rd_nth_in_range hand k3) by assumption. cbn [bind].
  change (wr [?a; ?b; ?d; x3; x4] (0 + 1 + 1 + 1) ?c) with (Some [a; b; d; c; x4]).
  cbn [bind]. rewrite (rd_nth_in_range hand k4) by assumption. cbn [bind].
  reflexivity.
Qed.

(** Cards of a hand without repetition at distinct indices are distinct. *)
Lemma select_NoDup {A : Type} (h : list A) (d : A) (row : list Z) :
  NoDup h -> NoDup row ->
  Forall (fun k => 0 <= k < Z.of_nat (List.length h)) row ->
  NoDup (map (fun k => nth (Z.to_nat k) h d) row).
Proof.
  intros Hh Hrow Hk. apply NoDup_map_NoDup_ForallPairs; [|exact Hrow].
  rewrite Forall_forall in Hk.
  intros k k' Hin Hin' E.
  pose proof (Hk k Hin). pose proof (Hk k' Hin').
  rewrite NoDup_nth in Hh.
  assert (Z.to_nat k = Z.to_nat k') by (apply Hh; [lia | lia | exact E]).
  lia.
Qed.

Lemma select_encoded (h : list (suit * nat)) (row : list Z) :
  Forall (fun k => 0 <= k < Z.of_nat (List.length h)) row ->
  Spec.select (map encode_card h) row
  = map encode_card (map (fun k => nth (Z.to_nat k) h (Club, 0%nat)) row).
Proof.
  intros Hk. unfold Spec.select. rewrite map_map.
  apply map_ext_in. intros k Hin.
  rewrite Forall_forall in Hk. specialize (Hk k Hin).
  rewrite (nth_indep _ 0 (encode_card (Club, 0%nat)))
    by (rewrite length_map; lia).
  apply map_nth.
Qed.

(** Valid cards are the encodings of a suit and a rank. *)
Lemma valid_cards_encoded (hand : list Z) :
  Forall valid_card hand ->
  exists h, hand = map encode_card h /\ (forall c, In c h -> (snd c < 13)%nat).
Proof.
  induction 1 as [|c hand (s & j & Hj & ->) _ (h & -> & Hr)].
  - exists []. split; [reflexivity | intros c []].
  - exists ((s, j) :: h). split; [reflexivity|].
    intros c [<-|Hc]; [exact Hj | now apply Hr].
Qed.

Lemma min_fold_right (v b : Z) (vs : list Z) :
  fold_right Z.min (Z.min v b) vs = Z.min v (fold_right Z.min b vs).
Proof.
  induction vs as [|w vs IH]; simpl; [reflexivity|]. rewrite IH. lia.
Qed.

Lemma minimum_In (vs : list Z) :
  vs <> [] -> Forall (fun v => 1 <= v <= 7462) vs ->
  In (Spec.minimum vs) vs /\ 1 <= Spec.minimum vs <= 7462.
Proof.
  unfold Spec.minimum. intros Hne H.
  induction H as [|v vs Hv Hvs IH]; [congruence|].
  cbn [fold_right]. destruct vs as [|w vs'].
  - simpl. split; [left|]; lia.
  - destruct IH as [IHin IHr]; [discriminate|].
    destruct (Z.min_spec v (fold_right Z.min 9999 (w :: vs'))) as [[_ ->]|[_ ->]].
    + split; [now left | exact Hv].
    + split; [now right | exact IHr].
Qed.

Section SevenCards.

Variable T : arrays.
Hypothesis contract : tables_contract T.

Variable h : list (suit * nat).
Hypothesis seven : List.length h = 7%nat.
Hypothesis distinct : NoDup h.
Hypothesis ranks : forall c, In c h -> (snd c < 13)%nat.

Lemma eval_5hand_select (row : list Z) :
  List.length row = 5%nat -> NoDup row -> Forall (fun k => 0 <= k < 7) row ->
  exists v, eval_5hand T (Spec.select (map encode_card h) row) = Some v
            /\ 1 <= v <= 7462.
Proof.
  intros Hr Hn Hk.
  assert (Hk' : Forall (fun k => 0 <= k < Z.of_nat (List.length h)) row)
    by (now rewrite seven).
  rewrite select_encoded by exact Hk'.
  destruct (eval_5hand_class T contract
              (map (fun k => nth (Z.to_nat k) h (Club, 0%nat)) row))
    as (v & Ev & Hv & _).
  - now rewrite length_map.
  - now apply select_NoDup.
  - intros c Hc. apply in_map_iff in Hc. destruct Hc as (k & <- & Hin).
    rewrite Forall_forall in Hk'. specialize (Hk' k Hin).
    apply ranks. apply nth_In. lia.
  - now exists v.
Qed.

Lemma eval_7hand_rows (rows : list (list Z)) :
  (forall row, In row rows ->
     List.length row = 5%nat /\ NoDup row /\ Forall (fun k => 0 <= k < 7) row) ->
  forall subhand best,
    List.length subhand = 5%nat ->
    exists vs subhand',
      map (fun row => eval_5hand T (Spec.select (map encode_card h) row)) rows
      = map Some vs
      /\ Forall (fun v => 1 <= v <= 7462) vs
      /\ fold_opt (eval_7hand_step T (map encode_card h)) rows (subhand, best)
         = Some (subhand', fold_right Z.min best (rev vs))
      /\ List.length subhand' = 5%nat.
Proof.
  induction rows as [|row rows IH]; intros Hrows subhand best Hs.
  - exists [], subhand. now repeat split.
  - destruct (Hrows row (or_introl eq_refl)) as (Hr & Hn & Hk).
    destruct (eval_5hand_select row Hr Hn Hk) as (v & Ev & Hv).
    assert (Hfill : fill_subhand (map encode_card h) row subhand
                    = Some (Spec.select (map encode_card h) row)).
    { apply fill_subhand_select; try assumption.
      now rewrite length_map, seven. }
    destruct (IH (fun r Hin => Hrows r (or_intror Hin))
                 (Spec.select (map encode_card h) row)
                 (if v <? best then v else best))
      as (vs & subhand' & Hvs & Hall & Hfold & Hs').
    { unfold Spec.select. now rewrite length_map. }
    exists (v :: vs), subhand'. repeat split.
    + cbn [map]. now rewrite Ev, Hvs.
    + now constructor.
    + cbn [fold_opt eval_7hand_step]. rewrite Hfill. cbn [bind].
      rewrite Ev. cbn [bind]. rewrite Hfold. do 2 f_equal.
      cbn [rev]. rewrite fold_right_app. cbn [fold_right]. f_equal.
      destruct (Z.ltb_spec v best); lia.
    + exact Hs'.
Qed.

End SevenCards.

Lemma fold_right_min_rev (vs : list Z) (b : Z) :
  fold_right Z.min b (rev vs) = fold_right Z.min b vs.
Proof.
  apply fold_right_permutation; [intros; lia|].
  symmetry. apply Permutation_rev.
Qed.

(** C6: for a hand of seven distinct valid cards, [eval_7hand] returns
    the least value of [eval_5hand] over the 21 five-card hands selected
    by the rows of [perm7]; each of these values is at most 7462, so the
    result is one of them and the initial 9999 does not survive. *)
Theorem eval_7hand_minimum (T : arrays) (hand : list Z) :
  tables_contract T -> perm7_contract T ->
  List.length hand = 7%nat -> NoDup hand -> Forall valid_card hand ->
  exists vs,
    map (fun row => eval_5hand T (Spec.select hand row)) (perm7 T) = map Some vs
    /\ List.length vs = 21%nat
    /\ Forall (fun v => 1 <= v <= 7462) vs
    /\ eval_7hand T hand = Some (Spec.minimum vs)
    /\ In (Spec.minimum vs) vs
    /\ Spec.minimum vs <= 7462.
Proof.
  intros contract [H21 Hrows] H7 Hn Hv.
  destruct (valid_cards_encoded hand Hv) as (h & -> & Hr).
  rewrite length_map in H7. apply NoDup_map_inv in Hn.
  destruct (eval_7hand_rows T contract h H7 Hn Hr (perm7 T) Hrows
                            [0; 0; 0; 0; 0] 9999 eq_refl)
    as (vs & subhand' & Hvs & Hall & Hfold & _).
  assert (HL : List.length vs = 21%nat).
  { rewrite <- H21, <- (length_map (fun row => eval_5hand T (Spec.select (map encode_card h) row))),
      Hvs, length_map. reflexivity. }
  exists vs. split; [exact Hvs|]. split; [exact HL|]. split; [exact Hall|].
  rewrite fold_right_min_rev in Hfold.
  split.
  - rewrite eval_7hand_fold by exact H21. rewrite Hfold. reflexivity.
  - destruct (minimum_In vs) as [Hin Hrange]; [|exact Hall|].
    + intros ->. discriminate HL.
    + split; [exact Hin | lia].
Qed.

(* ================================================================= *)
(** ** print_hand *)

Lemma append_assoc (a b c : string) : ((a ++ b) ++ c = a ++ (b ++ c))%string.
Proof. induction a as [|x a IH]; simpl; [reflexivity | now rewrite IH]. Qed.

Lemma has_newline_append (a b : string) :
  Spec.has_newline (a ++ b) = Spec.has_newline a || Spec.has_newline b.
Proof.
  induction a as [|x a IH]; simpl; [reflexivity|].
  now rewrite IH, orb_assoc.
Qed.

(** What [print_hand] prints for one card: its token and a space. *)
Lemma print_card_token (s : suit) (j : nat) :
  (j < 13)%nat ->
  print_card (encode s j) = Some (Spec.token (s, j) ++ " ")%string
  /\ (exists r, String.get j Spec.rank_symbols = Some r
                /\ Spec.token (s, j) = String r (String (Spec.suit_letter s) EmptyString))
  /\ Spec.has_newline (Spec.token (s, j)) = false.
Proof.
  intros Hj.
  destruct s;
    do 13 (destruct j as [|j];
           [ split; [vm_compute; reflexivity|];
             split; [eexists; split; reflexivity | vm_compute; reflexivity] | ]);
    lia.
Qed.

Lemma print_hand_fold (hand : list Z) (out : string) :
  print_hand hand (Z.of_nat (List.length hand)) out
  = fold_opt (fun c out => tok <- print_card c ;; Some (out ++ tok)%string) hand out.
Proof.
  unfold print_hand, for_range. rewrite Z.sub_0_r, Nat2Z.id.
  apply (for_loop_rd (fun c out => tok <- print_card c ;; Some (out ++ tok)%string)
                     hand []).
Qed.

(** C8, as stated: the text printed for one card is not its token
    alone, as tokens separated by spaces would be: a space follows it. *)
Lemma print_hand_not_space_separated :
  print_hand [encode Club 0] 1 EmptyString
  <> Some (Spec.space_separated (map Spec.token [(Club, 0%nat)])).
Proof. vm_compute. discriminate. Qed.

(** C8, amended: for an array of [n] valid encoded cards, [print_hand]
    prints each card as a two-character token, the rank symbol from
    "23456789TJQKA" and then the suit letter among c, d, h, s, each token
    followed by one space (the last one too), and prints no newline. *)
Theorem print_hand_tokens (cs : list (suit * nat)) (out : string) :
  (forall c, In c cs -> (snd c < 13)%nat) ->
  print_hand (map encode_card cs) (Z.of_nat (List.length cs)) out
  = Some (out ++ Spec.space_terminated (map Spec.token cs))%string
  /\ Forall (fun c =>
               exists r, String.get (snd c) Spec.rank_symbols = Some r
                         /\ Spec.token c
                            = String r (String (Spec.suit_letter (fst c)) EmptyString))
            cs
  /\ Spec.has_newline (Spec.space_terminated (map Spec.token cs)) = false.
Proof.
  intros Hr. split; [|split].
  - rewrite <- (length_map encode_card cs), print_hand_fold.
    revert out. induction cs as [|[s j] cs IH]; intros out.
    + simpl. f_equal. induction out as [|x o IHo]; simpl; [reflexivity | now rewrite <- IHo].
    + cbn [map fold_opt]. change (encode_card (s, j)) with (encode s j).
      destruct (print_card_token s j) as (E & _); [apply (Hr (s, j)); now left|].
      rewrite E.
      cbn [bind]. rewrite IH by (intros c Hc; apply Hr; now right).
      f_equal. cbn [Spec.space_terminated fold_right].
      now rewrite !append_assoc.
  - apply Forall_forall. intros [s j] Hc.
    destruct (print_card_token s j (Hr _ Hc)) as (_ & H & _). exact H.
  - induction cs as [|[s j] cs IH]; [reflexivity|].
    cbn [map Spec.space_terminated fold_right].
    rewrite !has_newline_append.
    destruct (print_card_token s j) as (_ & _ & ->); [apply (Hr (s, j)); now left|].
    unfold Spec.space_terminated in IH. rewrite IH by (intros c Hc; apply Hr; now right).
    reflexivity.
Qed.

(** An instance of [print_hand_tokens]. *)
Lemma print_hand_tokens_witness :
  print_hand (map encode_card [(Spade, 12%nat); (Heart, 8%nat)]) 2 EmptyString
  = Some "As Th "%string.
Proof.
  refine (proj1 (print_hand_tokens [(Spade, 12%nat); (Heart, 8%nat)] EmptyString _)).
  intros c [<-|[<-|[]]]; simpl; lia.
Defined.

(* ================================================================= *)
(** ** Instances on the tables that meet the contract *)

Lemma valid_card_in_deck (c : Z) :
  existsb (Z.eqb c) the_deck = true -> valid_card c.
Proof.
  intros H. apply the_deck_valid. apply existsb_exists in H.
  destruct H as (x & Hx & E). apply Z.eqb_eq in E. now subst.
Qed.

(** An instance of [eval_5cards_dispatch]. *)
Lemma eval_5cards_dispatch_witness :
  suit_and (encode Spade 12) (encode Spade 11) (encode Spade 10)
           (encode Spade 9) (encode Spade 8) <> 0
  <-> (Spade = Spade /\ Spade = Spade /\ Spade = Spade /\ Spade = Spade).
Proof.
  exact (proj1 (eval_5cards_dispatch arrays_model
                  Spade Spade Spade Spade Spade 12 11 10 9 8
                  ltac:(lia) ltac:(lia) ltac:(lia) ltac:(lia) ltac:(lia)
                  arrays_model_shape)).
Defined.

(** An instance of [eval_7hand_minimum]. *)
Lemma eval_7hand_minimum_witness :
  exists vs,
    map (fun row => eval_5hand arrays_model
                      (Spec.select [268443177; 134225189; 67116063; 33561373;
                                    16783895; 98818; 148227] row))
        (perm7 arrays_model) = map Some vs
    /\ List.length vs = 21%nat
    /\ Forall (fun v => 1 <= v <= 7462) vs
    /\ eval_7hand arrays_model
         [268443177; 134225189; 67116063; 33561373; 16783895; 98818; 148227]
       = Some (Spec.minimum vs)
    /\ In (Spec.minimum vs) vs
    /\ Spec.minimum vs <= 7462.
Proof.
  apply (eval_7hand_minimum arrays_model
           [268443177; 134225189; 67116063; 33561373; 16783895; 98818; 148227]).
  - exact arrays_model_contract.
  - exact arrays_model_perm7.
  - reflexivity.
  - apply NoDup_by_nodup. reflexivity.
  - repeat constructor; apply valid_card_in_deck; reflexivity.
Defined.

(** The scenarios of the specification, on the tables built above: the
    royal flush is class 1; four deuces with a trey are a four of a kind,
    stronger than every full house; an unsuited 7-5-4-3-2 is class 7462. *)
Example royal_flush :
  eval_5hand arrays_model
    (map encode_card [(Spade, 12); (Spade, 11); (Spade, 10); (Spade, 9); (Spade, 8)]%nat)
  = Some 1.
Proof. vm_compute. reflexivity. Qed.

Example four_deuces :
  exists v,
    eval_5hand arrays_model
      (map encode_card [(Club, 0); (Diamond, 0); (Heart, 0); (Spade, 0); (Club, 1)]%nat)
    = Some v
    /\ hand_rank v = FOUR_OF_A_KIND
    /\ forall w, hand_rank w = FULL_HOUSE -> v < w.
Proof.
  exists 166. split; [vm_compute; reflexivity|]. split; [reflexivity|].
  intros w Hw.
  destruct (hand_rank_cases w) as [H|[H|[H|[H|[H|[H|[H|[H|H]]]]]]]];
    destruct H as [Hr Hc]; rewrite Hc in Hw; try discriminate Hw; lia.
Qed.

Example worst_hand :
  eval_5hand arrays_model
    (map encode_card [(Club, 5); (Diamond, 3); (Heart, 2); (Spade, 1); (Club, 0)]%nat)
  = Some 7462.
Proof. vm_compute. reflexivity. Qed.

Example best_of_seven :
  eval_7hand arrays_model
    (map encode_card [(Club, 0); (Spade, 12); (Spade, 11); (Diamond, 1);
                      (Spade, 10); (Spade, 9); (Spade, 8)]%nat)
  = Some 1.
Proof. vm_compute. reflexivity. Qed.

(* ================================================================= *)
(** ** find_card *)

Lemma find_card_from_spec (rank suit : Z) (deck : list Z) (n : nat) :
  forall i : nat,
    (i + n <= List.length deck)%nat ->
    exists r,
      find_card_from n (Z.of_nat i) rank suit deck = Some r
      /\ ((r = -1
           /\ forall k, (i <= k < i + n)%nat ->
                        card_matches rank suit (nth k deck 0) = false)
          \/ (Z.of_nat i <= r < Z.of_nat (i + n)
              /\ card_matches rank suit (nth (Z.to_nat r) deck 0) = true
              /\ forall k, (i <= k)%nat -> Z.of_nat k < r ->
                           card_matches rank suit (nth k deck 0) = false)).
Proof.
  induction n as [|n IH]; intros i Hi.
  - exists (-1). split; [reflexivity|]. left. split; [reflexivity|]. intros k Hk. lia.
  - cbn [find_card_from].
    rewrite rd_nat.
    destruct (nth_error deck i) as [c|] eqn:Ec;
      [|apply nth_error_None in Ec; lia].
    cbn [bind]. pose proof (nth_error_nth deck i 0 Ec) as Hc.
    destruct (card_matches rank suit c) eqn:Em.
    + exists (Z.of_nat i). split; [reflexivity|]. right.
      split; [lia|]. rewrite Nat2Z.id, Hc. split; [exact Em|]. intros k Hk Hlt. lia.
    + replace (Z.of_nat i + 1) with (Z.of_nat (S i)) by lia.
      destruct (IH (S i) ltac:(lia)) as (r & Er & Hr).
      exists r. split; [exact Er|].
      destruct Hr as [[-> Hno]|(Hrange & Hm & Hno)].
      * left. split; [reflexivity|]. intros k Hk.
        destruct (Nat.eq_dec k i) as [->|]; [now rewrite Hc | apply Hno; lia].
      * right. split; [lia|]. split; [exact Hm|]. intros k Hk Hlt.
        destruct (Nat.eq_dec k i) as [->|]; [now rewrite Hc | apply Hno; lia].
Qed.

Lemma find_card_cases (rank suit : Z) (deck : list Z) :
  (52 <= List.length deck)%nat ->
  exists r,
    find_card rank suit deck = Some r
    /\ ((r = -1
         /\ forall k, (k < 52)%nat -> card_matches rank suit (nth k deck 0) = false)
        \/ (0 <= r < 52
            /\ card_matches rank suit (nth (Z.to_nat r) deck 0) = true
            /\ forall k, Z.of_nat k < r ->
                         card_matches rank suit (nth k deck 0) = false)).
Proof.
  intros H. destruct (find_card_from_spec rank suit deck 52 0 H) as (r & Er & Hr).
  exists r. split; [exact Er|].
  destruct Hr as [[-> Hno]|(Hrange & Hm & Hno)].
  - left. split; [reflexivity|]. intros k Hk. apply Hno. lia.
  - right. split; [lia|]. split; [exact Hm|]. intros k Hk. apply Hno; [lia | exact Hk].
Qed.

(** X1: on an array of at least 52 cards [find_card] returns the index of
    the first of the first 52 cards that has a bit of [suit] and the rank
    [rank], and -1 when none of them has. *)
Theorem find_card_first_match (rank suit : Z) (deck : list Z) :
  (52 <= List.length deck)%nat ->
  exists r,
    find_card rank suit deck = Some r
    /\ ((r = -1
         /\ forall k, (k < 52)%nat -> card_matches rank suit (nth k deck 0) = false)
        \/ (0 <= r < 52
            /\ card_matches rank suit (nth (Z.to_nat r) deck 0) = true
            /\ forall k, Z.of_nat k < r ->
                         card_matches rank suit (nth k deck 0) = false)).
Proof. exact (find_card_cases rank suit deck). Qed.

(** An instance of [find_card_first_match]. *)
Lemma find_card_first_match_witness :
  exists r,
    find_card 14 SPADE the_deck = Some r
    /\ ((r = -1
         /\ forall k, (k < 52)%nat -> card_matches 14 SPADE (nth k the_deck 0) = false)
        \/ (0 <= r < 52
            /\ card_matches 14 SPADE (nth (Z.to_nat r) the_deck 0) = true
            /\ forall k, Z.of_nat k < r ->
                         card_matches 14 SPADE (nth k the_deck 0) = false)).
Proof.
  apply (find_card_first_match 14 SPADE the_deck). vm_compute. lia.
Defined.

(** A valid card is identified by its rank and a suit bit it has. *)
Lemma card_matches_encode (s s' : suit) (j j' : nat) :
  (j < 13)%nat -> (j' < 13)%nat ->
  card_matches (2 + Z.of_nat j) (suit_bit s) (encode s' j')
  = suit_eqb s' s && (j' =? j)%nat.
Proof.
  intros Hj Hj'. unfold card_matches.
  destruct (encode_fields s' j' Hj') as (_ & -> & Hs & _).
  assert (E : Z.land (encode s' j') (suit_bit s)
              = Z.land (suit_bit s') (suit_bit s)).
  { rewrite <- Hs, <- Z.land_assoc. f_equal. destruct s; reflexivity. }
  rewrite E, suit_bit_land.
  destruct (suit_eqb s' s); cbn [negb andb].
  - destruct (Z.eqb_spec (suit_bit s') 0) as [E0|_]; [now apply suit_bit_nonzero in E0|].
    cbn [negb andb].
    destruct (Nat.eqb_spec j' j) as [->|Hne]; [apply Z.eqb_refl | apply Z.eqb_neq; lia].
  - reflexivity.
Qed.

Lemma the_deck_length : List.length the_deck = 52%nat.
Proof. reflexivity. Qed.

Lemma in_nth_lt {A : Type} (l : list A) (k : nat) (d : A) :
  (k < List.length l)%nat -> In (nth k l d) l.
Proof. apply nth_In. Qed.

Section PermutedDeck.

Variable deck : list Z.
Hypothesis shuffled : Permutation deck the_deck.

Lemma permuted_deck_length : List.length deck = 52%nat.
Proof. now rewrite (Permutation_length shuffled). Qed.

Lemma permuted_deck_nth (k : nat) :
  (k < 52)%nat -> exists s j, (j < 13)%nat /\ nth k deck 0 = encode s j.
Proof.
  intros Hk. apply the_deck_valid. apply (Permutation_in _ shuffled).
  apply nth_In. now rewrite permuted_deck_length.
Qed.

Lemma find_card_in_permuted_deck (s : suit) (j : nat) :
  (j < 13)%nat ->
  exists i,
    find_card (2 + Z.of_nat j) (suit_bit s) deck = Some i
    /\ 0 <= i < 52
    /\ rd deck i = Some (encode s j)
    /\ (forall k, rd deck k = Some (encode s j) -> k = i).
Proof.
  intros Hj. pose proof permuted_deck_length as HL.
  destruct (find_card_cases (2 + Z.of_nat j) (suit_bit s) deck)
    as (r & Er & [[-> Hno]|(Hrange & Hm & _)]); [lia| |].
  - (* the card is somewhere in the array *)
    exfalso.
    assert (Hin : In (encode s j) deck).
    { apply (Permutation_in _ (Permutation_sym shuffled)).
      apply the_deck_valid. now exists s, j. }
    destruct (In_nth deck (encode s j) 0 Hin) as (k & Hk & Ek).
    specialize (Hno k ltac:(lia)). rewrite Ek, card_matches_encode in Hno by assumption.
    rewrite Nat.eqb_refl in Hno. destruct s; discriminate Hno.
  - destruct (permuted_deck_nth (Z.to_nat r) ltac:(lia)) as (s' & j' & Hj' & E).
    rewrite E, card_matches_encode in Hm by assumption.
    apply andb_true_iff in Hm. destruct Hm as [Hs He].
    apply suit_eqb_eq in Hs. apply Nat.eqb_eq in He. subst s' j'.
    assert (Erd : rd deck r = Some (encode s j))
      by (rewrite rd_nth_in_range, E by lia; reflexivity).
    exists r. repeat split; try lia; try assumption.
    intros k Ek.
    pose proof (rd_Some_range _ _ _ Ek) as Hk.
    pose proof (rd_nth _ _ _ 0 Ek) as Ek'.
    assert (Hnd : NoDup deck)
      by (apply (Permutation_NoDup (Permutation_sym shuffled)); exact the_deck_NoDup).
    assert (Z.to_nat k = Z.to_nat r)
      by (apply (proj1 (NoDup_nth deck 0) Hnd); [lia | lia | congruence]).
    lia.
Qed.

End PermutedDeck.

(** X2: in an array that holds the 52 cards of the deck in any order,
    [find_card] returns the index at which the card of the given rank
    and suit is, and that index is the only one holding the card. *)
Theorem find_card_permuted (deck : list Z) (s : suit) (j : nat) :
  Permutation deck the_deck ->
  (j < 13)%nat ->
  exists i,
    find_card (2 + Z.of_nat j) (suit_bit s) deck = Some i
    /\ 0 <= i < 52
    /\ rd deck i = Some (encode s j)
    /\ (forall k, rd deck k = Some (encode s j) -> k = i).
Proof. intros HP. exact (find_card_in_permuted_deck deck HP s j). Qed.

(** An instance of [find_card_permuted]. *)
Lemma find_card_permuted_witness :
  exists i,
    find_card 14 SPADE (rev the_deck) = Some i
    /\ 0 <= i < 52
    /\ rd (rev the_deck) i = Some (encode Spade 12)
    /\ (forall k, rd (rev the_deck) k = Some (encode Spade 12) -> k = i).
Proof.
  apply (find_card_permuted (rev the_deck) Spade 12).
  - apply Permutation_sym, Permutation_rev.
  - lia.
Defined.

(** X3: after [init_deck], [find_card] returns for the card of rank index
    [j] and suit [s] the index [13 * suit_index s + j], where the array
    holds that card. *)
Theorem find_card_init_deck (deck0 : list Z) (s : suit) (j : nat) :
  List.length deck0 = 52%nat -> (j < 13)%nat ->
  exists deck,
    init_deck deck0 = Some deck
    /\ find_card (2 + Z.of_nat j) (suit_bit s) deck
       = Some (13 * suit_index s + Z.of_nat j)
    /\ rd deck (13 * suit_index s + Z.of_nat j) = Some (encode s j).
Proof.
  intros HL Hj. exists the_deck. split; [now apply init_deck_the_deck|].
  destruct s;
    do 13 (destruct j as [|j]; [split; vm_compute; reflexivity|]);
    lia.
Qed.

(** An instance of [find_card_init_deck]. *)
Lemma find_card_init_deck_witness :
  exists deck,
    init_deck (repeat 0 52) = Some deck
    /\ find_card 12 HEART deck = Some 36
    /\ rd deck 36 = Some (encode Heart 10).
Proof.
  apply (find_card_init_deck (repeat 0 52) Heart 10); [reflexivity | lia].
Defined.

(** X4: on an array whose first 52 entries are valid cards, [find_card]
    returns -1 exactly when the card asked for is not among them; and it
    returns -1 for every rank outside 2..14, whatever the suit. *)
Theorem find_card_absent (deck : list Z) :
  (52 <= List.length deck)%nat ->
  Forall valid_card (firstn 52 deck) ->
  (forall s j, (j < 13)%nat ->
     (find_card (2 + Z.of_nat j) (suit_bit s) deck = Some (-1)
      <-> ~ In (encode s j) (firstn 52 deck)))
  /\ (forall rank suit, rank < 2 \/ 14 < rank ->
        find_card rank suit deck = Some (-1)).
Proof.
  intros HL Hv.
  assert (Hnth : forall k, (k < 52)%nat ->
            nth k deck 0 = nth k (firstn 52 deck) 0
            /\ exists s j, (j < 13)%nat /\ nth k deck 0 = encode s j).
  { intros k Hk.
    assert (E : nth k deck 0 = nth k (firstn 52 deck) 0).
    { rewrite nth_firstn. destruct (Nat.ltb_spec k 52); [reflexivity | lia]. }
    split; [exact E|]. rewrite E. rewrite Forall_forall in Hv. apply Hv.
    apply nth_In. rewrite length_firstn. lia. }
  split.
  - intros s j Hj.
    destruct (find_card_cases (2 + Z.of_nat j) (suit_bit s) deck HL)
      as (r & Er & Hr).
    rewrite Er. split.
    + intros [= ->] Hin.
      destruct Hr as [[_ Hno]|(Hrange & _)]; [|lia].
      destruct (In_nth _ _ 0 Hin) as (k & Hk & Ek).
      rewrite length_firstn in Hk.
      destruct (Hnth k ltac:(lia)) as (E & _).
      specialize (Hno k ltac:(lia)).
      rewrite E, Ek, card_matches_encode, Nat.eqb_refl in Hno by assumption.
      destruct s; discriminate Hno.
    + intros Hnot. destruct Hr as [[-> _]|(Hrange & Hm & _)]; [reflexivity|].
      exfalso. apply Hnot.
      destruct (Hnth (Z.to_nat r) ltac:(lia)) as (E & s' & j' & Hj' & E').
      rewrite E', card_matches_encode in Hm by assumption.
      apply andb_true_iff in Hm. destruct Hm as [Hs He].
      apply suit_eqb_eq in Hs. apply Nat.eqb_eq in He. subst s' j'.
      rewrite <- E', E. apply nth_In. rewrite length_firstn. lia.
  - intros rank suit Hrank.
    destruct (find_card_cases rank suit deck HL)
      as (r & Er & [[-> _]|(Hrange & Hm & _)]); [exact Er|].
    exfalso.
    destruct (Hnth (Z.to_nat r) ltac:(lia)) as (_ & s' & j' & Hj' & E').
    unfold card_matches in Hm. apply andb_true_iff in Hm. destruct Hm as [_ Hm].
    apply Z.eqb_eq in Hm. rewrite E' in Hm.
    destruct (encode_fields s' j' Hj') as (_ & Hr & _). lia.
Qed.

(** An instance of [find_card_absent]. *)
Lemma find_card_absent_witness :
  (forall s j, (j < 13)%nat ->
     (find_card (2 + Z.of_nat j) (suit_bit s) the_deck = Some (-1)
      <-> ~ In (encode s j) (firstn 52 the_deck)))
  /\ (forall rank suit, rank < 2 \/ 14 < rank ->
        find_card rank suit the_deck = Some (-1)).
Proof.
  apply (find_card_absent the_deck).
  - vm_compute. lia.
  - apply Forall_forall. intros c Hc. apply the_deck_valid. exact Hc.
Defined.

(* ================================================================= *)
(** ** shuffle_deck *)

Lemma wr_nat_nth {A : Type} (a : list A) (n : nat) (v : A) (a' : list A) (d : A) :
  wr_nat a n v = Some a' ->
  forall k, nth k a' d = if (k =? n)%nat then v else nth k a d.
Proof.
  revert n a'. induction a as [|x t IH]; intros [|n] a'; simpl; try discriminate.
  - intros [= <-] [|k]; reflexivity.
  - destruct (wr_nat t n v) as [t'|] eqn:E; [|discriminate].
    intros [= <-] [|k]; [reflexivity|]. simpl. now apply IH.
Qed.

Lemma wr_Some {A : Type} (a : list A) (i : Z) (v : A) :
  0 <= i < Z.of_nat (List.length a) ->
  exists a', wr a i v = Some a'
             /\ List.length a' = List.length a
             /\ firstn (S (Z.to_nat i)) a' = firstn (Z.to_nat i) a ++ [v]
             /\ (forall k d, nth k a' d
                             = if (k =? Z.to_nat i)%nat then v else nth k a d).
Proof.
  intros H.
  destruct (wr_firstn a (Z.to_nat i) v ltac:(lia)) as (a' & E & HL & HF).
  rewrite Z2Nat.id in E by lia.
  exists a'. repeat split; try assumption.
  intros k d. unfold wr in E. destruct (i <? 0); [discriminate|].
  now apply (wr_nat_nth a (Z.to_nat i) v).
Qed.

(** The first loop of [shuffle_deck] copies the deck. *)
Lemma shuffle_copy (deck : list Z) :
  List.length deck = 52%nat ->
  for_range 0 52 (fun i temp => x <- rd deck i ;; wr temp i x) (repeat 0 52)
  = Some deck.
Proof.
  intros H.
  do 52 (destruct deck as [|? deck]; [discriminate H|]).
  destruct deck; [|discriminate H].
  vm_compute. reflexivity.
Qed.

(** What the draw loop returns: the first draw at which [temp] is not
    zero, the draws before it having met cleared entries. *)
Lemma draw_card_Some (temp draws : list Z) (n : Z) (rest : list Z) :
  draw_card temp draws = Some (n, rest) ->
  exists skipped t,
    draws = skipped ++ n :: rest
    /\ Forall (fun m => rd temp m = Some 0) skipped
    /\ rd temp n = Some t /\ t <> 0.
Proof.
  revert n rest. induction draws as [|m draws IH]; intros n rest; [discriminate|].
  cbn [draw_card]. destruct (rd temp m) as [t|] eqn:Et; [|discriminate].
  cbn [bind]. destruct (Z.eqb_spec t 0) as [->|Ht].
  - intros E. destruct (IH n rest E) as (skipped & t' & -> & Hs & Hn).
    exists (m :: skipped), t'. repeat split; try apply Hn. now constructor.
  - intros [= <- <-]. exists [], t. repeat split; [constructor | exact Et | exact Ht].
Qed.

(** The draw loop ends when an entry of [temp] that is not zero is
    among the draws, all of which are indices of [temp]. *)
Lemma draw_card_total (temp draws : list Z) (n : Z) :
  Forall (fun m => 0 <= m < Z.of_nat (List.length temp)) draws ->
  In n draws -> nth (Z.to_nat n) temp 0 <> 0 ->
  exists n' rest, draw_card temp draws = Some (n', rest).
Proof.
  induction draws as [|m draws IH]; intros Hr Hin Hn; [destruct Hin|].
  inversion_clear Hr as [|? ? Hm Hr'].
  cbn [draw_card]. rewrite (rd_nth_in_range temp m Hm). cbn [bind].
  destruct (Z.eqb_spec (nth (Z.to_nat m) temp 0) 0) as [E|_]; [|eauto].
  destruct Hin as [->|Hin]; [contradiction|]. now apply IH.
Qed.

Lemma existsb_eqb_In (n : nat) (l : list nat) :
  existsb (Nat.eqb n) l = true <-> In n l.
Proof.
  rewrite existsb_exists. split.
  - intros (x & Hx & E). apply Nat.eqb_eq in E. now subst.
  - intros H. exists n. split; [exact H | apply Nat.eqb_refl].
Qed.

Lemma NoDup_snoc (l : list nat) (n : nat) :
  NoDup l -> ~ In n l -> NoDup (l ++ [n]).
Proof.
  intros Hl Hn. apply (Permutation_NoDup (Permutation_cons_append l n)).
  now constructor.
Qed.

Lemma distinct_draws_seen (seen seen' : list nat) (draws : list Z) :
  (forall x, In x seen <-> In x seen') ->
  distinct_draws seen draws = distinct_draws seen' draws.
Proof.
  revert seen seen'. induction draws as [|m draws IH]; intros seen seen' H;
    [reflexivity|].
  cbn [distinct_draws].
  assert (E : existsb (Nat.eqb (Z.to_nat m)) seen
              = existsb (Nat.eqb (Z.to_nat m)) seen').
  { apply eq_true_iff_eq. rewrite !existsb_eqb_In. apply H. }
  rewrite E. destruct (existsb (Nat.eqb (Z.to_nat m)) seen').
  - now apply IH.
  - f_equal. apply IH. intros x. simpl. rewrite H. tauto.
Qed.

(** Draws that repeat chosen indices do not count. *)
Lemma distinct_draws_skip (deck0 : list Z) :
  List.length deck0 = 52%nat -> ~ In 0 deck0 ->
  forall (chosen : list nat) (skipped rest : list Z),
    Forall (fun m => 0 <= m < 52
                     /\ (existsb (Nat.eqb (Z.to_nat m)) chosen = true
                         \/ nth (Z.to_nat m) deck0 0 = 0)) skipped ->
    distinct_draws chosen (skipped ++ rest) = distinct_draws chosen rest.
Proof.
  intros HL Hnz chosen skipped rest H.
  induction H as [|m skipped Hm _ IH]; [reflexivity|].
  cbn [app distinct_draws].
  destruct Hm as [Hr [->|Hz]]; [exact IH|].
  exfalso. apply Hnz. rewrite <- Hz. apply nth_In. lia.
Qed.

Section Shuffle.

Variable deck0 : list Z.
Hypothesis deck0_length : List.length deck0 = 52%nat.

(** One iteration keeps the invariant, choosing one more index. *)
Lemma shuffle_step_inv (chosen : list nat) (st st' : list Z * list Z * list Z) :
  (List.length chosen < 52)%nat ->
  shuffle_inv deck0 chosen st ->
  shuffle_step (Z.of_nat (List.length chosen)) st = Some st' ->
  exists n skipped,
    shuffle_inv deck0 (chosen ++ [n]) st'
    /\ snd st = skipped ++ Z.of_nat n :: snd st'
    /\ Forall (fun m => 0 <= m < 52
                        /\ (existsb (Nat.eqb (Z.to_nat m)) chosen = true
                            \/ nth (Z.to_nat m) deck0 0 = 0)) skipped.
Proof.
  destruct st as [[deck temp] draws]. intros Hi (Hnd & Hch & HLd & HLt & HF & Ht).
  unfold shuffle_step.
  destruct (draw_card temp draws) as [[n rest]|] eqn:Ed; [|discriminate].
  cbn [bind].
  destruct (draw_card_Some _ _ _ _ Ed) as (skipped & t & -> & Hsk & Et & Hnz).
  rewrite Et. cbn [bind].
  pose proof (rd_Some_range _ _ _ Et) as Hn. rewrite HLt in Hn.
  pose proof (rd_nth _ _ _ 0 Et) as Hnth.
  assert (Hmem : existsb (Nat.eqb (Z.to_nat n)) chosen = false
                 /\ t = nth (Z.to_nat n) deck0 0).
  { specialize (Ht (Z.to_nat n) ltac:(lia)). rewrite Hnth in Ht.
    destruct (existsb (Nat.eqb (Z.to_nat n)) chosen); [contradiction | now split]. }
  destruct Hmem as [Hmem Etd].
  destruct (wr_Some deck (Z.of_nat (List.length chosen)) t ltac:(lia))
    as (deck' & -> & HLd' & HF' & _).
  cbn [bind].
  destruct (wr_Some temp n 0 ltac:(lia)) as (temp' & -> & HLt' & _ & Ht').
  cbn [bind]. intros [= <-].
  exists (Z.to_nat n), skipped. split; [|split].
  - unfold shuffle_inv. repeat split.
    + apply NoDup_snoc; [exact Hnd|]. rewrite <- existsb_eqb_In. congruence.
    + apply Forall_app. split; [exact Hch|]. constructor; [|constructor].
      split; [lia | congruence].
    + lia.
    + lia.
    + rewrite length_app, Nat.add_1_r, map_app. cbn [map].
      rewrite Nat2Z.id in HF'. rewrite HF', HF, Etd. reflexivity.
    + intros k Hk. rewrite Ht', existsb_app. cbn [existsb]. rewrite orb_false_r.
      rewrite (Nat.eqb_sym k). specialize (Ht k Hk).
      destruct (Nat.eqb_spec (Z.to_nat n) k) as [<-|Hne].
      * now rewrite orb_true_r.
      * now rewrite orb_false_r.
  - cbn [snd]. now rewrite Z2Nat.id by lia.
  - apply Forall_forall. intros m Hm. rewrite Forall_forall in Hsk.
    specialize (Hsk m Hm).
    pose proof (rd_Some_range _ _ _ Hsk) as Hmr. rewrite HLt in Hmr.
    pose proof (rd_nth _ _ _ 0 Hsk) as Hm0.
    specialize (Ht (Z.to_nat m) ltac:(lia)). rewrite Hm0 in Ht.
    split; [lia|].
    destruct (existsb (Nat.eqb (Z.to_nat m)) chosen); [now left|].
    right. congruence.
Qed.

(** The iterations from the state in which [chosen] are chosen. *)
Lemma shuffle_loop_inv (n : nat) :
  forall (chosen : list nat) (st st' : list Z * list Z * list Z),
    (List.length chosen + n <= 52)%nat ->
    shuffle_inv deck0 chosen st ->
    for_loop n (Z.of_nat (List.length chosen)) shuffle_step st = Some st' ->
    exists more used,
      List.length more = n
      /\ shuffle_inv deck0 (chosen ++ more) st'
      /\ snd st = used ++ snd st'
      /\ (~ In 0 deck0 ->
          distinct_draws chosen (snd st)
          = more ++ distinct_draws (chosen ++ more) (snd st')).
Proof.
  induction n as [|n IH]; intros chosen st st' Hlen Hinv.
  - cbn [for_loop]. intros [= <-]. exists [], []. rewrite app_nil_r. now repeat split.
  - cbn [for_loop].
    destruct (shuffle_step (Z.of_nat (List.length chosen)) st) as [st1|] eqn:E1;
      [|discriminate].
    cbn [bind]. intros E.
    destruct (shuffle_step_inv chosen st st1 ltac:(lia) Hinv E1)
      as (m & skipped & Hinv1 & Hd1 & Hsk).
    replace (Z.of_nat (List.length chosen) + 1)
      with (Z.of_nat (List.length (chosen ++ [m]))) in E
      by (rewrite length_app; simpl; lia).
    destruct (IH (chosen ++ [m]) st1 st') as (more & used & HL & Hinv' & Hd' & Hdd);
      [rewrite length_app; simpl; lia | exact Hinv1 | exact E |].
    exists (m :: more), (skipped ++ Z.of_nat m :: used).
    split; [simpl; now f_equal|]. split; [|split].
    + now rewrite <- app_assoc in Hinv'.
    + rewrite Hd1, Hd', <- app_assoc. reflexivity.
    + intros Hnz. rewrite Hd1.
      rewrite (distinct_draws_skip deck0 deck0_length Hnz chosen skipped) by exact Hsk.
      cbn [distinct_draws]. rewrite Nat2Z.id.
      assert (Hm : existsb (Nat.eqb m) chosen = false).
      { assert (Hnd1 : NoDup (chosen ++ [m]))
          by (destruct st1 as [[? ?] ?]; apply Hinv1).
        apply NoDup_remove_2 in Hnd1. rewrite app_nil_r in Hnd1.
        destruct (existsb (Nat.eqb m) chosen) eqn:Em; [|reflexivity].
        apply existsb_eqb_In in Em. contradiction. }
      rewrite Hm. cbn [app]. f_equal.
      rewrite (distinct_draws_seen (m :: chosen) (chosen ++ [m])), (Hdd Hnz).
      * now rewrite <- app_assoc.
      * intros x. rewrite in_app_iff. simpl. tauto.
Qed.

Lemma shuffle_inv_start (draws : list Z) :
  shuffle_inv deck0 [] (deck0, deck0, draws).
Proof.
  unfold shuffle_inv. repeat split; try assumption; try constructor.
Qed.

Lemma map_nth_seq (l : list Z) :
  map (fun n => nth n l 0) (seq 0 (List.length l)) = l.
Proof.
  apply (nth_ext _ _ 0 0).
  - now rewrite length_map, length_seq.
  - intros k Hk. rewrite length_map, length_seq in Hk.
    rewrite (nth_indep _ 0 (nth 0 l 0)) by (now rewrite length_map, length_seq).
    rewrite (map_nth (fun n => nth n l 0) (seq 0 (List.length l)) 0%nat k).
    now rewrite seq_nth.
Qed.

(** The indices chosen when the loop is over are all the indices. *)
Lemma chosen_all (chosen : list nat) :
  NoDup chosen -> List.length chosen = 52%nat ->
  Forall (fun n => (n < 52)%nat /\ nth n deck0 0 <> 0) chosen ->
  Permutation chosen (seq 0 52).
Proof.
  intros Hnd HL Hch. apply NoDup_Permutation_bis; [exact Hnd | |].
  - rewrite length_seq. lia.
  - intros n Hn. rewrite Forall_forall in Hch. apply in_seq.
    destruct (Hch n Hn). lia.
Qed.

(** What [shuffle_deck] has done when it returns. *)
Lemma shuffle_deck_Some (draws : list Z) (deck' rest : list Z) :
  shuffle_deck deck0 draws = Some (deck', rest) ->
  exists chosen used,
    Permutation chosen (seq 0 52)
    /\ Forall (fun n => nth n deck0 0 <> 0) chosen
    /\ deck' = map (fun n => nth n deck0 0) chosen
    /\ draws = used ++ rest
    /\ (~ In 0 deck0 -> chosen = firstn 52 (distinct_draws [] draws)).
Proof.
  unfold shuffle_deck. rewrite shuffle_copy by exact deck0_length. cbn [bind].
  unfold for_range. change (Z.to_nat (52 - 0)) with 52%nat.
  change (for_loop 52 0
            (fun i st =>
               let '(deck, temp, draws) := st in
               p <- draw_card temp draws ;;
               let '(n, draws0) := p in
               t <- rd temp n ;;
               deck1 <- wr deck i t ;;
               temp0 <- wr temp n 0 ;;
               Some (deck1, temp0, draws0))
            (deck0, deck0, draws))
    with (for_loop 52 (Z.of_nat (List.length (@nil nat))) shuffle_step
                   (deck0, deck0, draws)).
  destruct (for_loop 52 (Z.of_nat (List.length (@nil nat))) shuffle_step
                     (deck0, deck0, draws)) as [[[d t] r]|] eqn:E; [|discriminate].
  cbn [bind fst snd]. intros [= <- <-].
  destruct (shuffle_loop_inv 52 [] _ _ ltac:(simpl; lia) (shuffle_inv_start draws) E)
    as (chosen & used & HL & Hinv & Hd & Hdd).
  cbn [app] in Hinv. destruct Hinv as (Hnd & Hch & HLd & _ & HF & _).
  exists chosen, used. split; [now apply chosen_all|]. split; [|split; [|split]].
  - eapply Forall_impl; [|exact Hch]. intros n [_ H]. exact H.
  - rewrite HL, <- HLd, firstn_all in HF. exact HF.
  - exact Hd.
  - intros Hnz. specialize (Hdd Hnz). cbn [snd app] in Hdd.
    rewrite Hdd, <- HL, firstn_app, Nat.sub_diag, firstn_all. cbn [firstn].
    now rewrite app_nil_r.
Qed.

End Shuffle.

(** X5: when [shuffle_deck] returns, the array holds a permutation of
    the 52 cards it held, and the draws left are a suffix of the draws
    given. *)
Theorem shuffle_deck_permutation (deck draws deck' rest : list Z) :
  List.length deck = 52%nat ->
  shuffle_deck deck draws = Some (deck', rest) ->
  Permutation deck deck' /\ exists used, draws = used ++ rest.
Proof.
  intros HL E.
  destruct (shuffle_deck_Some deck HL draws deck' rest E)
    as (chosen & used & HP & _ & -> & Hd & _).
  split; [|now exists used].
  rewrite <- (map_nth_seq deck) at 1. rewrite HL.
  apply Permutation_map. now symmetry.
Qed.

(** X6: [shuffle_deck] does not return on a deck with a card that is
    zero, whatever the draws: a zero in [temp] marks a card as taken, so
    the last card is looked for without end. *)
Theorem shuffle_deck_zero_card (deck draws : list Z) :
  List.length deck = 52%nat -> In 0 deck ->
  shuffle_deck deck draws = None.
Proof.
  intros HL H0.
  destruct (shuffle_deck deck draws) as [[deck' rest]|] eqn:E; [|reflexivity].
  exfalso.
  destruct (shuffle_deck_Some deck HL draws deck' rest E)
    as (chosen & used & HP & Hnz & _).
  destruct (In_nth deck 0 0 H0) as (k & Hk & Ek).
  assert (Hin : In k chosen).
  { apply (Permutation_in _ (Permutation_sym HP)). apply in_seq. lia. }
  rewrite Forall_forall in Hnz. now apply (Hnz k Hin).
Qed.

(** X7: the deck [shuffle_deck] returns holds, in this order, the cards
    that were at the first 52 distinct indices among the draws: a draw
    that repeats an earlier one is drawn again. *)
Theorem shuffle_deck_distinct_draws (deck draws deck' rest : list Z) :
  List.length deck = 52%nat ->
  shuffle_deck deck draws = Some (deck', rest) ->
  deck' = map (fun n => nth n deck 0) (firstn 52 (distinct_draws [] draws)).
Proof.
  intros HL E.
  destruct (shuffle_deck_Some deck HL draws deck' rest E)
    as (chosen & used & HP & Hnz & -> & _ & Hc).
  rewrite <- Hc; [reflexivity|].
  intros H0. destruct (In_nth deck 0 0 H0) as (k & Hk & Ek).
  assert (Hin : In k chosen).
  { apply (Permutation_in _ (Permutation_sym HP)). apply in_seq. lia. }
  rewrite Forall_forall in Hnz. now apply (Hnz k Hin).
Qed.

(** While fewer than 52 indices are chosen, one is left. *)
Lemma unchosen_index (chosen : list nat) :
  (List.length chosen < 52)%nat ->
  exists n, (n < 52)%nat /\ existsb (Nat.eqb n) chosen = false.
Proof.
  intros HL.
  destruct (find (fun n => negb (existsb (Nat.eqb n) chosen)) (seq 0 52))
    as [n|] eqn:E.
  - apply find_some in E. destruct E as [Hin Hn]. apply in_seq in Hin.
    exists n. split; [lia|]. now apply negb_true_iff.
  - exfalso.
    assert (Hi : incl (seq 0 52) chosen).
    { intros n Hn. apply existsb_eqb_In.
      pose proof (find_none _ _ E n Hn) as H. now apply negb_false_iff in H. }
    pose proof (NoDup_incl_length (seq_NoDup 52 0) Hi) as H.
    rewrite length_seq in H. lia.
Qed.

Section ShuffleReturns.

Variable deck0 : list Z.
Hypothesis deck0_length : List.length deck0 = 52%nat.
Hypothesis deck0_nonzero : ~ In 0 deck0.

Lemma shuffle_step_returns (chosen : list nat) (st : list Z * list Z * list Z) :
  (List.length chosen < 52)%nat ->
  shuffle_inv deck0 chosen st ->
  draws_suffice chosen (snd st) ->
  exists st' n,
    shuffle_step (Z.of_nat (List.length chosen)) st = Some st'
    /\ shuffle_inv deck0 (chosen ++ [n]) st'
    /\ draws_suffice (chosen ++ [n]) (snd st').
Proof.
  intros HL Hinv [Hrange Hcover].
  destruct (unchosen_index chosen HL) as (u & Hu & Hmem).
  assert (Hstep : exists st', shuffle_step (Z.of_nat (List.length chosen)) st = Some st').
  { destruct st as [[deck temp] draws]. cbn [snd] in *.
    destruct Hinv as (Hnd & Hch & HLd & HLt & HF & Ht).
    destruct (draw_card_total temp draws (Z.of_nat u)) as (n & rest & Ed).
    - now rewrite HLt.
    - now apply Hcover.
    - rewrite Nat2Z.id, (Ht u Hu), Hmem. intros E. apply deck0_nonzero.
      rewrite <- E. apply nth_In. lia.
    - unfold shuffle_step. rewrite Ed. cbn [bind].
      destruct (draw_card_Some _ _ _ _ Ed) as (_ & t & _ & _ & Et & _).
      rewrite Et. cbn [bind].
      pose proof (rd_Some_range _ _ _ Et) as Hn.
      destruct (wr_Some deck (Z.of_nat (List.length chosen)) t ltac:(lia))
        as (deck' & -> & _).
      cbn [bind]. destruct (wr_Some temp n 0 Hn) as (temp' & -> & _).
      cbn [bind]. eauto. }
  destruct Hstep as (st' & E).
  destruct (shuffle_step_inv deck0 deck0_length chosen st st' HL Hinv E)
    as (n & skipped & Hinv' & Hd & Hsk).
  exists st', n. split; [exact E|]. split; [exact Hinv'|].
  rewrite Hd in Hrange, Hcover. split.
  - apply Forall_app in Hrange. destruct Hrange as [_ Hr].
    now inversion_clear Hr.
  - intros m Hm Hmm. rewrite existsb_app in Hmm. cbn [existsb] in Hmm.
    rewrite orb_false_r in Hmm. apply orb_false_iff in Hmm.
    destruct Hmm as [Hmc Hmn]. apply Nat.eqb_neq in Hmn.
    specialize (Hcover m Hm Hmc). apply in_app_iff in Hcover.
    destruct Hcover as [Hin|[Heq|Hin]]; [| lia | exact Hin].
    exfalso. rewrite Forall_forall in Hsk.
    destruct (Hsk _ Hin) as [_ [Hc|Hz]].
    + rewrite Nat2Z.id in Hc. congruence.
    + rewrite Nat2Z.id in Hz. apply deck0_nonzero. rewrite <- Hz.
      apply nth_In. lia.
Qed.

Lemma shuffle_loop_returns (n : nat) :
  forall (chosen : list nat) (st : list Z * list Z * list Z),
    (List.length chosen + n <= 52)%nat ->
    shuffle_inv deck0 chosen st ->
    draws_suffice chosen (snd st) ->
    exists st', for_loop n (Z.of_nat (List.length chosen)) shuffle_step st = Some st'.
Proof.
  induction n as [|n IH]; intros chosen st Hlen Hinv Hdr.
  - exists st. reflexivity.
  - destruct (shuffle_step_returns chosen st ltac:(lia) Hinv Hdr)
      as (st1 & m & E1 & Hinv1 & Hdr1).
    cbn [for_loop]. rewrite E1. cbn [bind].
    replace (Z.of_nat (List.length chosen) + 1)
      with (Z.of_nat (List.length (chosen ++ [m])))
      by (rewrite length_app; simpl; lia).
    apply IH; [rewrite length_app; simpl; lia | exact Hinv1 | exact Hdr1].
Qed.

End ShuffleReturns.

(** X8: [shuffle_deck] returns when no card of the deck is zero, the
    draws are indices from 0 to 51 and each of these indices is drawn at
    least once. *)
Theorem shuffle_deck_returns (deck draws : list Z) :
  List.length deck = 52%nat -> ~ In 0 deck ->
  Forall (fun n => 0 <= n < 52) draws ->
  (forall n, 0 <= n < 52 -> In n draws) ->
  exists deck' rest, shuffle_deck deck draws = Some (deck', rest).
Proof.
  intros HL Hnz Hrange Hcover.
  destruct (shuffle_loop_returns deck HL Hnz 52 [] (deck, deck, draws))
    as ([[d t] r] & E).
  - simpl. lia.
  - now apply shuffle_inv_start.
  - split; [exact Hrange|]. intros n Hn _. apply Hcover. lia.
  - exists d, r. unfold shuffle_deck. rewrite shuffle_copy by exact HL.
    cbn [bind]. unfold for_range. change (Z.to_nat (52 - 0)) with 52%nat.
    change (for_loop 52 0
              (fun i st =>
                 let '(deck, temp, draws) := st in
                 p <- draw_card temp draws ;;
                 let '(n, draws0) := p in
                 t <- rd temp n ;;
                 deck1 <- wr deck i t ;;
                 temp0 <- wr temp n 0 ;;
                 Some (deck1, temp0, draws0))
              (deck, deck, draws))
      with (for_loop 52 (Z.of_nat (List.length (@nil nat))) shuffle_step
                     (deck, deck, draws)).
    rewrite E. reflexivity.
Qed.

(** An instance of [shuffle_deck_permutation]. *)
Lemma shuffle_deck_permutation_witness :
  Permutation the_deck (rev the_deck) /\ exists used, draws_down = used ++ [].
Proof.
  apply (shuffle_deck_permutation the_deck draws_down (rev the_deck) []).
  - reflexivity.
  - vm_compute. reflexivity.
Defined.

(** An instance of [shuffle_deck_zero_card]. *)
Lemma shuffle_deck_zero_card_witness :
  shuffle_deck (0 :: tl the_deck) draws_down = None.
Proof.
  apply (shuffle_deck_zero_card (0 :: tl the_deck) draws_down).
  - reflexivity.
  - simpl. tauto.
Defined.

(** An instance of [shuffle_deck_distinct_draws]. *)
Lemma shuffle_deck_distinct_draws_witness :
  rev the_deck
  = map (fun n => nth n the_deck 0) (firstn 52 (distinct_draws [] (51 :: draws_down))).
Proof.
  apply (shuffle_deck_distinct_draws the_deck (51 :: draws_down) (rev the_deck) []).
  - reflexivity.
  - vm_compute. reflexivity.
Defined.

(** An instance of [shuffle_deck_returns]. *)
Lemma shuffle_deck_returns_witness :
  exists deck' rest, shuffle_deck the_deck draws_down = Some (deck', rest).
Proof.
  apply (shuffle_deck_returns the_deck draws_down).
  - reflexivity.
  - intros H. apply the_deck_valid in H. destruct H as (s & j & Hj & E).
    destruct (encode_fields s j Hj) as (_ & _ & Hs & _).
    rewrite <- E in Hs. destruct s; discriminate Hs.
  - apply Forall_forall. intros n Hn. apply in_map_iff in Hn.
    destruct Hn as (k & <- & Hk). apply in_rev, in_seq in Hk. lia.
  - intros n Hn. apply in_map_iff. exists (Z.to_nat n). split; [lia|].
    apply -> in_rev. apply in_seq. lia.
Defined.

(* ================================================================= *)
(** ** Looking for a card in a shuffled deck *)

(** X9: after [init_deck] and [shuffle_deck], whatever the draws were,
    [find_card] finds every card of the deck: it returns the index at
    which the shuffled array holds the card. *)
Theorem find_card_after_shuffle (deck0 draws deck rest : list Z) (s : suit) (j : nat) :
  List.length deck0 = 52%nat -> (j < 13)%nat ->
  (d <- init_deck deck0 ;; shuffle_deck d draws) = Some (deck, rest) ->
  exists i,
    find_card (2 + Z.of_nat j) (suit_bit s) deck = Some i
    /\ 0 <= i < 52
    /\ rd deck i = Some (encode s j).
Proof.
  intros HL Hj E. rewrite (init_deck_the_deck deck0 HL) in E. cbn [bind] in E.
  destruct (shuffle_deck_Some the_deck the_deck_length draws deck rest E)
    as (chosen & used & HP & _ & -> & _).
  assert (Hperm : Permutation (map (fun n => nth n the_deck 0) chosen) the_deck).
  { pose proof (map_nth_seq the_deck) as E52. rewrite the_deck_length in E52.
    apply (Permutation_trans (l' := map (fun n => nth n the_deck 0) (seq 0 52)));
      [now apply Permutation_map | rewrite E52; apply Permutation_refl]. }
  destruct (find_card_in_permuted_deck _ Hperm s j Hj) as (i & Ei & Hi & Er & _).
  now exists i.
Qed.

(** An instance of [find_card_after_shuffle]. *)
Lemma find_card_after_shuffle_witness :
  exists i,
    find_card 14 SPADE (rev the_deck) = Some i
    /\ 0 <= i < 52
    /\ rd (rev the_deck) i = Some (encode Spade 12).
Proof.
  apply (find_card_after_shuffle (repeat 0 52) draws_down (rev the_deck) [] Spade 12).
  - reflexivity.
  - lia.
  - vm_compute. reflexivity.
Defined.

(* ================================================================= *)
(** ** The reads of the evaluator are in bounds *)

Lemma lxor_bound (a b n : Z) :
  0 <= a < 2 ^ n -> 0 <= b < 2 ^ n -> 0 <= Z.lxor a b < 2 ^ n.
Proof.
  intros Ha Hb.
  assert (H0 : 0 <= Z.lxor a b) by (apply Z.lxor_nonneg; lia).
  split; [exact H0|].
  destruct (Z.eq_dec (Z.lxor a b) 0) as [->|Hn]; [lia|].
  destruct (Z.eq_dec a 0) as [->|Hna]; [now rewrite Z.lxor_0_l|].
  destruct (Z.eq_dec b 0) as [->|Hnb]; [now rewrite Z.lxor_0_r|].
  apply Z.log2_lt_pow2; [lia|].
  eapply Z.le_lt_trans; [apply Z.log2_lxor; lia|].
  apply Z.max_lub_lt; apply Z.log2_lt_pow2; lia.
Qed.

Lemma find_fast_bounds (T : arrays) (u : Z) :
  Z.of_nat (List.length (hash_adjust T)) = 512 ->
  Forall (fun a => 0 <= a < 8192) (hash_adjust T) ->
  exists r, find_fast T u = Some r /\ 0 <= r < 8192.
Proof.
  intros Hlen Hadj. rewrite find_fast_mix. cbv zeta.
  set (m := Spec.mix u).
  assert (Hb : 0 <= Z.land (Z.shiftr m 8) 0x1ff < 512)
    by (rewrite land_0x1ff; apply Z.mod_pos_bound; lia).
  destruct (rd_in_range (hash_adjust T) (Z.land (Z.shiftr m 8) 0x1ff)) as (adj & E);
    [lia|].
  rewrite E. cbn [bind]. eexists. split; [reflexivity|].
  change 8192 with (2 ^ 13). apply lxor_bound.
  - rewrite Z.shiftr_div_pow2 by lia. unfold to_uint.
    assert (H := Z.mod_pos_bound (m + (Z.shiftl m 2) mod 2 ^ 32) (2 ^ 32) ltac:(lia)).
    split; [apply Z.div_pos; lia|].
    apply Z.div_lt_upper_bound; lia.
  - apply rd_In in E. rewrite Forall_forall in Hadj. apply (Hadj adj E).
Qed.

(** X10: [find_fast] reads [hash_adjust] at an index below 512, whatever
    its argument; with a table of 512 entries below 8192 it returns an
    index below 8192. *)
Theorem find_fast_in_range (T : arrays) (u : Z) :
  Z.of_nat (List.length (hash_adjust T)) = 512 ->
  Forall (fun a => 0 <= a < 8192) (hash_adjust T) ->
  exists r, find_fast T u = Some r /\ 0 <= r < 8192.
Proof. exact (find_fast_bounds T u). Qed.

Lemma hash_adjust_model_range :
  Forall (fun a => 0 <= a < 8192) (hash_adjust arrays_model).
Proof.
  apply Forall_forall. intros a Ha.
  assert (H : forallb (fun a => (0 <=? a) && (a <? 8192)) (hash_adjust arrays_model)
              = true) by (vm_compute; reflexivity).
  rewrite forallb_forall in H. specialize (H a Ha). lia.
Qed.

(** An instance of [find_fast_in_range]. *)
Lemma find_fast_in_range_witness :
  exists r, find_fast arrays_model 4294967295 = Some r /\ 0 <= r < 8192.
Proof.
  apply (find_fast_in_range arrays_model 4294967295).
  - reflexivity.
  - exact hash_adjust_model_range.
Defined.

(** X11: [eval_5cards] reads within its tables on any five valid cards,
    equal or not: with tables of the sizes of [tables_shape], adjustment
    entries below 8192 and at least 8192 hash values, it returns a
    value, and the value is an [unsigned short]. *)
Theorem eval_5cards_in_bounds (T : arrays) (c1 c2 c3 c4 c5 : Z) :
  tables_shape T ->
  Forall (fun a => 0 <= a < 8192) (hash_adjust T) ->
  8192 <= Z.of_nat (List.length (hash_values T)) ->
  valid_card c1 -> valid_card c2 -> valid_card c3 -> valid_card c4 ->
  valid_card c5 ->
  exists v, eval_5cards T c1 c2 c3 c4 c5 = Some v /\ 0 <= v < 2 ^ 16.
Proof.
  intros HT Hadj Hhv V1 V2 V3 V4 V5.
  assert (Hq : 0 <= rank_or c1 c2 c3 c4 c5 <= 8191)
    by (apply rank_or_range; now apply valid_card_range).
  assert (Hus : forall x, 0 <= to_ushort x < 2 ^ 16)
    by (intros x; unfold to_ushort; apply Z.mod_pos_bound; lia).
  unfold eval_5cards, eval_5cards_traced.
  destruct (negb (suit_and c1 c2 c3 c4 c5 =? 0)).
  - destruct (rd_in_range (flushes T) (rank_or c1 c2 c3 c4 c5)) as (v & ->).
    + rewrite (flushes_size T HT). lia.
    + cbn. eauto.
  - destruct (rd_in_range (unique5 T) (rank_or c1 c2 c3 c4 c5)) as (w & ->).
    + rewrite (unique5_size T HT). lia.
    + cbn [bind]. destruct (negb (to_short w =? 0)); [cbn; eauto|].
      destruct (find_fast_bounds T (to_uint (prime_product c1 c2 c3 c4 c5))
                  (hash_adjust_size T HT) Hadj) as (i & -> & Hi).
      cbn [bind].
      destruct (rd_in_range (hash_values T) i) as (v & ->); [lia|].
      cbn. eauto.
Qed.

(** An instance of [eval_5cards_in_bounds]: five times the ace of
    spades. *)
Lemma eval_5cards_in_bounds_witness :
  exists v,
    eval_5cards arrays_model (encode Spade 12) (encode Spade 12) (encode Spade 12)
                (encode Spade 12) (encode Spade 12) = Some v
    /\ 0 <= v < 2 ^ 16.
Proof.
  apply (eval_5cards_in_bounds arrays_model).
  - exact arrays_model_shape.
  - exact hash_adjust_model_range.
  - vm_compute. discriminate.
  - exists Spade, 12%nat. split; [lia | reflexivity].
  - exists Spade, 12%nat. split; [lia | reflexivity].
  - exists Spade, 12%nat. split; [lia | reflexivity].
  - exists Spade, 12%nat. split; [lia | reflexivity].
  - exists Spade, 12%nat. split; [lia | reflexivity].
Defined.

(* ================================================================= *)
(** ** eval_5cards does not validate its cards *)

Lemma lor_high (a b n : Z) :
  0 <= n -> 0 <= a -> 0 <= b -> 2 ^ n <= a \/ 2 ^ n <= b -> 2 ^ n <= Z.lor a b.
Proof.
  intros Hn Ha Hb H.
  assert (Hp : 0 < 2 ^ n) by (apply Z.pow_pos_nonneg; lia).
  assert (H0 : 0 <= Z.lor a b) by (apply Z.lor_nonneg; lia).
  assert (Hpos : 0 < Z.lor a b).
  { destruct (Z.eq_dec (Z.lor a b) 0) as [E|]; [|lia].
    apply Z.lor_eq_0_iff in E. lia. }
  apply Z.log2_le_pow2; [exact Hpos|].
  rewrite Z.log2_lor by assumption.
  destruct H as [H|H].
  - apply Z.max_le_iff. left. apply Z.log2_le_pow2; lia.
  - apply Z.max_le_iff. right. apply Z.log2_le_pow2; lia.
Qed.

(** X12: [eval_5cards] does not check its cards.  When one of five
    integers that are not negative has a bit above bit 28, the index
    [q] is 8192 or more, and both first reads, [flushes[q]] and
    [unique5[q]], are past the end of tables of 8192 entries. *)
Theorem eval_5cards_high_bit (T : arrays) (c1 c2 c3 c4 c5 : Z) :
  tables_shape T ->
  0 <= c1 -> 0 <= c2 -> 0 <= c3 -> 0 <= c4 -> 0 <= c5 ->
  2 ^ 29 <= c1 \/ 2 ^ 29 <= c2 \/ 2 ^ 29 <= c3 \/ 2 ^ 29 <= c4 \/ 2 ^ 29 <= c5 ->
  8192 <= rank_or c1 c2 c3 c4 c5
  /\ eval_5cards T c1 c2 c3 c4 c5 = None.
Proof.
  intros HT H1 H2 H3 H4 H5 Hhigh.
  assert (Hq : 8192 <= rank_or c1 c2 c3 c4 c5).
  { unfold rank_or.
    assert (N12 : 0 <= Z.lor c1 c2) by (apply Z.lor_nonneg; lia).
    assert (N123 : 0 <= Z.lor (Z.lor c1 c2) c3) by (apply Z.lor_nonneg; lia).
    assert (N1234 : 0 <= Z.lor (Z.lor (Z.lor c1 c2) c3) c4)
      by (apply Z.lor_nonneg; lia).
    pose proof (lor_high c1 c2 29 ltac:(lia) H1 H2).
    pose proof (lor_high _ c3 29 ltac:(lia) N12 H3).
    pose proof (lor_high _ c4 29 ltac:(lia) N123 H4).
    pose proof (lor_high _ c5 29 ltac:(lia) N1234 H5).
    assert (Hl : 2 ^ 29 <= Z.lor (Z.lor (Z.lor (Z.lor c1 c2) c3) c4) c5) by tauto.
    rewrite Z.shiftr_div_pow2 by lia.
    apply Z.div_le_lower_bound; lia. }
  split; [exact Hq|].
  assert (Hrd : forall t : list Z, Z.of_nat (List.length t) = 8192 ->
                  rd t (rank_or c1 c2 c3 c4 c5) = None).
  { intros t Ht. destruct (rd t (rank_or c1 c2 c3 c4 c5)) as [x|] eqn:E; [|reflexivity].
    apply rd_Some_range in E. lia. }
  unfold eval_5cards, eval_5cards_traced.
  rewrite (Hrd _ (flushes_size T HT)), (Hrd _ (unique5_size T HT)).
  destruct (negb (suit_and c1 c2 c3 c4 c5 =? 0)); reflexivity.
Qed.

(** An instance of [eval_5cards_high_bit]: the ace of spades with bit 29
    set, among four cards. *)
Lemma eval_5cards_high_bit_witness :
  8192 <= rank_or (encode Spade 12 + 2 ^ 29) (encode Spade 11) (encode Spade 10)
                  (encode Spade 9) (encode Spade 8)
  /\ eval_5cards arrays_model (encode Spade 12 + 2 ^ 29) (encode Spade 11)
                 (encode Spade 10) (encode Spade 9) (encode Spade 8) = None.
Proof.
  apply (eval_5cards_high_bit arrays_model).
  - exact arrays_model_shape.
  - vm_compute. discriminate.
  - vm_compute. discriminate.
  - vm_compute. discriminate.
  - vm_compute. discriminate.
  - vm_compute. discriminate.
  - left. vm_compute. discriminate.
Defined.

(* ================================================================= *)
(** ** eval_5cards looks at suits only to tell flushes *)

(** X13: the value [eval_5cards] gives to five valid cards depends only on
    their ranks, in any order, and on whether the five have one suit:
    two hands with the same ranks get the same value when both are
    suited or both are not, whatever the tables. *)
Theorem eval_5cards_suit_blind (T : arrays)
        (s1 s2 s3 s4 s5 u1 u2 u3 u4 u5 : suit) (j1 j2 j3 j4 j5 k1 k2 k3 k4 k5 : nat) :
  (j1 < 13)%nat -> (j2 < 13)%nat -> (j3 < 13)%nat -> (j4 < 13)%nat ->
  (j5 < 13)%nat ->
  Permutation [j1; j2; j3; j4; j5] [k1; k2; k3; k4; k5] ->
  same_suit [(s1, j1); (s2, j2); (s3, j3); (s4, j4); (s5, j5)]
  = same_suit [(u1, k1); (u2, k2); (u3, k3); (u4, k4); (u5, k5)] ->
  eval_5cards T (encode s1 j1) (encode s2 j2) (encode s3 j3) (encode s4 j4)
              (encode s5 j5)
  = eval_5cards T (encode u1 k1) (encode u2 k2) (encode u3 k3) (encode u4 k4)
                (encode u5 k5).
Proof.
  intros R1 R2 R3 R4 R5 HP Hs.
  assert (Hk : forall k, In k [k1; k2; k3; k4; k5] -> (k < 13)%nat).
  { intros k Hk. apply (Permutation_in _ (Permutation_sym HP)) in Hk.
    simpl in Hk. intuition (subst; assumption). }
  unfold eval_5cards.
  rewrite !eval_5cards_traced_encoded
    by (assumption || (apply Hk; simpl; tauto)).
  rewrite Hs. cbn [map snd].
  rewrite (rank_mask_permutation _ _ HP), (rank_primes_permutation _ _ HP).
  reflexivity.
Qed.

(** An instance of [eval_5cards_suit_blind]: a pair of aces with a king,
    a queen and a jack, in two choices of suits and orders. *)
Lemma eval_5cards_suit_blind_witness :
  eval_5cards arrays_model (encode Spade 12) (encode Heart 12) (encode Club 11)
              (encode Club 10) (encode Club 9)
  = eval_5cards arrays_model (encode Diamond 9) (encode Diamond 12) (encode Heart 10)
                (encode Club 12) (encode Spade 11).
Proof.
  apply (eval_5cards_suit_blind arrays_model
           Spade Heart Club Club Club Diamond Diamond Heart Club Spade
           12 12 11 10 9 9 12 10 12 11); try lia.
  - apply Permutation_cons_app with (l1 := [9%nat]) (l2 := [10; 12; 11]%nat).
    apply Permutation_cons_app with (l1 := [9%nat; 10%nat]) (l2 := [11%nat]).
    apply Permutation_cons_app with (l1 := [9%nat; 10%nat]) (l2 := []).
    apply Permutation_cons_app with (l1 := [9%nat]) (l2 := []).
    apply Permutation_refl.
  - reflexivity.
Defined.


(* ================================================================= *)
(** ** eval_7hand does not depend on the order of the cards *)

Lemma eval_5hand_permutation (T : arrays) (l l' : list Z) :
  List.length l = 5%nat -> Permutation l l' ->
  eval_5hand T l = eval_5hand T l'.
Proof.
  intros HL HP. pose proof (Permutation_length HP) as HL'. rewrite HL in HL'.
  destruct l as [|c1 [|c2 [|c3 [|c4 [|c5 [|? ?]]]]]]; try discriminate HL.
  destruct l' as [|d1 [|d2 [|d3 [|d4 [|d5 [|? ?]]]]]]; try discriminate HL'.
  rewrite !eval_5hand_cards. unfold eval_5cards.
  now rewrite (eval_5cards_traced_permutation T _ _ _ _ _ _ _ _ _ _ HP).
Qed.

(** Five distinct indices below 7, in increasing order. *)
Lemma row_sorted (row : list Z) :
  List.length row = 5%nat -> NoDup row -> Forall (fun k => 0 <= k < 7) row ->
  exists a b c d e,
    0 <= a < b /\ b < c /\ c < d /\ d < e < 7
    /\ Permutation [a; b; c; d; e] row.
Proof.
  intros HL Hn Hk.
  destruct row as [|k1 [|k2 [|k3 [|k4 [|k5 [|? ?]]]]]]; try discriminate HL.
  assert (Hr : forall k, In k [k1; k2; k3; k4; k5] -> 0 <= k < 7)
    by (now apply Forall_forall).
  pose proof (Hr k1 ltac:(simpl; tauto)). pose proof (Hr k2 ltac:(simpl; tauto)).
  pose proof (Hr k3 ltac:(simpl; tauto)). pose proof (Hr k4 ltac:(simpl; tauto)).
  pose proof (Hr k5 ltac:(simpl; tauto)).
  destruct (sort_ranks_five (Z.to_nat k1) (Z.to_nat k2) (Z.to_nat k3) (Z.to_nat k4)
                            (Z.to_nat k5))
    as (a & b & c & d & e & _ & (Hab & Hbc & Hcd & Hde & _) & HP); try lia.
  apply (Permutation_map Z.of_nat) in HP. cbn [map] in HP.
  rewrite !Z2Nat.id in HP by lia.
  assert (Hn' : NoDup [Z.of_nat a; Z.of_nat b; Z.of_nat c; Z.of_nat d; Z.of_nat e])
    by (apply (Permutation_NoDup (Permutation_sym HP)); exact Hn).
  assert (He : 0 <= Z.of_nat e < 7)
    by (apply Hr, (Permutation_in _ HP); simpl; tauto).
  exists (Z.of_nat a), (Z.of_nat b), (Z.of_nat c), (Z.of_nat d), (Z.of_nat e).
  rewrite !NoDup_cons_iff in Hn'. cbn [In] in Hn'.
  destruct Hn' as (Na & Nb & Nc & Nd & _).
  assert (a <> b) by (intros ->; apply Na; tauto).
  assert (b <> c) by (intros ->; apply Nb; tauto).
  assert (c <> d) by (intros ->; apply Nc; tauto).
  assert (d <> e) by (intros ->; apply Nd; tauto).
  clear Na Nb Nc Nd Hr Hn.
  split; [lia|]. split; [lia|]. split; [lia|]. split; [lia|]. exact HP.
Qed.

Section SevenCardsAnyOrder.

Variable T : arrays.
Hypothesis shape : perm7_contract T.
Hypothesis complete : perm7_complete T.

(** Any five of the indices are, in some order, a row of [perm7]. *)
Lemma row_of_indices (row : list Z) :
  List.length row = 5%nat -> NoDup row -> Forall (fun k => 0 <= k < 7) row ->
  exists row', In row' (perm7 T) /\ Permutation row' row.
Proof.
  intros HL Hn Hk.
  destruct (row_sorted row HL Hn Hk) as (a & b & c & d & e & H1 & H2 & H3 & H4 & HP).
  destruct (complete a b c d e H1 H2 H3 H4) as (row' & Hin & HP').
  exists row'. split; [exact Hin|]. now apply (Permutation_trans HP').
Qed.

Lemma eval_7hand_best_from_rows (hand : list Z) (rows : list (list Z)) :
  List.length hand = 7%nat ->
  (forall row, In row rows ->
     List.length row = 5%nat /\ NoDup row /\ Forall (fun k => 0 <= k < 7) row) ->
  forall subhand best,
    List.length subhand = 5%nat ->
    (r <- fold_opt (eval_7hand_step T hand) rows (subhand, best) ;; Some (snd r))
    = best_from best (map (fun row => eval_5hand T (Spec.select hand row)) rows).
Proof.
  intros H7. induction rows as [|row rows IH]; intros Hrows subhand best Hs.
  - reflexivity.
  - destruct (Hrows row (or_introl eq_refl)) as (Hr & _ & Hk).
    cbn [fold_opt map best_from eval_7hand_step].
    rewrite (fill_subhand_select hand row subhand Hr Hs)
      by (now rewrite H7).
    cbn [bind].
    destruct (eval_5hand T (Spec.select hand row)) as [q|]; [|reflexivity].
    cbn [bind].
    replace (if q <? best then q else best) with (Z.min q best)
      by (destruct (Z.ltb_spec q best); lia).
    apply IH.
    + intros r Hin. apply Hrows. now right.
    + unfold Spec.select. now rewrite length_map.
Qed.

Lemma eval_7hand_best_from (hand : list Z) :
  List.length hand = 7%nat ->
  eval_7hand T hand
  = best_from 9999 (map (fun row => eval_5hand T (Spec.select hand row)) (perm7 T)).
Proof.
  intros H7. rewrite eval_7hand_fold by apply (perm7_rows T shape).
  apply eval_7hand_best_from_rows; [exact H7 | apply (perm7_row T shape) | reflexivity].
Qed.

End SevenCardsAnyOrder.

Lemma best_from_None (l : list (option Z)) :
  forall b, best_from b l = None <-> In None l.
Proof.
  induction l as [|[q|] l IH]; intros b; cbn [best_from In].
  - split; [discriminate | tauto].
  - rewrite IH. split; [tauto | intros [H|H]; [discriminate H | exact H]].
  - split; [tauto | reflexivity].
Qed.

Lemma best_from_Some (l : list (option Z)) :
  forall b m,
    best_from b l = Some m ->
    (m = b \/ In (Some m) l) /\ m <= b /\ (forall v, In (Some v) l -> m <= v).
Proof.
  induction l as [|[q|] l IH]; intros b m; cbn [best_from In].
  - intros [= <-]. split; [now left|]. split; [lia | tauto].
  - intros E. destruct (IH _ _ E) as (Hin & Hle & Hall).
    split; [|split].
    + destruct Hin as [->|Hin]; [|tauto].
      destruct (Z.min_spec q b) as [[_ ->]|[_ ->]]; tauto.
    + lia.
    + intros v [[= <-]|Hv]; [lia | now apply Hall].
  - discriminate.
Qed.

(** The result of the loop depends on the set of the values seen only. *)
Lemma best_from_incl (b : Z) (l l' : list (option Z)) :
  incl l l' -> incl l' l -> best_from b l = best_from b l'.
Proof.
  intros H1 H2.
  destruct (best_from b l) as [m|] eqn:E; destruct (best_from b l') as [m'|] eqn:E'.
  - destruct (best_from_Some _ _ _ E) as (Hin & Hle & Hall).
    destruct (best_from_Some _ _ _ E') as (Hin' & Hle' & Hall').
    f_equal. apply Z.le_antisymm.
    + destruct Hin' as [->|Hin']; [exact Hle | apply Hall, H2, Hin'].
    + destruct Hin as [->|Hin]; [exact Hle' | apply Hall', H1, Hin].
  - apply (proj1 (best_from_None l' b)) in E'. apply H2 in E'.
    apply (proj2 (best_from_None l b)) in E'. congruence.
  - apply (proj1 (best_from_None l b)) in E. apply H1 in E.
    apply (proj2 (best_from_None l' b)) in E. congruence.
  - reflexivity.
Qed.

(** The cards of a permuted hand at the indices of a row are cards of
    the hand at five distinct indices. *)
Lemma select_permuted (hand hand' : list Z) (row' : list Z) :
  List.length hand = 7%nat -> Permutation hand hand' ->
  List.length row' = 5%nat -> NoDup row' -> Forall (fun k => 0 <= k < 7) row' ->
  exists row,
    List.length row = 5%nat /\ NoDup row /\ Forall (fun k => 0 <= k < 7) row
    /\ Spec.select hand' row' = Spec.select hand row.
Proof.
  intros H7 HP Hr Hn Hk.
  pose proof (Permutation_length HP) as H7'. rewrite H7 in H7'.
  apply Permutation_nth_error in HP.
  destruct HP as (_ & f & Hinj & Hnth).
  assert (Hf : forall n, (n < 7)%nat ->
             (f n < 7)%nat /\ nth n hand' 0 = nth (f n) hand 0).
  { intros n Hlt.
    destruct (nth_error hand' n) as [x|] eqn:E;
      [|apply nth_error_None in E; lia].
    pose proof E as E'. rewrite Hnth in E'.
    split.
    - rewrite <- H7. apply nth_error_Some. congruence.
    - now rewrite (nth_error_nth _ _ 0 E), (nth_error_nth _ _ 0 E'). }
  rewrite Forall_forall in Hk.
  exists (map (fun k => Z.of_nat (f (Z.to_nat k))) row').
  split; [now rewrite length_map|]. split; [|split].
  - apply NoDup_map_NoDup_ForallPairs; [|exact Hn].
    intros k k' Hin Hin' E.
    pose proof (Hk k Hin). pose proof (Hk k' Hin').
    assert (Z.to_nat k = Z.to_nat k') by (apply Hinj; lia). lia.
  - apply Forall_forall. intros k Hin. apply in_map_iff in Hin.
    destruct Hin as (k0 & <- & Hin0). pose proof (Hk k0 Hin0).
    pose proof (proj1 (Hf (Z.to_nat k0) ltac:(lia))). lia.
  - unfold Spec.select. rewrite map_map. apply map_ext_in. intros k Hin.
    pose proof (Hk k Hin). rewrite Nat2Z.id. apply Hf. lia.
Qed.

(** X14: [eval_7hand] gives a hand of seven cards the same value in every
    order of the cards, when the rows of [perm7] are all the choices of
    five of the seven indices; this needs nothing of the cards nor of
    the other tables. *)
Theorem eval_7hand_any_order (T : arrays) (hand hand' : list Z) :
  perm7_contract T -> perm7_complete T ->
  List.length hand = 7%nat -> Permutation hand hand' ->
  eval_7hand T hand = eval_7hand T hand'.
Proof.
  assert (Hincl : forall h h',
            perm7_contract T -> perm7_complete T ->
            List.length h = 7%nat -> Permutation h h' ->
            incl (map (fun row => eval_5hand T (Spec.select h' row)) (perm7 T))
                 (map (fun row => eval_5hand T (Spec.select h row)) (perm7 T))).
  { intros h h' shape complete H7 HP o Ho. apply in_map_iff in Ho.
    destruct Ho as (row' & <- & Hin').
    destruct (perm7_row T shape row' Hin') as (Hr & Hn & Hk).
    destruct (select_permuted h h' row' H7 HP Hr Hn Hk) as (r & Hr2 & Hn2 & Hk2 & ->).
    destruct (row_of_indices T complete r Hr2 Hn2 Hk2) as (row & Hin & HPr).
    apply in_map_iff. exists row. split; [|exact Hin].
    apply eval_5hand_permutation.
    - unfold Spec.select. rewrite length_map.
      now rewrite (Permutation_length HPr).
    - unfold Spec.select. now apply Permutation_map. }
  intros shape complete H7 HP.
  assert (H7' : List.length hand' = 7%nat)
    by (now rewrite <- (Permutation_length HP)).
  rewrite !(eval_7hand_best_from T shape) by assumption.
  apply best_from_incl.
  - apply (Hincl hand' hand); try assumption. now apply Permutation_sym.
  - now apply Hincl.
Qed.

(** X15: the value [eval_7hand] returns for seven cards is at most the
    value [eval_5hand] gives to any five of them, taken in any order,
    and at most 9999. *)
Theorem eval_7hand_best_of_any_five (T : arrays) (hand row : list Z) (best : Z) :
  perm7_contract T -> perm7_complete T ->
  List.length hand = 7%nat ->
  List.length row = 5%nat -> NoDup row -> Forall (fun k => 0 <= k < 7) row ->
  eval_7hand T hand = Some best ->
  best <= 9999
  /\ exists v, eval_5hand T (Spec.select hand row) = Some v /\ best <= v.
Proof.
  intros shape complete H7 Hr Hn Hk E.
  rewrite (eval_7hand_best_from T shape) in E by exact H7.
  destruct (best_from_Some _ _ _ E) as (_ & Hle & Hall).
  split; [exact Hle|].
  destruct (row_of_indices T complete row Hr Hn Hk) as (row' & Hin & HP).
  assert (Ev : eval_5hand T (Spec.select hand row')
               = eval_5hand T (Spec.select hand row)).
  { apply eval_5hand_permutation.
    - unfold Spec.select. rewrite length_map. now rewrite (Permutation_length HP).
    - unfold Spec.select. now apply Permutation_map. }
  assert (Hmem : In (eval_5hand T (Spec.select hand row))
                    (map (fun r => eval_5hand T (Spec.select hand r)) (perm7 T))).
  { rewrite <- Ev. apply in_map_iff. now exists row'. }
  destruct (eval_5hand T (Spec.select hand row)) as [v|].
  - exists v. split; [reflexivity | now apply Hall].
  - exfalso. apply (proj2 (best_from_None _ 9999)) in Hmem. congruence.
Qed.

(** The table of the model has every choice of five indices as a row. *)
Lemma arrays_model_perm7_complete : perm7_complete arrays_model.
Proof.
  intros a b c d e Ha Hb Hc Hd.
  exists [a; b; c; d; e]. split; [|apply Permutation_refl].
  assert (Ia : In a [0; 1; 2]) by (simpl; lia).
  assert (Ib : In b [1; 2; 3]) by (simpl; lia).
  assert (Ic : In c [2; 3; 4]) by (simpl; lia).
  assert (Id : In d [3; 4; 5]) by (simpl; lia).
  assert (Ie : In e [4; 5; 6]) by (simpl; lia).
  cbn [In] in Ia, Ib, Ic, Id, Ie.
  destruct Ia as [<-|[<-|[<-|[]]]]; destruct Ib as [<-|[<-|[<-|[]]]]; try lia;
    destruct Ic as [<-|[<-|[<-|[]]]]; try lia;
    destruct Id as [<-|[<-|[<-|[]]]]; try lia;
    destruct Ie as [<-|[<-|[<-|[]]]]; try lia;
    cbv; tauto.
Qed.

(** An instance of [eval_7hand_any_order]. *)
Lemma eval_7hand_any_order_witness :
  eval_7hand arrays_model
    [268443177; 134225189; 67116063; 33561373; 16783895; 98818; 148227]
  = eval_7hand arrays_model
      (rev [268443177; 134225189; 67116063; 33561373; 16783895; 98818; 148227]).
Proof.
  apply (eval_7hand_any_order arrays_model).
  - exact arrays_model_perm7.
  - exact arrays_model_perm7_complete.
  - reflexivity.
  - apply Permutation_rev.
Defined.

(** An instance of [eval_7hand_best_of_any_five]: the cards at the
    indices 6, 0, 3, 2 and 5. *)
Lemma eval_7hand_best_of_any_five_witness :
  1 <= 9999
  /\ exists v,
       eval_5hand arrays_model
         (Spec.select [268443177; 134225189; 67116063; 33561373; 16783895;
                       98818; 148227] [6; 0; 3; 2; 5]) = Some v
       /\ 1 <= v.
Proof.
  apply (eval_7hand_best_of_any_five arrays_model
           [268443177; 134225189; 67116063; 33561373; 16783895; 98818; 148227]
           [6; 0; 3; 2; 5] 1).
  - exact arrays_model_perm7.
  - exact arrays_model_perm7_complete.
  - reflexivity.
  - reflexivity.
  - apply NoDup_by_nodup. reflexivity.
  - repeat constructor; lia.
  - vm_compute. reflexivity.
Defined.

(* ================================================================= *)
(** ** init_deck writes the first 52 entries only *)

(** X16: [init_deck] writes the 52 cards to the first 52 entries of the
    array and leaves the entries after them as they were; on an array of
    fewer than 52 entries it writes past the end. *)
Theorem init_deck_frame (deck0 : list Z) :
  init_deck deck0
  = if (52 <=? List.length deck0)%nat then Some (the_deck ++ skipn 52 deck0)
    else None.
Proof.
  do 52 (destruct deck0 as [|? deck0]; [vm_compute; reflexivity|]).
  vm_compute. reflexivity.
Qed.

(* ================================================================= *)
(** ** print_hand on any integers *)







(** X18: with [n] above the number of entries of the array, [print_hand]
    reads past its end. *)
Theorem print_hand_past_end (hand : list Z) (n : Z) (out : string) :
  Z.of_nat (List.length hand) < n -> print_hand hand n out = None.
Proof.
  intros Hn. unfold print_hand, for_range. rewrite Z.sub_0_r.
  replace (Z.to_nat n)
    with (List.length hand + S (Z.to_nat n - S (List.length hand)))%nat by lia.
  rewrite for_loop_app.
  destruct (for_loop (List.length hand) 0 _ out) as [out'|]; [|reflexivity].
  cbn [bind for_loop]. rewrite Z.add_0_l, rd_nat.
  replace (nth_error hand (List.length hand)) with (@None Z); [reflexivity|].
  symmetry. apply nth_error_None. lia.
Qed.

(** An instance of [print_hand_past_end]. *)
Lemma print_hand_past_end_witness :
  print_hand [encode Spade 12] 2 EmptyString = None.
Proof.
  apply (print_hand_past_end [encode Spade 12] 2 EmptyString). simpl. lia.
Defined.

Lemma fold_opt_app {St A : Type} (G : A -> St -> option St) (l1 l2 : list A) (s : St) :
  fold_opt G (l1 ++ l2) s = bind (fold_opt G l1 s) (fold_opt G l2).
Proof.
  revert s. induction l1 as [|x l1 IH]; intros s; [reflexivity|].
  cbn [app fold_opt]. destruct (G x s) as [s'|]; [|reflexivity].
  cbn [bind]. apply IH.
Qed.

(** X19: printing a hand is printing its first cards and then the others:
    one call on the cards [h1 ++ h2] prints what a call on [h1] followed
    by a call on [h2] prints. *)
Theorem print_hand_app (h1 h2 : list Z) (out : string) :
  print_hand (h1 ++ h2) (Z.of_nat (List.length h1) + Z.of_nat (List.length h2)) out
  = (out1 <- print_hand h1 (Z.of_nat (List.length h1)) out ;;
     print_hand h2 (Z.of_nat (List.length h2)) out1).
Proof.
  rewrite <- Nat2Z.inj_add, <- length_app, !print_hand_fold, fold_opt_app.
  destruct (fold_opt _ h1 out) as [out1|]; [|reflexivity].
  cbn [bind]. now rewrite print_hand_fold.
Qed.

(** X20: the text printed for a valid card tells the card: two valid
    cards that print the same are the same card. *)
Theorem print_card_injective (s s' : suit) (j j' : nat) :
  (j < 13)%nat -> (j' < 13)%nat ->
  print_card (encode s j) = print_card (encode s' j') ->
  s = s' /\ j = j'.
Proof.
  intros Hj Hj' H.
  rewrite (proj1 (print_card_token s j Hj)), (proj1 (print_card_token s' j' Hj')) in H.
  assert (Ij : In j (seq 0 13)) by (apply in_seq; lia).
  assert (Ij' : In j' (seq 0 13)) by (apply in_seq; lia).
  clear Hj Hj'. cbn [seq In] in Ij, Ij'.
  repeat (destruct Ij as [<-|Ij]; [|]); [..|elim Ij];
    (repeat (destruct Ij' as [<-|Ij']; [|]); [..|elim Ij']);
    cbn in H; try discriminate H;
    destruct s, s'; try discriminate H; split; reflexivity.
Qed.

(** An instance of [print_card_injective]. *)
Lemma print_card_injective_witness : Heart = Heart /\ 10%nat = 10%nat.
Proof.
  apply (print_card_injective Heart Heart 10 10); [lia | lia | reflexivity].
Defined.

(* ================================================================= *)
(** ** allfive.c on any tables *)

Lemma the_deck_skipn_rd (lo : nat) :
  (lo < 52)%nat ->
  exists x, rd the_deck (Z.of_nat lo) = Some x
            /\ skipn lo the_deck = x :: skipn (S lo) the_deck.
Proof. intros H. apply skipn_cons_rd. now rewrite the_deck_length. Qed.

Section AnyTables.

Variable T : arrays.

(** The loops of [main], [m] levels deep from the index [lo] with the
    cards [p] chosen, tally the hands [p ++ h] for the choices [h] of
    [m] of the cards from [lo] on, in the order of [combs]. *)
Lemma loops_fold (m : nat) :
  forall (lo : nat) (p hand freq : list Z),
    (List.length p + m = 5)%nat -> (lo + m <= 52)%nat ->
    List.length hand = 5%nat -> firstn (List.length p) hand = p ->
    match loops T the_deck m (Z.of_nat lo) (hand, freq) with
    | Some (hand', freq') =>
        fold_opt (tally T) (map (app p) (combs (skipn lo the_deck) m)) freq
        = Some freq'
        /\ List.length hand' = 5%nat /\ firstn (List.length p) hand' = p
    | None =>
        fold_opt (tally T) (map (app p) (combs (skipn lo the_deck) m)) freq = None
    end.
Proof.
  induction m as [|m IHm]; intros lo p hand freq Hp Hlo HL HF.
  - assert (Hp5 : List.length p = 5%nat) by lia.
    rewrite Hp5, <- HL, firstn_all in HF. subst hand.
    rewrite combs_nil_r. cbn [map fold_opt loops]. rewrite app_nil_r.
    destruct (tally T p freq) as [freq'|]; cbn [bind]; [|reflexivity].
    split; [reflexivity|]. split; [exact HL | apply firstn_all].
  - cbn [loops]. unfold for_range.
    remember (Z.to_nat (52 - Z.of_nat m - Z.of_nat lo)) as n eqn:En.
    assert (Hn : (lo + n + m = 52)%nat) by lia. clear En Hlo.
    revert lo hand freq HL HF Hn.
    induction n as [|n IHn]; intros lo hand freq HL HF Hn.
    + rewrite combs_short by (rewrite length_skipn, the_deck_length; lia).
      cbn [for_loop map fold_opt]. now repeat split.
    + destruct (the_deck_skipn_rd lo ltac:(lia)) as (x & Hx & Hs).
      cbn [for_loop]. rewrite Hx. cbn [bind].
      assert (Epos : Z.of_nat (List.length p) = 4 - Z.of_nat m) by lia.
      assert (Elo : Z.of_nat (S lo) = Z.of_nat lo + 1) by lia.
      destruct (wr_firstn hand (List.length p) x) as (hand1 & E1 & HL1 & HF1); [lia|].
      rewrite Epos in E1. rewrite E1. cbn [bind].
      rewrite Hs, combs_cons, map_app, map_map, fold_opt_app.
      rewrite (map_ext (fun h => p ++ x :: h) (app (p ++ [x])))
        by (intros h; now rewrite <- app_assoc).
      specialize (IHm (S lo) (p ++ [x]) hand1 freq).
      rewrite Elo in IHm.
      destruct (loops T the_deck m (Z.of_nat lo + 1) (hand1, freq))
        as [[hand2 freq2]|].
      * destruct IHm as (E2 & HL2 & HF2).
        -- rewrite length_app. simpl. lia.
        -- lia.
        -- lia.
        -- rewrite length_app, Nat.add_1_r, HF1, HF. reflexivity.
        -- rewrite E2. cbn [bind].
           specialize (IHn (S lo) hand2 freq2 HL2).
           rewrite Elo in IHn. apply IHn; [|lia].
           now apply (firstn_prefix hand2 p [x]).
      * rewrite IHm; [reflexivity | | lia | lia |].
        -- rewrite length_app. simpl. lia.
        -- rewrite length_app, Nat.add_1_r, HF1, HF. reflexivity.
Qed.

(** [main] tallies the hands of [combs the_deck 5], in this order. *)
Lemma main_freq_fold :
  main_freq T = fold_opt (tally T) (combs the_deck 5) (repeat 0 10).
Proof.
  unfold main_freq. rewrite (init_deck_the_deck (repeat 0 52) eq_refl).
  cbn [bind].
  change (for_range 0 10 (fun i freq => wr freq i 0) (repeat 0 10))
    with (Some (repeat 0 10)).
  cbn [bind]. rewrite all_hands_loop_loops.
  pose proof (loops_fold 5 0 [] (repeat 0 5) (repeat 0 10)
                eq_refl ltac:(lia) eq_refl eq_refl) as H.
  change (Z.of_nat 0) with 0 in H. change (skipn 0 the_deck) with the_deck in H.
  rewrite (map_ext (app []) (fun h => h)), map_id in H by reflexivity.
  destruct (loops T the_deck 5 0 (repeat 0 5, repeat 0 10)) as [[hand' freq']|].
  - destruct H as (-> & _). reflexivity.
  - now rewrite H.
Qed.

(** One more hand in the frequency array. *)
Lemma tally_Some (hand freq : list Z) (v : Z) :
  List.length freq = 10%nat -> eval_5hand T hand = Some v ->
  exists freq',
    tally T hand freq = Some freq'
    /\ List.length freq' = 10%nat
    /\ (forall k, nth k freq' 0
                  = nth k freq 0 + if Z.of_nat k =? hand_rank v then 1 else 0).
Proof.
  intros HL Ev. unfold tally, incr_freq. rewrite Ev. cbn [bind].
  pose proof (hand_rank_range v) as Hr.
  rewrite rd_nth_in_range by lia. cbn [bind].
  destruct (wr_Some freq (hand_rank v) (nth (Z.to_nat (hand_rank v)) freq 0 + 1))
    as (freq' & E & HL' & _ & Hnth); [lia|].
  exists freq'. split; [exact E|]. split; [lia|].
  intros k. rewrite Hnth.
  destruct (Nat.eqb_spec k (Z.to_nat (hand_rank v))) as [->|Hne].
  - rewrite Z2Nat.id, Z.eqb_refl by lia. reflexivity.
  - destruct (Z.eqb_spec (Z.of_nat k) (hand_rank v)); lia.
Qed.

Lemma hands_in_category_cons (hand : list Z) (hands : list (list Z)) (v n : Z) :
  eval_5hand T hand = Some v ->
  hands_in_category T (hand :: hands) n
  = (if n =? hand_rank v then 1 else 0) + hands_in_category T hands n.
Proof.
  intros Ev. unfold hands_in_category. cbn [filter]. rewrite Ev.
  rewrite (Z.eqb_sym n). destruct (hand_rank v =? n); cbn [List.length]; lia.
Qed.

Lemma tally_fold_counts (hands : list (list Z)) :
  forall freq,
    List.length freq = 10%nat ->
    fold_opt (tally T) hands freq
    = if forallb (evaluates T) hands
      then Some (map (fun n => nth n freq 0 + hands_in_category T hands (Z.of_nat n))
                     (seq 0 10))
      else None.
Proof.
  induction hands as [|hand hands IH]; intros freq HL.
  - cbn [fold_opt forallb]. f_equal.
    do 10 (destruct freq as [|? freq]; [discriminate HL|]).
    destruct freq; [|discriminate HL].
    cbn. now rewrite !Z.add_0_r.
  - cbn [fold_opt forallb]. unfold evaluates at 1.
    destruct (eval_5hand T hand) as [v|] eqn:Ev.
    + destruct (tally_Some hand freq v HL Ev) as (freq' & -> & HL' & Hnth).
      cbn [bind andb]. rewrite (IH freq' HL').
      destruct (forallb (evaluates T) hands); [|reflexivity].
      f_equal. apply map_ext. intros n.
      rewrite Hnth, (hands_in_category_cons hand hands v _ Ev). lia.
    + unfold tally. rewrite Ev. reflexivity.
Qed.

Lemma tally_fold_total (hands : list (list Z)) :
  forall freq freq',
    List.length freq = 10%nat ->
    fold_opt (tally T) hands freq = Some freq' ->
    List.length freq' = 10%nat
    /\ nth 0 freq' 0 = nth 0 freq 0
    /\ fold_right Z.add 0 freq'
       = fold_right Z.add 0 freq + Z.of_nat (List.length hands).
Proof.
  induction hands as [|hand hands IH]; intros freq freq' HL.
  - intros [= <-]. split; [exact HL|]. split; [reflexivity|]. simpl. lia.
  - cbn [fold_opt].
    destruct (eval_5hand T hand) as [v|] eqn:Ev;
      [|unfold tally; rewrite Ev; discriminate].
    destruct (tally_Some hand freq v HL Ev) as (freq1 & -> & HL1 & Hnth).
    cbn [bind]. intros E.
    destruct (IH freq1 freq' HL1 E) as (HL' & H0 & Hsum).
    split; [exact HL'|].
    pose proof (hand_rank_range v) as Hr.
    split.
    + rewrite H0, Hnth.
      destruct (Z.eqb_spec (Z.of_nat 0) (hand_rank v)); lia.
    + rewrite Hsum. cbn [List.length]. rewrite Nat2Z.inj_succ.
      enough (fold_right Z.add 0 freq1 = fold_right Z.add 0 freq + 1) by lia.
      clear - HL HL1 Hnth Hr.
      do 10 (destruct freq as [|? freq]; [discriminate HL|]).
      destruct freq; [|discriminate HL].
      do 10 (destruct freq1 as [|? freq1]; [discriminate HL1|]).
      destruct freq1; [|discriminate HL1].
      pose proof (Hnth 0%nat) as N0. pose proof (Hnth 1%nat) as N1.
      pose proof (Hnth 2%nat) as N2. pose proof (Hnth 3%nat) as N3.
      pose proof (Hnth 4%nat) as N4. pose proof (Hnth 5%nat) as N5.
      pose proof (Hnth 6%nat) as N6. pose proof (Hnth 7%nat) as N7.
      pose proof (Hnth 8%nat) as N8. pose proof (Hnth 9%nat) as N9.
      cbn [nth] in *. clear Hnth HL HL1.
      cbn [fold_right].
      assert (E : hand_rank v = 1 \/ hand_rank v = 2 \/ hand_rank v = 3
                  \/ hand_rank v = 4 \/ hand_rank v = 5 \/ hand_rank v = 6
                  \/ hand_rank v = 7 \/ hand_rank v = 8 \/ hand_rank v = 9) by lia.
      destruct E as [E|[E|[E|[E|[E|[E|[E|[E|E]]]]]]]];
        rewrite E in N0, N1, N2, N3, N4, N5, N6, N7, N8, N9;
        cbn in N0, N1, N2, N3, N4, N5, N6, N7, N8, N9; lia.
Qed.

End AnyTables.

(** The number of hands of five cards of the deck. *)
Lemma combs_the_deck_length : Z.of_nat (List.length (combs the_deck 5)) = 2598960.
Proof.
  unfold the_deck. rewrite combs_map, length_map.
  pose proof (total_tally_hands [] (combs deck_cards 5) no_tallies) as Ht.
  rewrite <- count_hands_tally, all_hands_tally in Ht.
  change (total no_tallies) with 0%N in Ht.
  change (total (Tallies 40 624 3744 5108 10200 54912 123552 1098240 1302540 0))
    with 2598960%N in Ht.
  lia.
Qed.

(** X21: on any tables, [main] of allfive.c ends its enumeration when
    [eval_5hand] returns on every hand of five cards of the deck, and
    [freq[n]] is then the number of these hands that [eval_5hand] and
    [hand_rank] put in the category [n], for [n] from 0 to 9; it does
    not end otherwise. *)
Theorem main_freq_any_tables (T : arrays) :
  main_freq T
  = if forallb (evaluates T) (combs the_deck 5)
    then Some (map (fun n => hands_in_category T (combs the_deck 5) (Z.of_nat n))
                   (seq 0 10))
    else None.
Proof.
  rewrite main_freq_fold, tally_fold_counts by reflexivity.
  destruct (forallb (evaluates T) (combs the_deck 5)); reflexivity.
Qed.

(** X22: whatever the tables, the frequencies [main] of allfive.c ends
    with add up to the 2,598,960 hands, and [freq[0]] is zero. *)
Theorem main_freq_total (T : arrays) (freq : list Z) :
  main_freq T = Some freq ->
  List.length freq = 10%nat
  /\ nth 0 freq 0 = 0
  /\ fold_right Z.add 0 freq = 2598960.
Proof.
  rewrite main_freq_fold. intros E.
  destruct (tally_fold_total T (combs the_deck 5) (repeat 0 10) freq eq_refl E)
    as (HL & H0 & Hsum).
  split; [exact HL|]. split; [exact H0|].
  rewrite Hsum, combs_the_deck_length. reflexivity.
Qed.

(** The frequencies under the contract of the tables. *)
Lemma main_freq_contract (T : arrays) :
  tables_contract T -> main_freq T = Some expected_freq.
Proof.
  intros contract. unfold main_freq.
  rewrite (init_deck_the_deck (repeat 0 52) eq_refl). cbn [bind].
  change (for_range 0 10 (fun i freq => wr freq i 0) (repeat 0 10))
    with (Some (freq_of no_tallies)).
  cbn [bind]. rewrite all_hands_loop_loops.
  destruct (loops_tally T contract 5 0 [] (repeat 0 5) no_tallies)
    as (hand' & E & _); [reflexivity | simpl; lia | |].
  - repeat split.
    + exact deck_cards_NoDup.
    + intros c Hc. now apply deck_cards_ranks.
  - change (Z.of_nat 0) with 0 in E. rewrite E. cbn [bind snd].
    change (skipn 0 deck_cards) with deck_cards.
    rewrite <- count_hands_tally, all_hands_tally. reflexivity.
Qed.

(** An instance of [main_freq_total]. *)
Lemma main_freq_total_witness :
  List.length expected_freq = 10%nat
  /\ nth 0 expected_freq 0 = 0
  /\ fold_right Z.add 0 expected_freq = 2598960.
Proof.
  apply (main_freq_total arrays_model expected_freq).
  apply main_freq_contract. exact arrays_model_contract.
Defined.
